(** * ASRock Industrial MCP server: product search with browser/HTTP fallback

    A shallow embedding of [config.py], [fallback_scraper.py] and [server.py]
    of [mcp_server_asrockind], and the properties of its search tool.

    Python [str] values are lists of code points, [int] values are [Z],
    [float] delay bounds are rationals, [dict]s are finite maps.  The
    browser, the HTTP session and the DOM query layer are external: their
    answers come from an environment record, indexed by a clock that
    advances at every external call, and every external call is recorded
    in a trace. *)

From Stdlib Require Import ZArith QArith List Ascii String Lia.
From stdpp Require Import gmap list.

Local Open Scope Z_scope.

(** ** Python strings *)

(** A Python [str]: a sequence of Unicode code points. *)
Abbreviation str := (list N).

Fixpoint py (s : string) : str :=
  match s with
  | EmptyString => []
  | String c s' => N_of_ascii c :: py s'
  end.

(** [len(s)] *)
Definition len {A} (l : list A) : Z := Z.of_nat (length l).

(** [str.isspace] on one code point: the code points [str.strip()]
    removes (CPython's [Py_UNICODE_ISSPACE]). *)
Definition isspace (c : N) : bool :=
  ((9 <=? c) && (c <=? 13) || (28 <=? c) && (c <=? 32)
   || (c =? 133) || (c =? 160) || (c =? 5760)
   || (8192 <=? c) && (c <=? 8202)
   || (c =? 8232) || (c =? 8233) || (c =? 8239) || (c =? 8287)
   || (c =? 12288))%N.

Fixpoint lstrip (s : str) : str :=
  match s with
  | [] => []
  | c :: s' => if isspace c then lstrip s' else s
  end.

Definition rstrip (s : str) : str := rev (lstrip (rev s)).

(** [s.strip()] *)
Definition strip (s : str) : str := rstrip (lstrip s).

(** Truthiness of a [str] or a list: non-empty. *)
Definition truthy {A} (l : list A) : bool :=
  match l with [] => false | _ => true end.

(** [s.lower()], on the range the comparisons of this program can see:
    the two words it is compared with are ASCII and contain no [k], and
    outside [A-Z] Python's lowering yields an ASCII letter only for the
    Kelvin sign (to [k]); so lowering [A-Z] decides the same membership. *)
Definition lower_char (c : N) : N :=
  if ((65 <=? c) && (c <=? 90))%N then (c + 32)%N else c.

Definition lower (s : str) : str := map lower_char s.

(** [sep.join(parts)] *)
Fixpoint join (sep : str) (parts : list str) : str :=
  match parts with
  | [] => []
  | [p] => p
  | p :: ps => p ++ sep ++ join sep ps
  end.

(** [s.split()]: the maximal runs of non-whitespace code points.
    [cur] is the run being read, reversed. *)
Fixpoint split_ws_aux (cur : str) (s : str) : list str :=
  match s with
  | [] => if truthy cur then [rev cur] else []
  | c :: s' =>
      if isspace c
      then (if truthy cur then rev cur :: split_ws_aux [] s' else split_ws_aux [] s')
      else split_ws_aux (c :: cur) s'
  end.

Definition split_ws (s : str) : list str := split_ws_aux [] s.

(** [s.split('/')[-1]]: what follows the last [/]. *)
Fixpoint last_segment_aux (cur : str) (s : str) : str :=
  match s with
  | [] => rev cur
  | c :: s' => if (c =? 47)%N then last_segment_aux [] s' else last_segment_aux (c :: cur) s'
  end.

Definition last_segment (s : str) : str := last_segment_aux [] s.

(** [s[:n]] for a Python [int] [n]: a negative [n] counts from the end. *)
Definition slice_to {A} (l : list A) (n : Z) : list A :=
  if 0 <=? n then take (Z.to_nat n) l
  else take (Z.to_nat (len l + n)) l.

(** ** The DOM query layer (BeautifulSoup) *)

(** An element, as far as its text goes: the strings below it, in
    document order. *)
Record Tag := { strings : list str }.

(** [tag.text] *)
Definition text (t : Tag) : str := concat (strings t).

Definition stripped_strings (t : Tag) : list str :=
  filter (fun s => truthy s = true) (map strip (strings t)).

(** [tag.get_text(strip=True)] *)
Definition get_text_strip (t : Tag) : str := concat (stripped_strings t).

(** [tag.get_text(separator=' ', strip=True)] *)
Definition get_text_sep_strip (t : Tag) : str := join (py " ") (stripped_strings t).

(** A [table] element with what the two extractors ask of it. *)
Record Table := {
  class_table_spec : bool;          (* selected by [table.table-spec] *)
  class_contains_spec : bool;       (* selected by [table[class*="spec"]] *)
  prev_h3_title_sub : option Tag;   (* [find_previous('h3', class_='title-sub')] *)
  prev_h3 : option Tag;             (* [find_previous('h3')] *)
  prev_h2 : option Tag;             (* [find_previous('h2')] *)
  prev_h4 : option Tag;             (* [find_previous('h4')] *)
  rows : list (list Tag)            (* [select('tr')], and per row [select('td, th')] *)
}.

(** An [a.whole-link.d-block] element. *)
Record Link := {
  href : option str;                (* [link['href']], absent: [KeyError] *)
  product_title : option Tag        (* [select_one('div.product-title')] *)
}.

(** A parsed page. *)
Record Soup := {
  no_result : bool;                 (* [select_one('div.no-result')] is found *)
  product_links : list Link;        (* [select('a.whole-link.d-block')] *)
  tables : list Table;              (* the [table] elements, in document order *)
  desc_elements : list Tag          (* [select('.product-desc, .overview, .description')] *)
}.

(** ** Specification extraction *)

(** [f"{category} - {key}" if category else key] *)
Definition full_key (category key : str) : str :=
  if truthy category then category ++ py " - " ++ key else key.

(** One pass of [specs[full_key] = value] over the rows of a table;
    [entry] decides what a row contributes. *)
Definition add_rows (entry : list Tag -> option (str * str))
    (specs : gmap str str) (rs : list (list Tag)) : gmap str str :=
  fold_left (fun acc cells =>
               match entry cells with
               | Some (k, v) => <[k := v]> acc
               | None => acc
               end) rs specs.

Module BrowserExtract.

(** Category: the text of the previous [h3.title-sub], stripped. *)
Definition category (t : Table) : str :=
  match prev_h3_title_sub t with
  | Some h => strip (text h)
  | None => []
  end.

(** The body of the row loop of [_extract_specifications]. *)
Definition row_entry (cat : str) (cells : list Tag) : option (str * str) :=
  if 2 <=? len cells then
    match cells with
    | c0 :: c1 :: _ =>
        let key := strip (text c0) in
        let value := strip (text c1) in
        if truthy key && truthy value
        then Some (full_key cat key, value)
        else None
    | _ => None
    end
  else None.

Definition spec_tables (soup : Soup) : list Table :=
  filter (fun t => class_table_spec t = true) (tables soup).

(** [ProductScraper._extract_specifications] *)
Definition _extract_specifications (soup : Soup) : gmap str str :=
  fold_left (fun specs t => add_rows (row_entry (category t)) specs (rows t))
            (spec_tables soup) ∅.

End BrowserExtract.

Module FallbackExtract.

(** Category: the first of the previous [h3], [h2], [h4] that exists. *)
Definition heading (t : Table) : option Tag :=
  match prev_h3 t with
  | Some h => Some h
  | None =>
      match prev_h2 t with
      | Some h => Some h
      | None => prev_h4 t
      end
  end.

Definition category (t : Table) : str :=
  match heading t with
  | Some h => get_text_strip h
  | None => []
  end.

(** [key.lower() in ['specification', 'feature']] *)
Definition is_header_word (key : str) : bool :=
  bool_decide (lower key = py "specification")
  || bool_decide (lower key = py "feature").

(** The body of the row loop of [_extract_specifications_simple]. *)
Definition row_entry (cat : str) (cells : list Tag) : option (str * str) :=
  if 2 <=? len cells then
    match cells with
    | c0 :: c1 :: _ =>
        let key := get_text_strip c0 in
        let value := get_text_strip c1 in
        if truthy key && truthy value && negb (is_header_word key)
        then Some (full_key cat key, value)
        else None
    | _ => None
    end
  else None.

Definition spec_tables (soup : Soup) : list Table :=
  filter (fun t => class_table_spec t || class_contains_spec t = true) (tables soup).

(** The table loop. *)
Definition table_specs (soup : Soup) : gmap str str :=
  fold_left (fun specs t => add_rows (row_entry (category t)) specs (rows t))
            (spec_tables soup) ∅.

(** [text[:500] + '...' if len(text) > 500 else text] *)
Definition truncate_description (t : str) : str :=
  if 500 <? len t then slice_to t 500 ++ py "..." else t.

(** The description loop: the first element whose stripped text is
    longer than 10 code points. *)
Fixpoint first_description (descs : list Tag) : option str :=
  match descs with
  | [] => None
  | d :: descs' =>
      let t := get_text_strip d in
      if truthy t && (10 <? len t) then Some t else first_description descs'
  end.

(** [FallbackScraper._extract_specifications_simple] *)
Definition _extract_specifications_simple (soup : Soup) : gmap str str :=
  let specs := table_specs soup in
  if bool_decide (specs = ∅) then
    match first_description (desc_elements soup) with
    | Some t => <[py "Description" := truncate_description t]> specs
    | None => specs
    end
  else specs.

End FallbackExtract.

(** ** Configuration ([config.py]) *)

(** [ScrapingConfig]; the [int] fields are read from the process
    environment by [int(os.getenv(...))] with no range check. *)
Record ScrapingConfig := {
  page_load_timeout : Z;
  element_wait_timeout : Z;
  implicit_wait : Z;
  max_retries : Z;
  retry_delay_min : Q;
  retry_delay_max : Q;
  max_products_per_search : Z;
  search_delay_min : Q;
  search_delay_max : Q;
  product_delay_min : Q;
  product_delay_max : Q
}.

Record ServerConfig := {
  server_name : str;
  base_url : str;
  save_debug_html : bool;
  debug_html_path : str
}.

(** The defaults of the two dataclasses. *)
Definition default_scraping_config : ScrapingConfig := {|
  page_load_timeout := 15;
  element_wait_timeout := 10;
  implicit_wait := 3;
  max_retries := 2;
  retry_delay_min := 2;
  retry_delay_max := 4;
  max_products_per_search := 3;
  search_delay_min := 1;
  search_delay_max := 2;
  product_delay_min := 1;
  product_delay_max := 2
|}.

Definition default_config : ServerConfig := {|
  server_name := py "mcp-asrockind";
  base_url := py "https://www.asrockind.com";
  save_debug_html := false;
  debug_html_path := py "debug_pages"
|}.

(** [range(n)] *)
Definition range (n : Z) : list Z := map Z.of_nat (seq 0 (Z.to_nat n)).

(** [enumerate(l)] *)
Definition enumerate {A} (l : list A) : list (Z * A) := combine (range (len l)) l.

(** ** The outside world *)

(** What an external call does: return, or raise with a message. *)
Inductive outcome (A : Type) :=
  | Returns (a : A)
  | Throws (msg : str).
Arguments Returns {A} a.
Arguments Throws {A} msg.

(** Python exceptions (the [Exception] subclasses the program meets). *)
Inductive exn :=
  | ValueError (msg : str)
  | AttributeError (msg : str)
  | KeyError (msg : str)
  | ExternalError (msg : str)      (* raised inside selenium, requests, urllib *)
  | McpError (msg : str).          (* what [call_tool] means to raise *)

(** [str(e)] *)
Definition exn_str (e : exn) : str :=
  match e with
  | ValueError m | AttributeError m | KeyError m | ExternalError m | McpError m => m
  end.

(** The call site of a [sleep]. *)
Inductive sleep_site :=
  | NavigationRetry        (* [safe_get], between navigation attempts *)
  | ProductDelay           (* browser path, between products *)
  | FallbackProductDelay   (* fallback path, between products *)
  | SearchDelay            (* orchestrator, at the start of an attempt *)
  | SearchBackoff.         (* orchestrator, in the handler of an attempt *)

Inductive debug_file :=
  | SearchResultsHtml
  | ProductHtml (product_num : Z).

(** The observable actions. *)
Inductive event :=
  | EvLaunch                         (* [webdriver.Chrome(...)] *)
  | EvConfigure                      (* [set_page_load_timeout], [implicitly_wait] *)
  | EvCdpCmd                         (* [execute_cdp_cmd] *)
  | EvScript                         (* [execute_script] *)
  | EvQuit                           (* [driver.quit()] *)
  | EvProbe                          (* [driver.current_url] *)
  | EvDriverGet (target : str)       (* [driver.get(url)] *)
  | EvWait                           (* [WebDriverWait(...).until(...)] *)
  | EvPageSource                     (* [driver.page_source] *)
  | EvSaveDebug (f : debug_file)     (* [_save_debug_html] *)
  | EvHttpGet (target : str)         (* [session.get(url)] *)
  | EvSleep (site : sleep_site) (lo hi : Q).

(** The answers of the browser, the web site and the URL library.  The
    [nat] is the clock at the call. *)
Record Env := {
  chrome_launch : nat -> outcome unit;
  chrome_configure : nat -> outcome unit;
  execute_cdp_cmd : nat -> outcome unit;
  driver_current_url : nat -> outcome unit;
  driver_get : nat -> str -> outcome unit;
  wait_until : nat -> outcome unit;
  driver_page_source : nat -> outcome Soup;       (* and its parse *)
  session_get : nat -> str -> outcome Soup;       (* with [raise_for_status] and the parse *)
  quote : str -> outcome str;                     (* [urllib.parse.quote] *)
  urljoin : str -> str -> outcome str             (* [urllib.parse.urljoin] *)
}.

(** [WebDriverManager]'s fields; a driver is named by the clock of its launch. *)
Record WebDriverManager := {
  driver : option nat;
  _initialization_failed : bool
}.

(** [WebDriverManager.__init__] *)
Definition WebDriverManager_init : WebDriverManager :=
  {| driver := None; _initialization_failed := false |}.

Record State := {
  mgr : WebDriverManager;
  clock : nat;
  trace : list event
}.

Definition initial_state : State :=
  {| mgr := WebDriverManager_init; clock := 0; trace := [] |}.

(** ** A state and exception monad *)

Inductive res (A : Type) :=
  | Ok (a : A)
  | Raised (e : exn).
Arguments Ok {A} a.
Arguments Raised {A} e.

Definition M (A : Type) : Type := State -> res A * State.

Definition ret {A} (a : A) : M A := fun s => (Ok a, s).

Definition bind {A B} (m : M A) (k : A -> M B) : M B :=
  fun s => match m s with
           | (Ok a, s') => k a s'
           | (Raised e, s') => (Raised e, s')
           end.

Definition raise {A} (e : exn) : M A := fun s => (Raised e, s).

(** [try: m  except Exception as e: handler e] *)
Definition try_catch {A} (m : M A) (handler : exn -> M A) : M A :=
  fun s => match m s with
           | (Ok a, s') => (Ok a, s')
           | (Raised e, s') => handler e s'
           end.

Declare Scope py_scope.
Delimit Scope py_scope with py.
Notation "x <- m ;; k" := (bind m (fun x => k))
  (at level 100, m at next level, right associativity) : py_scope.
Notation "m ;;; k" := (bind m (fun _ => k))
  (at level 100, right associativity) : py_scope.
Local Open Scope py_scope.

Definition get_mgr : M WebDriverManager := fun s => (Ok (mgr s), s).

Definition set_driver (d : option nat) : M unit :=
  fun s => (Ok tt, {| mgr := {| driver := d;
                               _initialization_failed := _initialization_failed (mgr s) |};
                      clock := clock s; trace := trace s |}).

Definition set_initialization_failed (b : bool) : M unit :=
  fun s => (Ok tt, {| mgr := {| driver := driver (mgr s); _initialization_failed := b |};
                      clock := clock s; trace := trace s |}).

(** An external action: it is recorded and the clock advances. *)
Definition tick (ev : event) : M nat :=
  fun s => (Ok (clock s),
            {| mgr := mgr s; clock := S (clock s); trace := trace s ++ [ev] |}).

Definition lift {A} (o : outcome A) : M A :=
  match o with
  | Returns a => ret a
  | Throws msg => raise (ExternalError msg)
  end.

Definition call {A} (ev : event) (answer : nat -> outcome A) : M A :=
  t <- tick ev ;; lift (answer t).

(** [time.sleep(random.uniform(lo, hi))] and its [asyncio] form. *)
Definition sleep (site : sleep_site) (lo hi : Q) : M unit :=
  tick (EvSleep site lo hi) ;;; ret tt.

(** ** Results of a search *)

(** The [dict] built for one product. *)
Record Product := {
  name : str;
  url : str;
  specifications : gmap str str
}.

(** [response_data["search_info"]] *)
Record SearchInfo := {
  source : str;
  info_max_products_per_search : Z;
  search_method : str
}.

(** [response_data], the envelope that [call_tool] serialises. *)
Record Response := {
  query : str;
  total_results : Z;
  products : list Product;
  search_info : SearchInfo
}.

(** A value of the [arguments] dict of a tool call. *)
#[warnings="-register-all"]
Inductive pyval :=
  | PNone
  | PBool (b : bool)
  | PInt (z : Z)
  | PStr (s : str)
  | PList (l : list pyval).

(** [bool(v)] *)
Definition pyval_truthy (v : pyval) : bool :=
  match v with
  | PNone => false
  | PBool b => b
  | PInt z => negb (z =? 0)
  | PStr s => truthy s
  | PList l => truthy l
  end.

(** [type(v).__name__] *)
Definition pyval_type_name (v : pyval) : str :=
  match v with
  | PNone => py "NoneType"
  | PBool _ => py "bool"
  | PInt _ => py "int"
  | PStr _ => py "str"
  | PList _ => py "list"
  end.

(** [AsrockindTools.SEARCH_PRODUCTS.value] *)
Definition SEARCH_PRODUCTS : str := py "asrock_industrial_product_search".

(** What one turn of a retry loop decides. *)
Inductive turn (A : Type) :=
  | Return (a : A)
  | Continue.
Arguments Return {A} a.
Arguments Continue {A}.

Section Program.

Variable scraping_config : ScrapingConfig.
Variable config : ServerConfig.
Variable E : Env.

(** *** [WebDriverManager] *)

(** [cleanup_driver]: what [quit] raises is swallowed. *)
Definition cleanup_driver : M unit :=
  m <- get_mgr ;;
  match driver m with
  | Some _ => tick EvQuit ;;; set_driver None
  | None => ret tt
  end.

(** [_setup_anti_detection]: the script is not run when the CDP
    command raises; either way nothing is raised. *)
Definition _setup_anti_detection : M unit :=
  try_catch (call EvCdpCmd (execute_cdp_cmd E) ;;; tick EvScript ;;; ret tt)
            (fun _ => ret tt).

Definition setup_driver : M bool :=
  m <- get_mgr ;;
  if _initialization_failed m then ret false
  else
    try_catch
      ((match driver m with
        | Some _ => cleanup_driver
        | None => ret tt
        end) ;;;
       t <- tick EvLaunch ;;
       lift (chrome_launch E t) ;;;
       set_driver (Some t) ;;;
       call EvConfigure (chrome_configure E) ;;;
       _setup_anti_detection ;;;
       ret true)
      (fun _ => set_initialization_failed true ;;; ret false).

Definition is_driver_alive : M bool :=
  m <- get_mgr ;;
  if _initialization_failed m || negb (bool_decide (is_Some (driver m)))
  then ret false
  else try_catch (call EvProbe (driver_current_url E) ;;; ret true)
                 (fun _ => ret false).

Definition ensure_driver : M bool :=
  m <- get_mgr ;;
  match driver m with
  | None => setup_driver
  | Some _ =>
      alive <- is_driver_alive ;;
      if negb alive then setup_driver else ret true
  end.

(** The body of the loop of [safe_get]. *)
Definition safe_get_attempt (target : str) (attempt : Z) : M (turn bool) :=
  try_catch
    (ok <- ensure_driver ;;
     if negb ok then ret (Return false)
     else call (EvDriverGet target) (fun t => driver_get E t target) ;;;
          ret (Return true))
    (fun _ =>
       if attempt <? max_retries scraping_config - 1
       then sleep NavigationRetry (retry_delay_min scraping_config)
                  (retry_delay_max scraping_config) ;;;
            ret Continue
       else ret (Return false)).

Fixpoint safe_get_loop (target : str) (attempts : list Z) : M bool :=
  match attempts with
  | [] => ret false
  | attempt :: rest =>
      r <- safe_get_attempt target attempt ;;
      match r with
      | Return b => ret b
      | Continue => safe_get_loop target rest
      end
  end.

Definition safe_get (target : str) : M bool :=
  m <- get_mgr ;;
  if _initialization_failed m then ret false
  else safe_get_loop target (range (max_retries scraping_config)).

(** *** [ProductScraper] *)

(** [_save_debug_html]: never raises. *)
Definition _save_debug_html (f : debug_file) : M unit :=
  tick (EvSaveDebug f) ;;; ret tt.

Definition save_debug_if_enabled (f : debug_file) : M unit :=
  if save_debug_html config then _save_debug_html f else ret tt.

(** The name of a product: the title element's text with its
    whitespace runs collapsed, else the last segment of the URL. *)
Definition product_name (link : Link) (product_url : str) : str :=
  match product_title link with
  | Some e => join (py " ") (split_ws (get_text_sep_strip e))
  | None => last_segment product_url
  end.

(** [link_element['href']] resolved against the base URL. *)
Definition resolve_href (link : Link) : M str :=
  match href link with
  | Some h => lift (urljoin E (base_url config) h)
  | None => raise (KeyError (py "'href'"))
  end.

Definition _scrape_single_product (link : Link) (product_num : Z) : M (option Product) :=
  try_catch
    (product_url <- resolve_href link ;;
     let product_name := product_name link product_url in
     ok <- safe_get product_url ;;
     if negb ok then ret None
     else
       try_catch (call EvWait (wait_until E)) (fun _ => ret tt) ;;;
       soup <- call EvPageSource (driver_page_source E) ;;
       save_debug_if_enabled (ProductHtml product_num) ;;;
       ret (Some {| name := product_name;
                    url := product_url;
                    specifications := BrowserExtract._extract_specifications soup |}))
    (fun _ => ret None).

(** [products.append(product)] when the product is not [None]. *)
Definition append_product (products : list Product) (p : option Product) : list Product :=
  match p with
  | Some p => products ++ [p]
  | None => products
  end.

(** The product loop of [scrape_search_results]; [n] is
    [len(product_links)].  No step after the append can raise, so
    the handler meets the list as it was. *)
Fixpoint scrape_links (n : Z) (links : list (Z * Link)) (products : list Product)
    : M (list Product) :=
  match links with
  | [] => ret products
  | (i, link) :: rest =>
      products' <-
        try_catch
          (product <- _scrape_single_product link (i + 1) ;;
           let products' := append_product products product in
           (if i <? n - 1
            then sleep ProductDelay (product_delay_min scraping_config)
                       (product_delay_max scraping_config)
            else ret tt) ;;;
           ret products')
          (fun _ => ret products) ;;
      scrape_links n rest products'
  end.

(** [f"{base_url}/en-gb/product/search?search={quote(query)}"] *)
Definition search_url (q : str) : M str :=
  quoted <- lift (quote E q) ;;
  ret (base_url config ++ py "/en-gb/product/search?search=" ++ quoted).

Definition scrape_search_results (q : str) : M (list Product) :=
  target <- search_url q ;;
  ok <- safe_get target ;;
  if negb ok then ret []
  else
    found <- try_catch (call EvWait (wait_until E) ;;; ret true) (fun _ => ret false) ;;
    if negb found then ret []
    else
      soup <- call EvPageSource (driver_page_source E) ;;
      save_debug_if_enabled SearchResultsHtml ;;;
      if no_result soup then ret []
      else
        let product_links :=
          slice_to (product_links soup) (max_products_per_search scraping_config) in
        scrape_links (len product_links) (enumerate product_links) [].

(** *** [FallbackScraper] *)

Definition _scrape_single_product_fallback (link : Link) (product_num : Z)
    : M (option Product) :=
  try_catch
    (product_url <- resolve_href link ;;
     let product_name := product_name link product_url in
     soup <- call (EvHttpGet product_url) (fun t => session_get E t product_url) ;;
     ret (Some {| name := product_name;
                  url := product_url;
                  specifications := FallbackExtract._extract_specifications_simple soup |}))
    (fun _ => ret None).

Fixpoint fallback_links (n : Z) (links : list (Z * Link)) (products : list Product)
    : M (list Product) :=
  match links with
  | [] => ret products
  | (i, link) :: rest =>
      products' <-
        try_catch
          (product <- _scrape_single_product_fallback link (i + 1) ;;
           let products' := append_product products product in
           (if i <? n - 1
            then sleep FallbackProductDelay (1 # 2) 1
            else ret tt) ;;;
           ret products')
          (fun _ => ret products) ;;
      fallback_links n rest products'
  end.

(** [FallbackScraper.search_products]: the URL is built outside the
    [try]. *)
Definition fallback_search_products (q : str) : M (list Product) :=
  target <- search_url q ;;
  try_catch
    (soup <- call (EvHttpGet target) (fun t => session_get E t target) ;;
     if no_result soup then ret []
     else
       let product_links :=
         slice_to (product_links soup) (max_products_per_search scraping_config) in
       fallback_links (len product_links) (enumerate product_links) [])
    (fun _ => ret []).

(** *** [AsrockindServer] *)

(** [AsrockindServer.__init__]: the driver is set up once, and a
    failure is only logged. *)
Definition AsrockindServer_init : M unit :=
  setup_driver ;;; ret tt.

(** The browser part of an attempt: skipped when the session is
    poisoned; a non-empty list is returned at once, an empty list or
    an exception leads on to the fallback. *)
Definition browser_attempt (q : str) : M (turn (list Product)) :=
  m <- get_mgr ;;
  if negb (_initialization_failed m)
  then try_catch
         (products <- scrape_search_results q ;;
          if truthy products then ret (Return products) else ret Continue)
         (fun _ => ret Continue)
  else ret Continue.

(** The fallback part of an attempt. *)
Definition fallback_attempt (q : str) : M (turn (list Product)) :=
  products <- fallback_search_products q ;;
  if truthy products then ret (Return products) else ret Continue.

(** The [try] body of one attempt of [search_products]. *)
Definition search_attempt_body (q : str) : M (turn (list Product)) :=
  sleep SearchDelay (search_delay_min scraping_config)
        (search_delay_max scraping_config) ;;;
  r <- browser_attempt q ;;
  match r with
  | Return products => ret (Return products)
  | Continue => fallback_attempt q
  end.

(** One attempt with its handler: the backoff sleep is in the
    [except] clause. *)
Definition search_attempt (q : str) (attempt : Z) : M (turn (list Product)) :=
  try_catch
    (search_attempt_body q)
    (fun _ =>
       if attempt <? max_retries scraping_config - 1
       then sleep SearchBackoff (retry_delay_min scraping_config * 2)%Q
                  (retry_delay_max scraping_config * 2)%Q ;;;
            ret Continue
       else ret Continue).

Fixpoint search_loop (q : str) (attempts : list Z) : M (list Product) :=
  match attempts with
  | [] => ret []
  | attempt :: rest =>
      r <- search_attempt q attempt ;;
      match r with
      | Return products => ret products
      | Continue => search_loop q rest
      end
  end.

(** [AsrockindServer.search_products] *)
Definition search_products (q : str) : M (list Product) :=
  search_loop q (range (max_retries scraping_config)).

(** *** The tool *)

Definition search_method_of (m : WebDriverManager) : str :=
  if negb (_initialization_failed m)
  then py "Selenium + Fallback (requests)"
  else py "Fallback only (requests)".

(** [query.strip()] on whatever [arguments.get("query")] gave. *)
Definition pyval_strip (v : pyval) : M str :=
  match v with
  | PStr s => ret (strip s)
  | _ => raise (AttributeError
                  (py "'" ++ pyval_type_name v ++ py "' object has no attribute 'strip'"))
  end.

(** The [try] body of [call_tool]. *)
Definition call_tool_body (tool : str) (arguments : gmap str pyval) : M Response :=
  if bool_decide (tool = SEARCH_PRODUCTS) then
    match arguments !! py "query" with
    | None => raise (ValueError (py "Missing required argument: query"))
    | Some v =>
        if negb (pyval_truthy v)
        then raise (ValueError (py "Missing required argument: query"))
        else
          q <- pyval_strip v ;;
          if len q <? 2
          then raise (ValueError (py "Search query must be at least 2 characters long"))
          else
            result <- search_products q ;;
            m <- get_mgr ;;
            ret {| query := q;
                   total_results := len result;
                   products := result;
                   search_info :=
                     {| source := py "ASRock Industrial website";
                        info_max_products_per_search :=
                          max_products_per_search scraping_config;
                        search_method := search_method_of m |} |}
    end
  else raise (ValueError (py "Unknown tool: " ++ tool)).

(** [McpError(error)] with a [str] for [error].  [McpError] is the
    exception class of the [mcp] library (1.2 and later): it is built
    from an [ErrorData], and its [__init__] begins with
    [super().__init__(error.message)].  A [str] has no attribute
    [message], so the construction itself raises, and no [McpError]
    comes out of it. *)
Definition McpError_init (error : str) : M exn :=
  raise (AttributeError (py "'str' object has no attribute 'message'")).

(** [call_tool]: the handler builds the [McpError] and then raises
    it. *)
Definition call_tool (tool : str) (arguments : gmap str pyval) : M Response :=
  try_catch (call_tool_body tool arguments)
            (fun e =>
               error <- McpError_init (py "Error processing request: " ++ exn_str e) ;;
               raise error).

End Program.

(** ** Reading a trace *)

Definition is_http_get (ev : event) : bool :=
  match ev with
  | EvHttpGet _ => true
  | _ => false
  end.

Definition is_backoff (ev : event) : bool :=
  match ev with
  | EvSleep SearchBackoff _ _ => true
  | _ => false
  end.

Definition is_search_delay (ev : event) : bool :=
  match ev with
  | EvSleep SearchDelay _ _ => true
  | _ => false
  end.

(** The state in which the loop of [search_products] starts its next
    attempt after the attempts [attempts], when each of them ended
    with no result. *)
Fixpoint skip_attempts (scraping_config : ScrapingConfig) (config : ServerConfig)
    (E : Env) (q : str) (attempts : list Z) (s : State) : option State :=
  match attempts with
  | [] => Some s
  | attempt :: rest =>
      match search_attempt scraping_config config E q attempt s with
      | (Ok Continue, s') => skip_attempts scraping_config config E q rest s'
      | _ => None
      end
  end.

(** ** The life of the process *)

(** What the process may do with its server object, in any order:
    the methods of the driver manager, the two scrapers, the
    orchestrator and the tool. *)
Inductive operation :=
  | OpSetupDriver
  | OpIsDriverAlive
  | OpEnsureDriver
  | OpSafeGet (target : str)
  | OpCleanupDriver
  | OpScrapeSearchResults (q : str)
  | OpFallbackSearch (q : str)
  | OpSearchProducts (q : str)
  | OpCallTool (tool : str) (arguments : gmap str pyval).

Definition run_operation (scraping_config : ScrapingConfig) (config : ServerConfig)
    (E : Env) (o : operation) (s : State) : State :=
  match o with
  | OpSetupDriver => (setup_driver E s).2
  | OpIsDriverAlive => (is_driver_alive E s).2
  | OpEnsureDriver => (ensure_driver E s).2
  | OpSafeGet target => (safe_get scraping_config E target s).2
  | OpCleanupDriver => (cleanup_driver s).2
  | OpScrapeSearchResults q => (scrape_search_results scraping_config config E q s).2
  | OpFallbackSearch q => (fallback_search_products scraping_config config E q s).2
  | OpSearchProducts q => (search_products scraping_config config E q s).2
  | OpCallTool tool arguments => (call_tool scraping_config config E tool arguments s).2
  end.

Definition run_operations (scraping_config : ScrapingConfig) (config : ServerConfig)
    (E : Env) (ops : list operation) (s : State) : State :=
  fold_left (fun s o => run_operation scraping_config config E o s) ops s.

(** ** Sample pages *)

Module Samples.

(** An element holding one string. *)
Definition tag (s : string) : Tag := {| strings := [py s] |}.

(** A spec table under the heading "System". *)
Definition system_table : Table := {|
  class_table_spec := true;
  class_contains_spec := true;
  prev_h3_title_sub := Some (tag "System");
  prev_h3 := Some (tag "System");
  prev_h2 := None;
  prev_h4 := None;
  rows := [[tag "CPU"; tag " Intel Atom x6425E "]]
|}.

(** A spec table with no heading before it, a header row and a row
    of one cell. *)
Definition header_table : Table := {|
  class_table_spec := true;
  class_contains_spec := true;
  prev_h3_title_sub := None;
  prev_h3 := None;
  prev_h2 := None;
  prev_h4 := None;
  rows := [[tag "Specification"; tag "Value"];
           [tag "Memory"; tag "8 GB"];
           [tag "Lonely"]]
|}.

Definition page (links : list Link) (ts : list Table) (descs : list Tag) : Soup :=
  {| no_result := false; product_links := links; tables := ts; desc_elements := descs |}.

Definition system_page : Soup := page [] [system_table] [].
Definition header_page : Soup := page [] [header_table] [].

(** Pages with no table and one description block, of 600 and of 19
    code points. *)
Definition long_text : str := repeat 97%N 600.
Definition long_description_page : Soup := page [] [] [{| strings := [long_text] |}].
Definition short_description_page : Soup := page [] [] [tag "  A rugged fanless PC "].

(** A product link and the search page that lists [n] of them. *)
Definition sbc_link : Link :=
  {| href := Some (py "/en-gb/SBC-230");
     product_title := Some {| strings := [py " SBC-230 "; py "Single  Board Computer"] |} |}.

Definition catalog_page (n : nat) : Soup :=
  {| no_result := false; product_links := repeat sbc_link n;
     tables := [system_table]; desc_elements := [] |}.

Definition empty_page : Soup := page [] [] [].

(** A spec table whose heading is there but holds only blanks. *)
Definition blank_heading_table : Table := {|
  class_table_spec := true;
  class_contains_spec := true;
  prev_h3_title_sub := Some (tag "  ");
  prev_h3 := Some (tag "  ");
  prev_h2 := None;
  prev_h4 := None;
  rows := [[tag "CPU"; tag "Atom"]]
|}.

Definition blank_heading_page : Soup := page [] [blank_heading_table] [].

(** A page with no table and one description block of 10 code
    points. *)
Definition ten_char_description_page : Soup := page [] [] [tag "Fanless PC"].

(** A page with no table and two description blocks, the first too
    short to count. *)
Definition two_descriptions_page : Soup :=
  page [] [] [tag "Fanless PC"; tag "  A rugged fanless PC "].

(** A world in which everything works and every page is [soup]. *)
Definition healthy_env (soup : Soup) : Env := {|
  chrome_launch := fun _ => Returns tt;
  chrome_configure := fun _ => Returns tt;
  execute_cdp_cmd := fun _ => Returns tt;
  driver_current_url := fun _ => Returns tt;
  driver_get := fun _ _ => Returns tt;
  wait_until := fun _ => Returns tt;
  driver_page_source := fun _ => Returns soup;
  session_get := fun _ _ => Returns soup;
  quote := fun q => Returns q;
  urljoin := fun base h => Returns (base ++ h)
|}.

(** A world with no browser binary: every launch raises. *)
Definition no_browser_env (soup : Soup) : Env := {|
  chrome_launch := fun _ => Throws (py "chrome not found");
  chrome_configure := fun _ => Returns tt;
  execute_cdp_cmd := fun _ => Returns tt;
  driver_current_url := fun _ => Returns tt;
  driver_get := fun _ _ => Returns tt;
  wait_until := fun _ => Returns tt;
  driver_page_source := fun _ => Returns soup;
  session_get := fun _ _ => Returns soup;
  quote := fun q => Returns q;
  urljoin := fun base h => Returns (base ++ h)
|}.

(** A world in which the query cannot be URL-encoded (a lone
    surrogate): [quote] raises. *)
Definition unquotable_env : Env := {|
  chrome_launch := fun _ => Returns tt;
  chrome_configure := fun _ => Returns tt;
  execute_cdp_cmd := fun _ => Returns tt;
  driver_current_url := fun _ => Returns tt;
  driver_get := fun _ _ => Returns tt;
  wait_until := fun _ => Returns tt;
  driver_page_source := fun _ => Returns empty_page;
  session_get := fun _ _ => Returns empty_page;
  quote := fun _ => Throws (py "surrogates not allowed");
  urljoin := fun base h => Returns (base ++ h)
|}.

(** A world whose web site cannot be reached: the browser starts, but
    every navigation raises, and so does every request of the
    fallback session. *)
Definition unreachable_site_env : Env := {|
  chrome_launch := fun _ => Returns tt;
  chrome_configure := fun _ => Returns tt;
  execute_cdp_cmd := fun _ => Returns tt;
  driver_current_url := fun _ => Returns tt;
  driver_get := fun _ _ => Throws (py "net::ERR_CONNECTION_REFUSED");
  wait_until := fun _ => Returns tt;
  driver_page_source := fun _ => Returns empty_page;
  session_get := fun _ _ => Throws (py "Connection refused");
  quote := fun q => Returns q;
  urljoin := fun base h => Returns (base ++ h)
|}.


End Samples.

(** * Properties *)

(** ** Strings *)

Lemma truthy_true {A} (l : list A) : truthy l = true <-> l <> [].
Proof. destruct l; simpl; split; intros; congruence. Qed.

Lemma truthy_false {A} (l : list A) : truthy l = false <-> l = [].
Proof. destruct l; simpl; split; intros; congruence. Qed.

Lemma len_nonneg {A} (l : list A) : 0 <= len l.
Proof. unfold len. lia. Qed.

Lemma lstrip_head (c : N) (s : str) : isspace c = false -> lstrip (c :: s) = c :: s.
Proof. intros H. simpl. now rewrite H. Qed.

(** A string that neither starts nor ends with whitespace is its own
    [strip]. *)
Lemma strip_clean (s : str) :
  (forall c, head s = Some c -> isspace c = false) ->
  (forall c, last s = Some c -> isspace c = false) ->
  strip s = s.
Proof.
  intros Hh Hl. unfold strip, rstrip.
  assert (Hs : lstrip s = s).
  { destruct s as [|c s]; [reflexivity|]. apply lstrip_head, Hh. reflexivity. }
  rewrite Hs.
  destruct (rev s) as [|c r] eqn:Hr.
  - apply (f_equal (@rev N)) in Hr. rewrite rev_involutive in Hr. now subst.
  - rewrite lstrip_head.
    + rewrite <- Hr. apply rev_involutive.
    + apply Hl. apply (f_equal (@rev N)) in Hr. rewrite rev_involutive in Hr.
      subst s. simpl. apply last_snoc.
Qed.

Lemma slice_to_length {A} (l : list A) (n : Z) :
  0 <= n -> len (slice_to l n) <= n.
Proof.
  intros Hn. unfold slice_to, len.
  destruct (Z.leb_spec 0 n); [|lia].
  rewrite length_take. lia.
Qed.

Lemma slice_to_exact {A} (l : list A) (n : Z) :
  0 <= n -> n <= len l -> len (slice_to l n) = n.
Proof.
  intros Hn Hl. unfold slice_to, len in *.
  destruct (Z.leb_spec 0 n); [|lia].
  rewrite length_take. lia.
Qed.

(** ** Specification extraction *)

Section AddRows.

Variable entry : list Tag -> option (str * str).

(** Whatever is in the dict after a pass over rows was there before
    or is what some row of the pass contributes. *)
Lemma add_rows_lookup (rs : list (list Tag)) :
  forall (specs : gmap str str) (k v : str),
    add_rows entry specs rs !! k = Some v ->
    specs !! k = Some v \/ exists cells, cells ∈ rs /\ entry cells = Some (k, v).
Proof.
  induction rs as [|cells rs IH]; intros specs k v H.
  - now left.
  - unfold add_rows in H. simpl in H. apply IH in H. clear IH.
    destruct H as [H | (cells' & Hin & He)].
    + destruct (entry cells) as [[k' v']|] eqn:He.
      * apply lookup_insert_Some in H. destruct H as [[-> ->] | [_ H]].
        -- right. exists cells. split; [apply list_elem_of_here | exact He].
        -- now left.
      * now left.
    + right. exists cells'. split; [now apply list_elem_of_further | exact He].
Qed.

(** A pass over rows that contribute nothing changes nothing. *)
Lemma add_rows_none (rs : list (list Tag)) (specs : gmap str str) :
  (forall cells, cells ∈ rs -> entry cells = None) ->
  add_rows entry specs rs = specs.
Proof.
  revert specs. induction rs as [|cells rs IH]; intros specs H; [reflexivity|].
  unfold add_rows. simpl. rewrite (H cells) by apply list_elem_of_here.
  apply IH. intros c Hc. apply H. now apply list_elem_of_further.
Qed.

End AddRows.

(** The same, for the loop over tables of either extractor. *)
Lemma table_loop_lookup (entry : str -> list Tag -> option (str * str))
    (cat : Table -> str) (ts : list Table) :
  forall (specs : gmap str str) (k v : str),
    fold_left (fun acc t => add_rows (entry (cat t)) acc (rows t)) ts specs !! k = Some v ->
    specs !! k = Some v \/
    exists t cells, t ∈ ts /\ cells ∈ rows t /\ entry (cat t) cells = Some (k, v).
Proof.
  induction ts as [|t ts IH]; intros specs k v H.
  - now left.
  - simpl in H. apply IH in H. clear IH.
    destruct H as [H | (t' & cells & Ht & Hc & He)].
    + apply add_rows_lookup in H. destruct H as [H | (cells & Hc & He)].
      * now left.
      * right. exists t, cells. split; [apply list_elem_of_here | auto].
    + right. exists t', cells. split; [now apply list_elem_of_further | auto].
Qed.

(** *** What the loops keep *)

Section RowsAsDict.

Variable entry : list Tag -> option (str * str).

Lemma add_rows_cons (specs : gmap str str) (cells : list Tag) (rs : list (list Tag)) :
  add_rows entry specs (cells :: rs)
  = add_rows entry (match entry cells with
                    | Some (k, v) => <[k := v]> specs
                    | None => specs
                    end) rs.
Proof. reflexivity. Qed.

Lemma add_rows_app (specs : gmap str str) (rs1 rs2 : list (list Tag)) :
  add_rows entry specs (rs1 ++ rs2) = add_rows entry (add_rows entry specs rs1) rs2.
Proof. unfold add_rows. apply fold_left_app. Qed.

(** Rows that do not contribute the key [k] leave its value alone. *)
Lemma add_rows_other (k : str) (rs : list (list Tag)) :
  forall specs : gmap str str,
    (forall cells v, cells ∈ rs -> entry cells <> Some (k, v)) ->
    add_rows entry specs rs !! k = specs !! k.
Proof.
  induction rs as [|cells rs IH]; intros specs Hno; [reflexivity|].
  rewrite add_rows_cons.
  rewrite IH.
  - destruct (entry cells) as [[k' v']|] eqn:He; [|reflexivity].
    apply lookup_insert_ne. intros ->.
    exact (Hno cells v' (list_elem_of_here _ _) He).
  - intros c v Hc. apply Hno. now apply list_elem_of_further.
Qed.

(** A key that is in the dict stays in it. *)
Lemma add_rows_keeps_keys (k : str) (rs : list (list Tag)) :
  forall specs : gmap str str,
    is_Some (specs !! k) -> is_Some (add_rows entry specs rs !! k).
Proof.
  induction rs as [|cells rs IH]; intros specs Hk; [exact Hk|].
  rewrite add_rows_cons. apply IH.
  destruct (entry cells) as [[k' v']|]; [|exact Hk].
  destruct (decide (k' = k)) as [->|Hne].
  - rewrite lookup_insert_eq. eauto.
  - now rewrite lookup_insert_ne.
Qed.

(** The key of a contributing row is in the dict after the pass. *)
Lemma add_rows_present (k v : str) (cells : list Tag) (rs : list (list Tag)) :
  forall specs : gmap str str,
    cells ∈ rs -> entry cells = Some (k, v) ->
    is_Some (add_rows entry specs rs !! k).
Proof.
  induction rs as [|c rs IH]; intros specs Hin He.
  - now apply elem_of_nil in Hin.
  - apply elem_of_cons in Hin. destruct Hin as [<- | Hin].
    + rewrite add_rows_cons. rewrite He.
      apply add_rows_keeps_keys. rewrite lookup_insert_eq. eauto.
    + rewrite add_rows_cons. now apply IH.
Qed.

(** The last row that contributes [k] decides its value. *)
Lemma add_rows_last (k v : str) (cells : list Tag) (rs1 rs2 : list (list Tag))
    (specs : gmap str str) :
  entry cells = Some (k, v) ->
  (forall c v', c ∈ rs2 -> entry c <> Some (k, v')) ->
  add_rows entry specs (rs1 ++ cells :: rs2) !! k = Some v.
Proof.
  intros He Hno. rewrite add_rows_app.
  rewrite add_rows_cons. rewrite He.
  rewrite add_rows_other by exact Hno. apply lookup_insert_eq.
Qed.

End RowsAsDict.

Section TablesAsDict.

Variable entry : str -> list Tag -> option (str * str).
Variable cat : Table -> str.

(** The loop over tables of either extractor. *)
Definition table_loop (ts : list Table) (specs : gmap str str) : gmap str str :=
  fold_left (fun acc t => add_rows (entry (cat t)) acc (rows t)) ts specs.

Lemma table_loop_cons (t : Table) (ts : list Table) (specs : gmap str str) :
  table_loop (t :: ts) specs = table_loop ts (add_rows (entry (cat t)) specs (rows t)).
Proof. reflexivity. Qed.

Lemma table_loop_app (ts1 ts2 : list Table) (specs : gmap str str) :
  table_loop (ts1 ++ ts2) specs = table_loop ts2 (table_loop ts1 specs).
Proof. unfold table_loop. apply fold_left_app. Qed.

Lemma table_loop_other (k : str) (ts : list Table) :
  forall specs : gmap str str,
    (forall t cells v, t ∈ ts -> cells ∈ rows t -> entry (cat t) cells <> Some (k, v)) ->
    table_loop ts specs !! k = specs !! k.
Proof.
  induction ts as [|t ts IH]; intros specs Hno; [reflexivity|].
  rewrite table_loop_cons. rewrite IH.
  - apply add_rows_other. intros cells v Hc. apply (Hno t); [apply list_elem_of_here | exact Hc].
  - intros t' cells v Ht. apply Hno. now apply list_elem_of_further.
Qed.

Lemma table_loop_keeps_keys (k : str) (ts : list Table) :
  forall specs : gmap str str,
    is_Some (specs !! k) -> is_Some (table_loop ts specs !! k).
Proof.
  induction ts as [|t ts IH]; intros specs Hk; [exact Hk|].
  rewrite table_loop_cons.
  apply IH. now apply add_rows_keeps_keys.
Qed.

Lemma table_loop_present (k v : str) (t : Table) (cells : list Tag) (ts : list Table) :
  forall specs : gmap str str,
    t ∈ ts -> cells ∈ rows t -> entry (cat t) cells = Some (k, v) ->
    is_Some (table_loop ts specs !! k).
Proof.
  induction ts as [|t' ts IH]; intros specs Ht Hc He.
  - now apply elem_of_nil in Ht.
  - rewrite table_loop_cons.
    apply elem_of_cons in Ht. destruct Ht as [<- | Ht].
    + apply table_loop_keeps_keys. now apply (add_rows_present _ k v cells).
    + now apply IH.
Qed.

Lemma table_loop_last (k v : str) (t : Table) (cells : list Tag)
    (ts1 ts2 : list Table) (rs1 rs2 : list (list Tag)) (specs : gmap str str) :
  rows t = rs1 ++ cells :: rs2 ->
  entry (cat t) cells = Some (k, v) ->
  (forall c v', c ∈ rs2 -> entry (cat t) c <> Some (k, v')) ->
  (forall t' c v', t' ∈ ts2 -> c ∈ rows t' -> entry (cat t') c <> Some (k, v')) ->
  table_loop (ts1 ++ t :: ts2) specs !! k = Some v.
Proof.
  intros Hrows He Hrest Hlater.
  rewrite table_loop_app, table_loop_cons.
  rewrite table_loop_other by exact Hlater.
  rewrite Hrows. now apply add_rows_last.
Qed.

End TablesAsDict.

Lemma browser_row_entry_inv (cat : str) (cells : list Tag) (k v : str) :
  BrowserExtract.row_entry cat cells = Some (k, v) ->
  exists c0 c1 rest,
    cells = c0 :: c1 :: rest /\
    strip (text c0) <> [] /\ v = strip (text c1) /\ v <> [] /\
    k = full_key cat (strip (text c0)).
Proof.
  unfold BrowserExtract.row_entry. intros H.
  destruct (2 <=? len cells); [|discriminate].
  destruct cells as [|c0 [|c1 rest]]; try discriminate.
  destruct (truthy (strip (text c0))) eqn:Hk; [|discriminate].
  destruct (truthy (strip (text c1))) eqn:Hv; [|discriminate].
  simpl in H. injection H as <- <-.
  exists c0, c1, rest. rewrite <- !truthy_true. repeat split; auto.
Qed.

Lemma fallback_row_entry_inv (cat : str) (cells : list Tag) (k v : str) :
  FallbackExtract.row_entry cat cells = Some (k, v) ->
  exists c0 c1 rest,
    cells = c0 :: c1 :: rest /\
    get_text_strip c0 <> [] /\ v = get_text_strip c1 /\ v <> [] /\
    FallbackExtract.is_header_word (get_text_strip c0) = false /\
    k = full_key cat (get_text_strip c0).
Proof.
  unfold FallbackExtract.row_entry. intros H.
  destruct (2 <=? len cells); [|discriminate].
  destruct cells as [|c0 [|c1 rest]]; try discriminate.
  destruct (truthy (get_text_strip c0)) eqn:Hk; [|discriminate].
  destruct (truthy (get_text_strip c1)) eqn:Hv; [|discriminate].
  destruct (FallbackExtract.is_header_word (get_text_strip c0)) eqn:Hw; [discriminate|].
  simpl in H. injection H as <- <-.
  exists c0, c1, rest. rewrite <- !truthy_true. repeat split; auto.
Qed.

Lemma two_cells_len (c0 c1 : Tag) (rest : list Tag) : 2 <= len (c0 :: c1 :: rest).
Proof. unfold len. simpl. lia. Qed.

Lemma full_key_category (cat key : str) :
  cat <> [] -> full_key cat key = cat ++ py " - " ++ key.
Proof. intros H. unfold full_key. apply truthy_true in H. now rewrite H. Qed.

Lemma full_key_plain (key : str) : full_key [] key = key.
Proof. reflexivity. Qed.

(** *** Rows and header rows *)

Example browser_system_page :
  BrowserExtract._extract_specifications Samples.system_page
  = {[ py "System - CPU" := py "Intel Atom x6425E" ]}.
Proof. vm_compute. reflexivity. Qed.

Example fallback_header_page :
  FallbackExtract._extract_specifications_simple Samples.header_page
  = {[ py "Memory" := py "8 GB" ]}.
Proof. vm_compute. reflexivity. Qed.

(** C7, as stated, fails: the browser-driven extraction keeps a row
    whose first cell reads "Specification"; on the sample page the row
    [Specification | Value] yields an entry. *)
Lemma browser_header_row_kept :
  ~ (forall soup t cells c0 rest,
       t ∈ BrowserExtract.spec_tables soup -> cells ∈ rows t ->
       cells = c0 :: rest ->
       FallbackExtract.is_header_word (strip (text c0)) = true ->
       BrowserExtract._extract_specifications soup
         !! full_key (BrowserExtract.category t) (strip (text c0)) = None).
Proof.
  intros H.
  assert (Ht : Samples.header_table ∈ BrowserExtract.spec_tables Samples.header_page)
    by apply list_elem_of_here.
  assert (Hc : [Samples.tag "Specification"; Samples.tag "Value"]
                 ∈ rows Samples.header_table)
    by apply list_elem_of_here.
  pose proof (H _ _ _ (Samples.tag "Specification") [Samples.tag "Value"]
                Ht Hc eq_refl eq_refl) as Hnone.
  vm_compute in Hnone. discriminate.
Qed.

(** C7, amended: in both extractions an entry of the table loop comes
    from a row of at least 2 cells, of a selected table; in the
    fallback extraction the first cell of that row does not read
    "specification" or "feature" (in any letter case).  The
    browser-driven extraction has no such test. *)
Theorem row_contribution (soup : Soup) (k v : str) :
  (BrowserExtract._extract_specifications soup !! k = Some v ->
   exists t cells,
     t ∈ BrowserExtract.spec_tables soup /\ cells ∈ rows t /\
     2 <= len cells /\
     BrowserExtract.row_entry (BrowserExtract.category t) cells = Some (k, v))
  /\
  (FallbackExtract.table_specs soup !! k = Some v ->
   exists t cells c0,
     t ∈ FallbackExtract.spec_tables soup /\ cells ∈ rows t /\
     2 <= len cells /\ head cells = Some c0 /\
     lower (get_text_strip c0) <> py "specification" /\
     lower (get_text_strip c0) <> py "feature" /\
     FallbackExtract.row_entry (FallbackExtract.category t) cells = Some (k, v)).
Proof.
  split; intros H.
  - apply table_loop_lookup in H. destruct H as [H | (t & cells & Ht & Hc & He)].
    + rewrite lookup_empty in H. discriminate.
    + exists t, cells. repeat split; auto.
      apply browser_row_entry_inv in He. destruct He as (c0 & c1 & rest & -> & _).
      apply two_cells_len.
  - apply table_loop_lookup in H. destruct H as [H | (t & cells & Ht & Hc & He)].
    + rewrite lookup_empty in H. discriminate.
    + pose proof He as He'.
      apply fallback_row_entry_inv in He'.
      destruct He' as (c0 & c1 & rest & -> & _ & _ & _ & Hw & _).
      exists t, (c0 :: c1 :: rest), c0.
      unfold FallbackExtract.is_header_word in Hw.
      apply orb_false_elim in Hw. destruct Hw as [Hs Hf].
      apply bool_decide_eq_false in Hs. apply bool_decide_eq_false in Hf.
      repeat split; auto. apply two_cells_len.
Qed.

(** A row of fewer than 2 cells contributes nothing, in either
    extraction; a header row contributes nothing in the fallback. *)
Lemma short_row_no_entry (cat : str) (cells : list Tag) :
  len cells < 2 ->
  BrowserExtract.row_entry cat cells = None /\
  FallbackExtract.row_entry cat cells = None.
Proof.
  intros H. unfold BrowserExtract.row_entry, FallbackExtract.row_entry.
  destruct (Z.leb_spec 2 (len cells)); [lia | auto].
Qed.

Lemma fallback_header_row_no_entry (cat : str) (c0 : Tag) (rest : list Tag) :
  FallbackExtract.is_header_word (get_text_strip c0) = true ->
  FallbackExtract.row_entry cat (c0 :: rest) = None.
Proof.
  intros H. unfold FallbackExtract.row_entry.
  destruct (2 <=? len (c0 :: rest)); [|reflexivity].
  destruct rest as [|c1 rest]; [reflexivity|].
  rewrite H. rewrite andb_false_r. reflexivity.
Qed.

(** *** Keys *)

Lemma browser_row_entry_some (cat : str) (c0 c1 : Tag) (rest : list Tag) :
  strip (text c0) <> [] -> strip (text c1) <> [] ->
  BrowserExtract.row_entry cat (c0 :: c1 :: rest)
  = Some (full_key cat (strip (text c0)), strip (text c1)).
Proof.
  intros Hk Hv. unfold BrowserExtract.row_entry.
  pose proof (two_cells_len c0 c1 rest) as Hlen.
  destruct (Z.leb_spec 2 (len (c0 :: c1 :: rest))); [|lia].
  apply truthy_true in Hk, Hv. now rewrite Hk, Hv.
Qed.

Lemma fallback_row_entry_some (cat : str) (c0 c1 : Tag) (rest : list Tag) :
  get_text_strip c0 <> [] -> get_text_strip c1 <> [] ->
  FallbackExtract.is_header_word (get_text_strip c0) = false ->
  FallbackExtract.row_entry cat (c0 :: c1 :: rest)
  = Some (full_key cat (get_text_strip c0), get_text_strip c1).
Proof.
  intros Hk Hv Hw. unfold FallbackExtract.row_entry.
  pose proof (two_cells_len c0 c1 rest) as Hlen.
  destruct (Z.leb_spec 2 (len (c0 :: c1 :: rest))); [|lia].
  apply truthy_true in Hk, Hv. now rewrite Hk, Hv, Hw.
Qed.

(** The fallback extraction keeps the keys of its table loop: the
    description is looked for only when the loop found nothing. *)
Lemma fallback_keeps_table_keys (soup : Soup) (k : str) :
  is_Some (FallbackExtract.table_specs soup !! k) ->
  is_Some (FallbackExtract._extract_specifications_simple soup !! k).
Proof.
  intros Hk. unfold FallbackExtract._extract_specifications_simple. cbv zeta.
  case_bool_decide as Hempty; [|exact Hk].
  rewrite Hempty, lookup_empty in Hk. destruct Hk as [x Hx]. discriminate.
Qed.

(** C8, as stated, fails: a heading that is found but holds only
    blanks gives the bare field as the key.  On the sample page, whose
    only table follows such a heading, both extractions return the key
    [CPU], which is [<category> - CPU] for no category at all. *)
Lemma blank_heading_key_is_bare :
  ~ (forall soup k v,
       BrowserExtract._extract_specifications soup !! k = Some v ->
       exists t c0 rest,
         t ∈ BrowserExtract.spec_tables soup /\ c0 :: rest ∈ rows t /\
         match prev_h3_title_sub t with
         | Some h => exists category, k = category ++ py " - " ++ strip (text c0)
         | None => k = strip (text c0)
         end)
  /\
  ~ (forall soup k v,
       FallbackExtract._extract_specifications_simple soup !! k = Some v ->
       exists t c0 rest,
         t ∈ FallbackExtract.spec_tables soup /\ c0 :: rest ∈ rows t /\
         match FallbackExtract.heading t with
         | Some h => exists category, k = category ++ py " - " ++ get_text_strip c0
         | None => k = get_text_strip c0
         end).
Proof.
  split; intros H.
  - assert (Hin : BrowserExtract._extract_specifications Samples.blank_heading_page
                    !! py "CPU" = Some (py "Atom")) by (vm_compute; reflexivity).
    destruct (H _ _ _ Hin) as (t & c0 & rest & Ht & Hc & Hk).
    change (t ∈ [Samples.blank_heading_table]) in Ht.
    apply list_elem_of_singleton in Ht. subst t.
    change (c0 :: rest ∈ [[Samples.tag "CPU"; Samples.tag "Atom"]]) in Hc.
    apply list_elem_of_singleton in Hc. injection Hc as -> ->.
    change (exists category,
               py "CPU" = category ++ py " - " ++ strip (text (Samples.tag "CPU"))) in Hk.
    destruct Hk as [category Hk].
    apply (f_equal (@length N)) in Hk. rewrite length_app in Hk.
    change (length (py " - " ++ strip (text (Samples.tag "CPU")))) with 6%nat in Hk.
    change (length (py "CPU")) with 3%nat in Hk. lia.
  - assert (Hin : FallbackExtract._extract_specifications_simple Samples.blank_heading_page
                    !! py "CPU" = Some (py "Atom")) by (vm_compute; reflexivity).
    destruct (H _ _ _ Hin) as (t & c0 & rest & Ht & Hc & Hk).
    change (t ∈ [Samples.blank_heading_table]) in Ht.
    apply list_elem_of_singleton in Ht. subst t.
    change (c0 :: rest ∈ [[Samples.tag "CPU"; Samples.tag "Atom"]]) in Hc.
    apply list_elem_of_singleton in Hc. injection Hc as -> ->.
    change (exists category,
               py "CPU" = category ++ py " - " ++ get_text_strip (Samples.tag "CPU")) in Hk.
    destruct Hk as [category Hk].
    apply (f_equal (@length N)) in Hk. rewrite length_app in Hk.
    change (length (py " - " ++ get_text_strip (Samples.tag "CPU"))) with 6%nat in Hk.
    change (length (py "CPU")) with 3%nat in Hk. lia.
Qed.

(** C8, amended.  [<field>] is the stripped text of a row's first
    cell, [<category>] the stripped text of the heading of its table.
    In both extractions a row of a selected table that passes the row
    tests puts its key in the result: [<category> - <field>] when the
    heading is found and its text is not blank, [<field>] when no
    heading is found or its text is blank.  And every key of the
    result has one of these two forms, for some row of a selected
    table; the only other key is [Description], in the fallback
    extraction when its tables gave nothing. *)
Theorem spec_key_format (soup : Soup) (t : Table) (c0 c1 : Tag) (rest : list Tag) :
  c0 :: c1 :: rest ∈ rows t ->
  (t ∈ BrowserExtract.spec_tables soup ->
   strip (text c0) <> [] -> strip (text c1) <> [] ->
   let field := strip (text c0) in
   let specs := BrowserExtract._extract_specifications soup in
   match prev_h3_title_sub t with
   | Some h =>
       let category := strip (text h) in
       (category <> [] -> is_Some (specs !! (category ++ py " - " ++ field))) /\
       (category = [] -> is_Some (specs !! field))
   | None => is_Some (specs !! field)
   end)
  /\
  (t ∈ FallbackExtract.spec_tables soup ->
   get_text_strip c0 <> [] -> get_text_strip c1 <> [] ->
   FallbackExtract.is_header_word (get_text_strip c0) = false ->
   let field := get_text_strip c0 in
   let specs := FallbackExtract._extract_specifications_simple soup in
   match FallbackExtract.heading t with
   | Some h =>
       let category := get_text_strip h in
       (category <> [] -> is_Some (specs !! (category ++ py " - " ++ field))) /\
       (category = [] -> is_Some (specs !! field))
   | None => is_Some (specs !! field)
   end)
  /\
  (forall k v,
     BrowserExtract._extract_specifications soup !! k = Some v ->
     exists t' c rest',
       t' ∈ BrowserExtract.spec_tables soup /\ c :: rest' ∈ rows t' /\
       let field := strip (text c) in
       match prev_h3_title_sub t' with
       | Some h =>
           let category := strip (text h) in
           (category <> [] /\ k = category ++ py " - " ++ field)
           \/ (category = [] /\ k = field)
       | None => k = field
       end)
  /\
  (forall k v,
     FallbackExtract._extract_specifications_simple soup !! k = Some v ->
     (FallbackExtract.table_specs soup = ∅ /\ k = py "Description")
     \/
     exists t' c rest',
       t' ∈ FallbackExtract.spec_tables soup /\ c :: rest' ∈ rows t' /\
       let field := get_text_strip c in
       match FallbackExtract.heading t' with
       | Some h =>
           let category := get_text_strip h in
           (category <> [] /\ k = category ++ py " - " ++ field)
           \/ (category = [] /\ k = field)
       | None => k = field
       end).
Proof.
  intros Hrow. split; [|split; [|split]].
  - intros Ht Hk Hv field specs.
    assert (Hin : is_Some (specs !! full_key (BrowserExtract.category t) field)).
    { exact (table_loop_present BrowserExtract.row_entry BrowserExtract.category
               _ _ t _ _ ∅ Ht Hrow (browser_row_entry_some _ c0 c1 rest Hk Hv)). }
    unfold BrowserExtract.category in Hin.
    destruct (prev_h3_title_sub t) as [h|]; [|exact Hin].
    cbv zeta. split; intros Hc.
    + now rewrite (full_key_category _ field Hc) in Hin.
    + now rewrite Hc in Hin.
  - intros Ht Hk Hv Hw field specs.
    assert (Hin : is_Some (specs !! full_key (FallbackExtract.category t) field)).
    { apply fallback_keeps_table_keys.
      exact (table_loop_present FallbackExtract.row_entry FallbackExtract.category
               _ _ t _ _ ∅ Ht Hrow (fallback_row_entry_some _ c0 c1 rest Hk Hv Hw)). }
    unfold FallbackExtract.category in Hin.
    destruct (FallbackExtract.heading t) as [h|]; [|exact Hin].
    cbv zeta. split; intros Hc.
    + now rewrite (full_key_category _ field Hc) in Hin.
    + now rewrite Hc in Hin.
  - intros k v H.
    apply table_loop_lookup in H. destruct H as [H | (t' & cells & Ht & Hc & He)].
    { rewrite lookup_empty in H. discriminate. }
    apply browser_row_entry_inv in He.
    destruct He as (c & c' & rest' & -> & _ & _ & _ & ->).
    exists t', c, (c' :: rest'). repeat split; auto.
    unfold BrowserExtract.category. cbv zeta.
    destruct (prev_h3_title_sub t') as [h|]; [|reflexivity].
    destruct (strip (text h)) as [|x cat] eqn:Hcat.
    + right. auto.
    + left. split; [discriminate | reflexivity].
  - intros k v H.
    unfold FallbackExtract._extract_specifications_simple in H.
    assert (Htab : FallbackExtract.table_specs soup !! k = Some v ->
                   exists t' c rest',
                     t' ∈ FallbackExtract.spec_tables soup /\ c :: rest' ∈ rows t' /\
                     let field := get_text_strip c in
                     match FallbackExtract.heading t' with
                     | Some h =>
                         let category := get_text_strip h in
                         (category <> [] /\ k = category ++ py " - " ++ field)
                         \/ (category = [] /\ k = field)
                     | None => k = field
                     end).
    { clear H. intros H.
      apply table_loop_lookup in H. destruct H as [H | (t' & cells & Ht & Hc & He)].
      { rewrite lookup_empty in H. discriminate. }
      apply fallback_row_entry_inv in He.
      destruct He as (c & c' & rest' & -> & _ & _ & _ & _ & ->).
      exists t', c, (c' :: rest'). repeat split; auto.
      unfold FallbackExtract.category. cbv zeta.
      destruct (FallbackExtract.heading t') as [h|]; [|reflexivity].
      destruct (get_text_strip h) as [|x cat] eqn:Hcat.
      + right. auto.
      + left. split; [discriminate | reflexivity]. }
    case_bool_decide as Hempty; [|right; auto].
    destruct (FallbackExtract.first_description (desc_elements soup)) as [d|].
    + apply lookup_insert_Some in H. destruct H as [[<- _] | [_ H]].
      * left. auto.
      * right. auto.
    + right. auto.
Qed.

Lemma spec_key_format_witness :
  is_Some (BrowserExtract._extract_specifications Samples.system_page
             !! py "System - CPU") /\
  is_Some (FallbackExtract._extract_specifications_simple Samples.system_page
             !! py "System - CPU") /\
  is_Some (BrowserExtract._extract_specifications Samples.blank_heading_page
             !! py "CPU") /\
  is_Some (FallbackExtract._extract_specifications_simple Samples.blank_heading_page
             !! py "CPU").
Proof.
  assert (Hsys : [Samples.tag "CPU"; Samples.tag " Intel Atom x6425E "]
                   ∈ rows Samples.system_table) by apply list_elem_of_here.
  assert (Hblank : [Samples.tag "CPU"; Samples.tag "Atom"]
                     ∈ rows Samples.blank_heading_table) by apply list_elem_of_here.
  destruct (spec_key_format Samples.system_page Samples.system_table _ _ _ Hsys)
    as (Hb & Hf & _ & _).
  destruct (spec_key_format Samples.blank_heading_page Samples.blank_heading_table
              _ _ _ Hblank) as (Hb' & Hf' & _ & _).
  split; [|split; [|split]].
  - refine (proj1 (Hb _ _ _) _);
      [apply list_elem_of_here | | |]; vm_compute; discriminate.
  - refine (proj1 (Hf _ _ _ _) _);
      [apply list_elem_of_here | | | reflexivity |]; vm_compute; discriminate.
  - refine (proj2 (Hb' _ _ _) _);
      [apply list_elem_of_here | | | reflexivity]; vm_compute; discriminate.
  - refine (proj2 (Hf' _ _ _ _) _);
      [apply list_elem_of_here | | | reflexivity | reflexivity]; vm_compute; discriminate.
Defined.

Example browser_blank_heading_key :
  BrowserExtract.row_entry (strip (py "  ")) [Samples.tag "CPU"; Samples.tag "Atom"]
  = Some (py "CPU", py "Atom").
Proof. reflexivity. Qed.

(** *** The description block *)

Lemma first_description_inv (descs : list Tag) (t : str) :
  FallbackExtract.first_description descs = Some t ->
  exists d, d ∈ descs /\ t = get_text_strip d /\ 10 < len t.
Proof.
  induction descs as [|d descs IH]; simpl; [discriminate|].
  destruct (truthy (get_text_strip d) && (10 <? len (get_text_strip d))) eqn:Hd.
  - intros [= <-]. exists d. apply andb_true_iff in Hd. destruct Hd as [_ Hd].
    apply Z.ltb_lt in Hd. repeat split; [apply list_elem_of_here | exact Hd].
  - intros H. destruct (IH H) as (d' & Hin & Ht). exists d'.
    split; [now apply list_elem_of_further | exact Ht].
Qed.

Lemma fallback_no_table (soup : Soup) :
  FallbackExtract.spec_tables soup = [] -> FallbackExtract.table_specs soup = ∅.
Proof. intros H. unfold FallbackExtract.table_specs. now rewrite H. Qed.

Lemma first_description_found (skipped rest : list Tag) (d : Tag) :
  Forall (fun d' => len (get_text_strip d') <= 10) skipped ->
  10 < len (get_text_strip d) ->
  FallbackExtract.first_description (skipped ++ d :: rest) = Some (get_text_strip d).
Proof.
  intros Hs Hd. induction Hs as [|d' skipped Hd' _ IH]; simpl.
  - destruct (Z.ltb_spec 10 (len (get_text_strip d))); [|lia].
    destruct (get_text_strip d); [unfold len in Hd; simpl in Hd; lia | reflexivity].
  - destruct (Z.ltb_spec 10 (len (get_text_strip d'))); [lia|].
    rewrite andb_false_r. exact IH.
Qed.

Lemma first_description_none (descs : list Tag) :
  Forall (fun d => len (get_text_strip d) <= 10) descs ->
  FallbackExtract.first_description descs = None.
Proof.
  induction 1 as [|d descs Hd _ IH]; simpl; [reflexivity|].
  destruct (Z.ltb_spec 10 (len (get_text_strip d))); [lia|].
  rewrite andb_false_r. exact IH.
Qed.

(** C9, as stated, fails: a description block of 10 code points or
    fewer is not taken.  On a page with no table whose only
    description block reads [Fanless PC] the fallback extraction
    returns the empty dict, not that description in full. *)
Lemma short_description_dropped :
  ~ (forall soup d,
       FallbackExtract.spec_tables soup = [] ->
       desc_elements soup = [d] ->
       get_text_strip d <> [] ->
       len (get_text_strip d) <= 500 ->
       FallbackExtract._extract_specifications_simple soup
       = {[ py "Description" := get_text_strip d ]}).
Proof.
  intros H.
  assert (Hd : get_text_strip (Samples.tag "Fanless PC") <> [])
    by (vm_compute; discriminate).
  assert (Hlen : len (get_text_strip (Samples.tag "Fanless PC")) <= 500)
    by (vm_compute; discriminate).
  pose proof (H Samples.ten_char_description_page (Samples.tag "Fanless PC")
                eq_refl eq_refl Hd Hlen) as Heq.
  apply (f_equal (fun m : gmap str str => m !! py "Description")) in Heq.
  vm_compute in Heq. discriminate.
Qed.

(** C9, amended: when the fallback extraction finds no specification
    table, it takes the first description block whose stripped text
    [t] is longer than 10 code points, passing over the blocks before
    it that are not: the result is the single entry [Description],
    [t] itself when [t] has at most 500 code points, and its first 500
    code points followed by [...] when it has more.  When no
    description block is longer than 10 code points the result is
    empty. *)
Theorem description_fallback (soup : Soup) :
  FallbackExtract.spec_tables soup = [] ->
  (forall skipped d rest,
     desc_elements soup = skipped ++ d :: rest ->
     Forall (fun d' => len (get_text_strip d') <= 10) skipped ->
     10 < len (get_text_strip d) ->
     let t := get_text_strip d in
     (len t <= 500 ->
      FallbackExtract._extract_specifications_simple soup = {[ py "Description" := t ]})
     /\
     (500 < len t ->
      FallbackExtract._extract_specifications_simple soup
      = {[ py "Description" := take 500 t ++ py "..." ]}
      /\ len (take 500 t) = 500
      /\ len (take 500 t ++ py "...") = 503))
  /\
  (Forall (fun d => len (get_text_strip d) <= 10) (desc_elements soup) ->
   FallbackExtract._extract_specifications_simple soup = ∅).
Proof.
  intros Htab. split.
  - intros skipped d rest Hdesc Hshort Hlong t.
    unfold FallbackExtract._extract_specifications_simple.
    rewrite (fallback_no_table soup Htab), Hdesc,
      (first_description_found skipped rest d Hshort Hlong).
    rewrite bool_decide_eq_true_2 by reflexivity.
    unfold FallbackExtract.truncate_description. fold t.
    split; intros Hlen.
    + destruct (Z.ltb_spec 500 (len t)); [lia|]. reflexivity.
    + destruct (Z.ltb_spec 500 (len t)); [|lia].
      assert (Hslice : slice_to t 500 = take 500 t) by reflexivity.
      rewrite Hslice.
      assert (Htake : len (take 500 t) = 500).
      { unfold len in *. rewrite length_take. lia. }
      repeat split; auto.
      unfold len in *. rewrite length_app. simpl. lia.
  - intros Hall.
    unfold FallbackExtract._extract_specifications_simple.
    rewrite (fallback_no_table soup Htab), (first_description_none _ Hall).
    now rewrite bool_decide_eq_true_2 by reflexivity.
Qed.

Lemma description_fallback_witness :
  (FallbackExtract._extract_specifications_simple Samples.short_description_page
   = {[ py "Description" := py "A rugged fanless PC" ]})
  /\
  (FallbackExtract._extract_specifications_simple Samples.long_description_page
   = {[ py "Description" := repeat 97%N 500 ++ py "..." ]})
  /\
  (FallbackExtract._extract_specifications_simple Samples.two_descriptions_page
   = {[ py "Description" := py "A rugged fanless PC" ]})
  /\
  (FallbackExtract._extract_specifications_simple Samples.ten_char_description_page = ∅).
Proof.
  split; [|split; [|split]].
  - destruct (description_fallback Samples.short_description_page eq_refl) as [Hfound _].
    destruct (Hfound [] (Samples.tag "  A rugged fanless PC ") [] eq_refl)
      as [Hshort _]; [constructor | vm_compute; reflexivity |].
    apply Hshort. vm_compute. discriminate.
  - destruct (description_fallback Samples.long_description_page eq_refl) as [Hfound _].
    destruct (Hfound [] {| strings := [Samples.long_text] |} [] eq_refl)
      as [_ Hlong]; [constructor | vm_compute; reflexivity |].
    apply Hlong. vm_compute. reflexivity.
  - destruct (description_fallback Samples.two_descriptions_page eq_refl) as [Hfound _].
    destruct (Hfound [Samples.tag "Fanless PC"] (Samples.tag "  A rugged fanless PC ") []
                eq_refl) as [Hshort _];
      [repeat constructor; vm_compute; discriminate | vm_compute; reflexivity |].
    apply Hshort. vm_compute. discriminate.
  - destruct (description_fallback Samples.ten_char_description_page eq_refl) as [_ Hnone].
    apply Hnone. repeat constructor. vm_compute. discriminate.
Defined.

(** ** Invariants of the driver manager *)

(** [m] keeps the property [I] of the driver manager. *)
Definition keeps (I : WebDriverManager -> Prop) {A} (m : M A) : Prop :=
  forall s, I (mgr s) -> I (mgr (m s).2).

Section Keeps.

Variable I : WebDriverManager -> Prop.

Lemma keeps_ret {A} (a : A) : keeps I (ret a).
Proof. intros s H. exact H. Qed.

Lemma keeps_raise {A} (e : exn) : keeps I (@raise A e).
Proof. intros s H. exact H. Qed.

Lemma keeps_bind {A B} (m : M A) (k : A -> M B) :
  keeps I m -> (forall a, keeps I (k a)) -> keeps I (bind m k).
Proof.
  intros Hm Hk s Hs. unfold bind. specialize (Hm s Hs).
  destruct (m s) as [[a|e] s']; simpl in *; [now apply Hk | exact Hm].
Qed.

Lemma keeps_try_catch {A} (m : M A) (h : exn -> M A) :
  keeps I m -> (forall e, keeps I (h e)) -> keeps I (try_catch m h).
Proof.
  intros Hm Hh s Hs. unfold try_catch. specialize (Hm s Hs).
  destruct (m s) as [[a|e] s']; simpl in *; [exact Hm | now apply Hh].
Qed.

Lemma keeps_get_mgr : keeps I get_mgr.
Proof. intros s H. exact H. Qed.

Lemma keeps_tick (ev : event) : keeps I (tick ev).
Proof. intros s H. exact H. Qed.

Lemma keeps_lift {A} (o : outcome A) : keeps I (lift o).
Proof. destruct o; [apply keeps_ret | apply keeps_raise]. Qed.

Lemma keeps_call {A} (ev : event) (answer : nat -> outcome A) :
  keeps I (call ev answer).
Proof. apply keeps_bind; [apply keeps_tick | intros; apply keeps_lift]. Qed.

Lemma keeps_sleep (site : sleep_site) (lo hi : Q) : keeps I (sleep site lo hi).
Proof. apply keeps_bind; [apply keeps_tick | intros; apply keeps_ret]. Qed.

End Keeps.

Create HintDb keeps.
#[export] Hint Resolve keeps_ret keeps_raise keeps_get_mgr keeps_tick keeps_lift
  keeps_call keeps_sleep : keeps.

(** One structural step of a [keeps] proof. *)
Ltac keeps_step :=
  match goal with
  | |- keeps _ (if ?b then _ else _) => destruct b
  | |- keeps _ (match ?x with _ => _ end) => destruct x
  | |- keeps _ (bind _ _) => apply keeps_bind; [| intros ?]
  | |- keeps _ (try_catch _ _) => apply keeps_try_catch; [| intros ?]
  | |- keeps _ _ => solve [auto with keeps]
  end.

Ltac keeps_auto := repeat keeps_step.

(** The session is poisoned. *)
Definition poisoned (m : WebDriverManager) : Prop := _initialization_failed m = true.

Lemma keeps_poisoned_set_driver (d : option nat) : keeps poisoned (set_driver d).
Proof. intros s H. exact H. Qed.

Lemma keeps_poisoned_set_failed : keeps poisoned (set_initialization_failed true).
Proof. intros s H. reflexivity. Qed.

#[export] Hint Resolve keeps_poisoned_set_driver keeps_poisoned_set_failed : keeps.

Section ProgramInvariants.

Variable scraping_config : ScrapingConfig.
Variable config : ServerConfig.
Variable E : Env.

(** *** Nothing clears the poisoned flag *)

Lemma cleanup_driver_poisoned : keeps poisoned cleanup_driver.
Proof. unfold cleanup_driver. keeps_auto. Qed.
Hint Resolve cleanup_driver_poisoned : keeps.

Lemma _setup_anti_detection_keeps I : keeps I (_setup_anti_detection E).
Proof. unfold _setup_anti_detection. keeps_auto. Qed.
Hint Resolve _setup_anti_detection_keeps : keeps.

Lemma setup_driver_poisoned : keeps poisoned (setup_driver E).
Proof. unfold setup_driver. keeps_auto. Qed.
Hint Resolve setup_driver_poisoned : keeps.

Lemma is_driver_alive_keeps I : keeps I (is_driver_alive E).
Proof. unfold is_driver_alive. keeps_auto. Qed.
Hint Resolve is_driver_alive_keeps : keeps.

Lemma ensure_driver_poisoned : keeps poisoned (ensure_driver E).
Proof. unfold ensure_driver. keeps_auto. Qed.
Hint Resolve ensure_driver_poisoned : keeps.

Lemma safe_get_attempt_poisoned target attempt :
  keeps poisoned (safe_get_attempt scraping_config E target attempt).
Proof. unfold safe_get_attempt. keeps_auto. Qed.
Hint Resolve safe_get_attempt_poisoned : keeps.

Lemma safe_get_loop_poisoned target attempts :
  keeps poisoned (safe_get_loop scraping_config E target attempts).
Proof. induction attempts; simpl; keeps_auto. Qed.
Hint Resolve safe_get_loop_poisoned : keeps.

Lemma safe_get_poisoned target : keeps poisoned (safe_get scraping_config E target).
Proof. unfold safe_get. keeps_auto. Qed.
Hint Resolve safe_get_poisoned : keeps.

Lemma save_debug_keeps I f : keeps I (save_debug_if_enabled config f).
Proof. unfold save_debug_if_enabled, _save_debug_html. keeps_auto. Qed.
Hint Resolve save_debug_keeps : keeps.

Lemma resolve_href_keeps I link : keeps I (resolve_href config E link).
Proof. unfold resolve_href. keeps_auto. Qed.
Hint Resolve resolve_href_keeps : keeps.

Lemma search_url_keeps I q : keeps I (search_url config E q).
Proof. unfold search_url. keeps_auto. Qed.
Hint Resolve search_url_keeps : keeps.

Lemma _scrape_single_product_poisoned link n :
  keeps poisoned (_scrape_single_product scraping_config config E link n).
Proof. unfold _scrape_single_product. keeps_auto. Qed.
Hint Resolve _scrape_single_product_poisoned : keeps.

Lemma scrape_links_poisoned n links products :
  keeps poisoned (scrape_links scraping_config config E n links products).
Proof.
  revert products. induction links as [|[i link] rest IH]; intros; simpl; keeps_auto.
Qed.
Hint Resolve scrape_links_poisoned : keeps.

Lemma scrape_search_results_poisoned q :
  keeps poisoned (scrape_search_results scraping_config config E q).
Proof. unfold scrape_search_results. keeps_auto. Qed.
Hint Resolve scrape_search_results_poisoned : keeps.

(** The fallback scraper does not touch the driver manager at all. *)
Lemma _scrape_single_product_fallback_keeps I link n :
  keeps I (_scrape_single_product_fallback config E link n).
Proof. unfold _scrape_single_product_fallback. keeps_auto. Qed.
Hint Resolve _scrape_single_product_fallback_keeps : keeps.

Lemma fallback_links_keeps I n links products :
  keeps I (fallback_links config E n links products).
Proof.
  revert products. induction links as [|[i link] rest IH]; intros; simpl; keeps_auto.
Qed.
Hint Resolve fallback_links_keeps : keeps.

Lemma fallback_search_products_keeps I q :
  keeps I (fallback_search_products scraping_config config E q).
Proof. unfold fallback_search_products. keeps_auto. Qed.
Hint Resolve fallback_search_products_keeps : keeps.

Lemma search_attempt_poisoned q attempt :
  keeps poisoned (search_attempt scraping_config config E q attempt).
Proof.
  unfold search_attempt, search_attempt_body, browser_attempt, fallback_attempt.
  keeps_auto.
Qed.
Hint Resolve search_attempt_poisoned : keeps.

Lemma search_loop_poisoned q attempts :
  keeps poisoned (search_loop scraping_config config E q attempts).
Proof. induction attempts; simpl; keeps_auto. Qed.
Hint Resolve search_loop_poisoned : keeps.

Lemma search_products_poisoned q :
  keeps poisoned (search_products scraping_config config E q).
Proof. unfold search_products. keeps_auto. Qed.
Hint Resolve search_products_poisoned : keeps.

Lemma call_tool_poisoned tool arguments :
  keeps poisoned (call_tool scraping_config config E tool arguments).
Proof.
  unfold call_tool, call_tool_body, pyval_strip, McpError_init. keeps_auto.
Qed.

End ProgramInvariants.

(** *** A poisoned session stays dead *)

Section Poisoned.

Variable scraping_config : ScrapingConfig.
Variable config : ServerConfig.
Variable E : Env.

(** A poisoned [setup_driver] returns [False] and does nothing. *)
Lemma setup_driver_when_poisoned (s : State) :
  poisoned (mgr s) -> setup_driver E s = (Ok false, s).
Proof.
  intros H. unfold setup_driver, bind, get_mgr. red in H. now rewrite H.
Qed.

(** A poisoned [safe_get] returns [False] and does nothing. *)
Lemma safe_get_when_poisoned (target : str) (s : State) :
  poisoned (mgr s) -> safe_get scraping_config E target s = (Ok false, s).
Proof.
  intros H. unfold safe_get, bind, get_mgr. red in H. now rewrite H.
Qed.

Lemma run_operation_poisoned (o : operation) (s : State) :
  poisoned (mgr s) -> poisoned (mgr (run_operation scraping_config config E o s)).
Proof.
  destruct o; simpl.
  - apply setup_driver_poisoned.
  - apply is_driver_alive_keeps.
  - apply ensure_driver_poisoned.
  - apply safe_get_poisoned.
  - apply cleanup_driver_poisoned.
  - apply scrape_search_results_poisoned.
  - apply fallback_search_products_keeps.
  - apply search_products_poisoned.
  - apply call_tool_poisoned.
Qed.

Lemma run_operations_poisoned (ops : list operation) (s : State) :
  poisoned (mgr s) -> poisoned (mgr (run_operations scraping_config config E ops s)).
Proof.
  revert s. induction ops as [|o ops IH]; intros s H; [exact H|].
  simpl. apply IH. now apply run_operation_poisoned.
Qed.

(** A launch that raises poisons the session. *)
Lemma setup_driver_launch_raises (s : State) (msg : str) :
  _initialization_failed (mgr s) = false ->
  chrome_launch E (clock s + match driver (mgr s) with Some _ => 1 | None => 0 end)%nat = Throws msg ->
  (setup_driver E s).1 = Ok false /\ poisoned (mgr (setup_driver E s).2).
Proof.
  intros Hf Hl. destruct s as [[d f] c tr]. simpl in *. subst f.
  unfold setup_driver, bind, get_mgr, try_catch. simpl.
  destruct d as [d|]; simpl in *.
  - rewrite Nat.add_1_r in Hl. rewrite Hl. simpl. split; reflexivity.
  - rewrite Nat.add_0_r in Hl. rewrite Hl. simpl. split; reflexivity.
Qed.

(** C4: once a browser launch raises, the session is poisoned, and
    after any further operations of the process the flag is still
    set, [setup_driver] returns [False] with no launch (the state,
    trace included, is unchanged) and [safe_get] returns [False] at
    once. *)
Theorem poisoned_session_stays_dead
    (s : State) (msg : str) (ops : list operation) (target : str) :
  _initialization_failed (mgr s) = false ->
  chrome_launch E (clock s + match driver (mgr s) with Some _ => 1 | None => 0 end)%nat = Throws msg ->
  let s1 := (setup_driver E s).2 in
  let s2 := run_operations scraping_config config E ops s1 in
  (setup_driver E s).1 = Ok false /\
  _initialization_failed (mgr s1) = true /\
  _initialization_failed (mgr s2) = true /\
  setup_driver E s2 = (Ok false, s2) /\
  safe_get scraping_config E target s2 = (Ok false, s2).
Proof.
  intros Hf Hl s1 s2.
  destruct (setup_driver_launch_raises s msg Hf Hl) as [Hr Hp].
  assert (Hp2 : poisoned (mgr s2)) by now apply run_operations_poisoned.
  repeat split; auto.
  - now apply setup_driver_when_poisoned.
  - now apply safe_get_when_poisoned.
Qed.

End Poisoned.

Lemma poisoned_session_stays_dead_witness :
  let E := Samples.no_browser_env (Samples.catalog_page 1) in
  let s1 := (setup_driver E initial_state).2 in
  let s2 := run_operations default_scraping_config default_config E
              [OpSearchProducts (py "SBC"); OpEnsureDriver; OpCleanupDriver] s1 in
  (setup_driver E initial_state).1 = Ok false /\
  _initialization_failed (mgr s1) = true /\
  _initialization_failed (mgr s2) = true /\
  setup_driver E s2 = (Ok false, s2) /\
  safe_get default_scraping_config E (py "https://www.asrockind.com/") s2 = (Ok false, s2).
Proof.
  exact (poisoned_session_stays_dead default_scraping_config default_config
           (Samples.no_browser_env (Samples.catalog_page 1)) initial_state
           (py "chrome not found")
           [OpSearchProducts (py "SBC"); OpEnsureDriver; OpCleanupDriver]
           (py "https://www.asrockind.com/") eq_refl eq_refl).
Defined.

(** ** Results of computations *)

(** Every value [m] returns satisfies [Q]. *)
Definition post {A} (Q : A -> Prop) (m : M A) : Prop :=
  forall s a s', m s = (Ok a, s') -> Q a.

(** [m] never raises. *)
Definition returns {A} (m : M A) : Prop :=
  forall s, exists a s', m s = (Ok a, s').

Lemma bind_ok {A B} (m : M A) (k : A -> M B) (s s' : State) (a : A) :
  m s = (Ok a, s') -> bind m k s = k a s'.
Proof. intros H. unfold bind. now rewrite H. Qed.

Lemma bind_raised {A B} (m : M A) (k : A -> M B) (s s' : State) (e : exn) :
  m s = (Raised e, s') -> bind m k s = (Raised e, s').
Proof. intros H. unfold bind. now rewrite H. Qed.

Lemma try_catch_ok {A} (m : M A) (h : exn -> M A) (s s' : State) (a : A) :
  m s = (Ok a, s') -> try_catch m h s = (Ok a, s').
Proof. intros H. unfold try_catch. now rewrite H. Qed.

Lemma try_catch_raised {A} (m : M A) (h : exn -> M A) (s s' : State) (e : exn) :
  m s = (Raised e, s') -> try_catch m h s = h e s'.
Proof. intros H. unfold try_catch. now rewrite H. Qed.

Lemma post_ret {A} (Q : A -> Prop) (a : A) : Q a -> post Q (ret a).
Proof. intros H s a' s' [= <- _]. exact H. Qed.

Lemma post_raise {A} (Q : A -> Prop) (e : exn) : post Q (raise e).
Proof. intros s a s' H. discriminate. Qed.

Lemma post_bind {A B} (P : A -> Prop) (Q : B -> Prop) (m : M A) (k : A -> M B) :
  post P m -> (forall a, P a -> post Q (k a)) -> post Q (bind m k).
Proof.
  intros Hm Hk s b s' H. unfold bind in H.
  destruct (m s) as [[a|e] s1] eqn:Hms; [|discriminate].
  exact (Hk a (Hm _ _ _ Hms) _ _ _ H).
Qed.

Lemma post_bind_any {A B} (Q : B -> Prop) (m : M A) (k : A -> M B) :
  (forall a, post Q (k a)) -> post Q (bind m k).
Proof.
  intros Hk. apply (post_bind (fun _ => True)); [intros ? ? ? ?; exact Logic.I | auto].
Qed.

Lemma post_try_catch {A} (Q : A -> Prop) (m : M A) (h : exn -> M A) :
  post Q m -> (forall e, post Q (h e)) -> post Q (try_catch m h).
Proof.
  intros Hm Hh s a s' H. unfold try_catch in H.
  destruct (m s) as [[a'|e] s1] eqn:Hms.
  - injection H as <- <-. exact (Hm _ _ _ Hms).
  - exact (Hh e _ _ _ H).
Qed.

Lemma returns_ret {A} (a : A) : returns (ret a).
Proof. intros s. now exists a, s. Qed.

Lemma returns_bind {A B} (m : M A) (k : A -> M B) :
  returns m -> (forall a, returns (k a)) -> returns (bind m k).
Proof.
  intros Hm Hk s. destruct (Hm s) as (a & s1 & Ha).
  rewrite (bind_ok _ _ _ _ _ Ha). apply Hk.
Qed.

Lemma returns_try_catch {A} (m : M A) (h : exn -> M A) :
  (forall e, returns (h e)) -> returns (try_catch m h).
Proof.
  intros Hh s. unfold try_catch.
  destruct (m s) as [[a|e] s1]; [now exists a, s1 | apply Hh].
Qed.

Lemma returns_tick (ev : event) : returns (tick ev).
Proof. intros s. eexists _, _. reflexivity. Qed.

Lemma returns_sleep (site : sleep_site) (lo hi : Q) : returns (sleep site lo hi).
Proof. apply returns_bind; [apply returns_tick | intros; apply returns_ret]. Qed.

Lemma returns_get_mgr : returns get_mgr.
Proof. intros s. eexists _, _. reflexivity. Qed.

Lemma append_product_length (products : list Product) (p : option Product) :
  (length (append_product products p) <= length products + 1)%nat.
Proof. destruct p; simpl; [rewrite length_app; simpl|]; lia. Qed.

Lemma enumerate_length {A} (l : list A) : length (enumerate l) = length l.
Proof.
  unfold enumerate, range, len. rewrite length_combine, length_map, length_seq. lia.
Qed.

(** ** The product cap *)

Section ProductCap.

Variable scraping_config : ScrapingConfig.
Variable config : ServerConfig.
Variable E : Env.

(** Each turn of a product loop appends at most one product. *)
Lemma scrape_links_length (n : Z) (links : list (Z * Link)) :
  forall products,
    post (fun ps => (length ps <= length products + length links)%nat)
         (scrape_links scraping_config config E n links products).
Proof.
  induction links as [|[i link] rest IH]; intros products; simpl.
  - apply post_ret. lia.
  - apply (post_bind (fun ps => (length ps <= length products + 1)%nat)).
    + apply post_try_catch.
      * apply post_bind_any. intros p. apply post_bind_any. intros _.
        apply post_ret, append_product_length.
      * intros e. apply post_ret. lia.
    + intros ps Hps s a s' H. specialize (IH ps s a s' H). simpl in IH. lia.
Qed.

Lemma fallback_links_length (n : Z) (links : list (Z * Link)) :
  forall products,
    post (fun ps => (length ps <= length products + length links)%nat)
         (fallback_links config E n links products).
Proof.
  induction links as [|[i link] rest IH]; intros products; simpl.
  - apply post_ret. lia.
  - apply (post_bind (fun ps => (length ps <= length products + 1)%nat)).
    + apply post_try_catch.
      * apply post_bind_any. intros p. apply post_bind_any. intros _.
        apply post_ret, append_product_length.
      * intros e. apply post_ret. lia.
    + intros ps Hps s a s' H. specialize (IH ps s a s' H). simpl in IH. lia.
Qed.

(** Neither scraper returns more products than it selected links. *)
Lemma scrape_search_results_cap (q : str) (bound : Z) :
  0 <= bound ->
  (forall links : list Link,
      len (slice_to links (max_products_per_search scraping_config)) <= bound) ->
  post (fun ps => len ps <= bound)
       (scrape_search_results scraping_config config E q).
Proof.
  intros Hb Hs. unfold scrape_search_results.
  apply post_bind_any. intros target.
  apply post_bind_any. intros ok.
  destruct (negb ok); [now apply post_ret|].
  apply post_bind_any. intros found.
  destruct (negb found); [now apply post_ret|].
  apply post_bind_any. intros soup.
  apply post_bind_any. intros _.
  destruct (no_result soup); [now apply post_ret|].
  intros s ps s' H. apply scrape_links_length in H.
  rewrite enumerate_length in H. simpl in H.
  specialize (Hs (product_links soup)). unfold len in *. lia.
Qed.

Lemma fallback_search_products_cap (q : str) (bound : Z) :
  0 <= bound ->
  (forall links : list Link,
      len (slice_to links (max_products_per_search scraping_config)) <= bound) ->
  post (fun ps => len ps <= bound)
       (fallback_search_products scraping_config config E q).
Proof.
  intros Hb Hs. unfold fallback_search_products.
  apply post_bind_any. intros target.
  apply post_try_catch; [|intros e; now apply post_ret].
  apply post_bind_any. intros soup.
  destruct (no_result soup); [now apply post_ret|].
  intros s ps s' H. apply fallback_links_length in H.
  rewrite enumerate_length in H. simpl in H.
  specialize (Hs (product_links soup)). unfold len in *. lia.
Qed.

Lemma search_loop_cap (q : str) (bound : Z) (attempts : list Z) :
  0 <= bound ->
  (forall links : list Link,
      len (slice_to links (max_products_per_search scraping_config)) <= bound) ->
  post (fun ps => len ps <= bound)
       (search_loop scraping_config config E q attempts).
Proof.
  intros Hb Hs. induction attempts as [|attempt rest IH]; simpl.
  - now apply post_ret.
  - apply (post_bind (fun r => match r with
                               | Return ps => len ps <= bound
                               | Continue => True
                               end)).
    + unfold search_attempt.
      apply post_try_catch.
      2:{ intros e. destruct (_ <? _); [apply post_bind_any; intros _|];
          now apply post_ret. }
      unfold search_attempt_body, browser_attempt, fallback_attempt.
      apply post_bind_any. intros _.
      apply (post_bind (fun r => match r with
                                 | Return ps => len ps <= bound
                                 | Continue => True
                                 end)).
      * apply post_bind_any. intros m.
        destruct (negb _); [|now apply post_ret].
        apply post_try_catch; [|intros e; now apply post_ret].
        apply (post_bind (fun ps => len ps <= bound)).
        -- now apply scrape_search_results_cap.
        -- intros ps Hps. destruct (truthy ps); now apply post_ret.
      * intros [ps|] Hr; [now apply post_ret|].
        apply (post_bind (fun ps => len ps <= bound)).
        -- now apply fallback_search_products_cap.
        -- intros ps Hps. destruct (truthy ps); now apply post_ret.
    + intros [ps|] Hr; [now apply post_ret | exact IH].
Qed.

(** The orchestrator never raises. *)
Lemma search_attempt_returns (q : str) (attempt : Z) :
  returns (search_attempt scraping_config config E q attempt).
Proof.
  unfold search_attempt. apply returns_try_catch. intros e.
  destruct (_ <? _); [|apply returns_ret].
  apply returns_bind; [apply returns_sleep | intros; apply returns_ret].
Qed.

Lemma search_loop_returns (q : str) (attempts : list Z) :
  returns (search_loop scraping_config config E q attempts).
Proof.
  induction attempts as [|attempt rest IH]; simpl; [apply returns_ret|].
  apply returns_bind; [apply search_attempt_returns|].
  intros [ps|]; [apply returns_ret | exact IH].
Qed.

Lemma search_products_returns (q : str) :
  returns (search_products scraping_config config E q).
Proof. apply search_loop_returns. Qed.


End ProductCap.


Example five_links_three_products :
  let E := Samples.healthy_env (Samples.catalog_page 5) in
  option_map len
    (match (search_products default_scraping_config default_config E
              (py "SBC") initial_state).1 with
     | Ok ps => Some ps
     | Raised _ => None
     end) = Some 3.
Proof. vm_compute. reflexivity. Qed.


(** ** What a computation adds to the trace *)

(** [m] only appends events, all of them accepted by [ok]. *)
Definition emits (ok : event -> bool) {A} (m : M A) : Prop :=
  forall s, exists evs,
    trace (m s).2 = trace s ++ evs /\ Forall (fun ev => ok ev = true) evs.

Section Emits.

Variable ok : event -> bool.

Lemma emits_silent {A} (m : M A) :
  (forall s, trace (m s).2 = trace s) -> emits ok m.
Proof.
  intros H s. exists []. rewrite app_nil_r. split; [apply H | constructor].
Qed.

Lemma emits_ret {A} (a : A) : emits ok (ret a).
Proof. now apply emits_silent. Qed.

Lemma emits_raise {A} (e : exn) : emits ok (@raise A e).
Proof. now apply emits_silent. Qed.

Lemma emits_get_mgr : emits ok get_mgr.
Proof. now apply emits_silent. Qed.

Lemma emits_set_driver (d : option nat) : emits ok (set_driver d).
Proof. now apply emits_silent. Qed.

Lemma emits_set_failed (b : bool) : emits ok (set_initialization_failed b).
Proof. now apply emits_silent. Qed.

Lemma emits_lift {A} (o : outcome A) : emits ok (lift o).
Proof. destruct o; [apply emits_ret | apply emits_raise]. Qed.

Lemma emits_tick (ev : event) : ok ev = true -> emits ok (tick ev).
Proof. intros H s. exists [ev]. split; [reflexivity | now repeat constructor]. Qed.

Lemma emits_bind {A B} (m : M A) (k : A -> M B) :
  emits ok m -> (forall a, emits ok (k a)) -> emits ok (bind m k).
Proof.
  intros Hm Hk s. unfold bind. destruct (Hm s) as (e1 & H1 & F1).
  destruct (m s) as [[a|e] s1]; simpl in *.
  - destruct (Hk a s1) as (e2 & H2 & F2). exists (e1 ++ e2).
    rewrite H2, H1, app_assoc. split; [reflexivity | now apply Forall_app].
  - now exists e1.
Qed.

Lemma emits_try_catch {A} (m : M A) (h : exn -> M A) :
  emits ok m -> (forall e, emits ok (h e)) -> emits ok (try_catch m h).
Proof.
  intros Hm Hh s. unfold try_catch. destruct (Hm s) as (e1 & H1 & F1).
  destruct (m s) as [[a|e] s1]; simpl in *.
  - now exists e1.
  - destruct (Hh e s1) as (e2 & H2 & F2). exists (e1 ++ e2).
    rewrite H2, H1, app_assoc. split; [reflexivity | now apply Forall_app].
Qed.

Lemma emits_call {A} (ev : event) (answer : nat -> outcome A) :
  ok ev = true -> emits ok (call ev answer).
Proof.
  intros H. apply emits_bind; [now apply emits_tick | intros; apply emits_lift].
Qed.

Lemma emits_sleep (site : sleep_site) (lo hi : Q) :
  ok (EvSleep site lo hi) = true -> emits ok (sleep site lo hi).
Proof.
  intros H. apply emits_bind; [now apply emits_tick | intros; apply emits_ret].
Qed.

End Emits.

Create HintDb emits.
#[export] Hint Resolve emits_ret emits_raise emits_get_mgr emits_set_driver
  emits_set_failed emits_lift : emits.

Ltac emits_step :=
  match goal with
  | |- emits _ (if ?b then _ else _) => destruct b
  | |- emits _ (match ?x with _ => _ end) => destruct x
  | |- emits _ (tick _) => apply emits_tick; reflexivity
  | |- emits _ (call _ _) => apply emits_call; reflexivity
  | |- emits _ (sleep _ _ _) => apply emits_sleep; reflexivity
  | |- emits _ (bind _ _) => apply emits_bind; [| intros ?]
  | |- emits _ (try_catch _ _) => apply emits_try_catch; [| intros ?]
  | |- emits _ _ => solve [auto with emits]
  end.

Ltac emits_auto := repeat emits_step.

(** No event of the browser path is an HTTP request of the fallback
    session. *)
Definition not_http_get (ev : event) : bool := negb (is_http_get ev).

Section BrowserTrace.

Variable scraping_config : ScrapingConfig.
Variable config : ServerConfig.
Variable E : Env.

Lemma cleanup_driver_emits : emits not_http_get cleanup_driver.
Proof. unfold cleanup_driver. emits_auto. Qed.
Hint Resolve cleanup_driver_emits : emits.

Lemma _setup_anti_detection_emits : emits not_http_get (_setup_anti_detection E).
Proof. unfold _setup_anti_detection. emits_auto. Qed.
Hint Resolve _setup_anti_detection_emits : emits.

Lemma setup_driver_emits : emits not_http_get (setup_driver E).
Proof. unfold setup_driver. emits_auto. Qed.
Hint Resolve setup_driver_emits : emits.

Lemma is_driver_alive_emits : emits not_http_get (is_driver_alive E).
Proof. unfold is_driver_alive. emits_auto. Qed.
Hint Resolve is_driver_alive_emits : emits.

Lemma ensure_driver_emits : emits not_http_get (ensure_driver E).
Proof. unfold ensure_driver. emits_auto. Qed.
Hint Resolve ensure_driver_emits : emits.

Lemma safe_get_attempt_emits target attempt :
  emits not_http_get (safe_get_attempt scraping_config E target attempt).
Proof. unfold safe_get_attempt. emits_auto. Qed.
Hint Resolve safe_get_attempt_emits : emits.

Lemma safe_get_loop_emits target attempts :
  emits not_http_get (safe_get_loop scraping_config E target attempts).
Proof. induction attempts; simpl; emits_auto. Qed.
Hint Resolve safe_get_loop_emits : emits.

Lemma safe_get_emits target : emits not_http_get (safe_get scraping_config E target).
Proof. unfold safe_get. emits_auto. Qed.
Hint Resolve safe_get_emits : emits.

Lemma save_debug_emits f : emits not_http_get (save_debug_if_enabled config f).
Proof. unfold save_debug_if_enabled, _save_debug_html. emits_auto. Qed.
Hint Resolve save_debug_emits : emits.

Lemma resolve_href_emits link : emits not_http_get (resolve_href config E link).
Proof. unfold resolve_href. emits_auto. Qed.
Hint Resolve resolve_href_emits : emits.

Lemma search_url_emits q : emits not_http_get (search_url config E q).
Proof. unfold search_url. emits_auto. Qed.
Hint Resolve search_url_emits : emits.

Lemma _scrape_single_product_emits link n :
  emits not_http_get (_scrape_single_product scraping_config config E link n).
Proof. unfold _scrape_single_product. emits_auto. Qed.
Hint Resolve _scrape_single_product_emits : emits.

Lemma scrape_links_emits n links products :
  emits not_http_get (scrape_links scraping_config config E n links products).
Proof.
  revert products. induction links as [|[i link] rest IH]; intros; simpl; emits_auto.
Qed.
Hint Resolve scrape_links_emits : emits.

(** The browser-driven search makes no request through the fallback's
    HTTP session. *)
Lemma scrape_search_results_emits q :
  emits not_http_get (scrape_search_results scraping_config config E q).
Proof. unfold scrape_search_results. emits_auto. Qed.

End BrowserTrace.

(** ** The orchestrator *)

Section Orchestrator.

Variable scraping_config : ScrapingConfig.
Variable config : ServerConfig.
Variable E : Env.

Local Abbreviation search_attempt := (search_attempt scraping_config config E).
Local Abbreviation search_attempt_body := (search_attempt_body scraping_config config E).
Local Abbreviation browser_attempt := (browser_attempt scraping_config config E).
Local Abbreviation fallback_attempt := (fallback_attempt scraping_config config E).
Local Abbreviation scrape_search_results := (scrape_search_results scraping_config config E).
Local Abbreviation fallback_search_products := (fallback_search_products scraping_config config E).
Local Abbreviation search_loop := (search_loop scraping_config config E).
Local Abbreviation skip_attempts := (skip_attempts scraping_config config E).

(** The state after the delay that opens an attempt. *)
Definition after_search_delay (s : State) : State :=
  (sleep SearchDelay (search_delay_min scraping_config)
         (search_delay_max scraping_config) s).2.

Lemma search_delay_run (s : State) :
  sleep SearchDelay (search_delay_min scraping_config)
        (search_delay_max scraping_config) s = (Ok tt, after_search_delay s).
Proof. reflexivity. Qed.

Lemma after_search_delay_trace (s : State) :
  trace (after_search_delay s)
  = trace s ++ [EvSleep SearchDelay (search_delay_min scraping_config)
                        (search_delay_max scraping_config)].
Proof. reflexivity. Qed.

(** The attempts that ended with no result are behind the loop. *)
Lemma search_loop_skip (q : str) (before rest : list Z) :
  forall s sk,
    skip_attempts q before s = Some sk ->
    search_loop q (before ++ rest) s = search_loop q rest sk.
Proof.
  induction before as [|a before IH]; intros s sk H; simpl in *.
  - now injection H as <-.
  - unfold bind at 1.
    destruct (search_attempt q a s) as [[[ps|]|e] s1]; try discriminate.
    now apply IH.
Qed.

(** The browser part returns exactly the non-empty lists of the
    browser-driven search. *)
Lemma browser_attempt_hit (q : str) (s s1 : State) (ps : list Product) :
  _initialization_failed (mgr s) = false ->
  scrape_search_results q s = (Ok ps, s1) ->
  ps <> [] ->
  browser_attempt q s = (Ok (Return ps), s1).
Proof.
  intros Hf Hs Hne. unfold browser_attempt, bind at 1, get_mgr.
  rewrite Hf. simpl. unfold try_catch, bind. rewrite Hs.
  destruct ps; [congruence | reflexivity].
Qed.

(** The browser part leads on to the fallback when the session is
    poisoned, or the browser-driven search returns the empty list or
    raises. *)
Lemma browser_attempt_miss (q : str) (s s1 : State) :
  browser_attempt q s = (Ok Continue, s1) <->
  (_initialization_failed (mgr s) = true /\ s1 = s) \/
  (_initialization_failed (mgr s) = false /\
   (scrape_search_results q s = (Ok [], s1) \/
    exists e, scrape_search_results q s = (Raised e, s1))).
Proof.
  unfold browser_attempt, bind at 1, get_mgr.
  destruct (_initialization_failed (mgr s)); simpl.
  - unfold ret. split.
    + intros H. inversion H. left. auto.
    + intros [[_ H] | [H _]]; [now subst | discriminate].
  - unfold try_catch, bind.
    destruct (scrape_search_results q s) as [[ps|e] s2]; simpl.
    + destruct ps as [|p ps]; simpl; unfold ret; split.
      * intros H. inversion H. right. auto.
      * intros [[H _] | [_ [H | [e H]]]]; [discriminate | | discriminate].
        now inversion H.
      * discriminate.
      * intros [[H _] | [_ [H | [e H]]]]; discriminate.
    + unfold ret. split.
      * intros H. inversion H. right. split; [reflexivity|]. right. now exists e.
      * intros [[H _] | [_ [H | [e' H]]]]; [discriminate | discriminate |].
        now inversion H.
Qed.

(** An attempt whose browser part has a result ends there. *)
Lemma search_attempt_hit (q : str) (attempt : Z) (s s1 : State) (ps : list Product) :
  _initialization_failed (mgr s) = false ->
  scrape_search_results q (after_search_delay s) = (Ok ps, s1) ->
  ps <> [] ->
  search_attempt q attempt s = (Ok (Return ps), s1).
Proof.
  intros Hf Hs Hne. unfold search_attempt.
  apply try_catch_ok. unfold search_attempt_body.
  rewrite (bind_ok _ _ _ _ _ (search_delay_run s)).
  rewrite (bind_ok _ _ _ _ _
             (browser_attempt_hit q (after_search_delay s) s1 ps Hf Hs Hne)).
  reflexivity.
Qed.

(** C1: at every attempt of a search (whatever attempts came before
    with no result, and whatever attempts remain), when the session is
    not poisoned and the browser-driven search returns one or more
    products, the orchestrator returns that list and stops in the
    state the browser-driven search left: the fallback scraper is not
    run (no HTTP request is made after the attempt started) and no
    further attempt is made. *)
Theorem browser_result_short_circuits
    (q : str) (before : list Z) (attempt : Z) (rest : list Z)
    (s sk s1 : State) (ps : list Product) :
  skip_attempts q before s = Some sk ->
  _initialization_failed (mgr sk) = false ->
  scrape_search_results q (after_search_delay sk) = (Ok ps, s1) ->
  ps <> [] ->
  search_loop q (before ++ attempt :: rest) s = (Ok ps, s1) /\
  exists evs,
    trace s1 = trace sk ++ evs /\ Forall (fun ev => is_http_get ev = false) evs.
Proof.
  intros Hskip Hf Hs Hne. split.
  - rewrite (search_loop_skip q before (attempt :: rest) s sk Hskip). simpl.
    rewrite (bind_ok _ _ _ _ _ (search_attempt_hit q attempt sk s1 ps Hf Hs Hne)).
    reflexivity.
  - destruct (scrape_search_results_emits scraping_config config E q
                (after_search_delay sk)) as (evs & Ht & Hok).
    rewrite Hs in Ht.
    change (trace s1 = trace (after_search_delay sk) ++ evs) in Ht.
    rewrite after_search_delay_trace in Ht.
    rewrite <- app_assoc in Ht. eexists. split; [exact Ht|].
    apply Forall_app. split; [now repeat constructor|].
    eapply Forall_impl; [exact Hok|]. intros ev H.
    unfold not_http_get in H. now apply negb_true_iff in H.
Qed.

(** *** The backoff *)

(** The state after the backoff sleep. *)
Definition after_backoff (s : State) : State :=
  {| mgr := mgr s; clock := S (clock s);
     trace := trace s ++ [EvSleep SearchBackoff (retry_delay_min scraping_config * 2)%Q
                                  (retry_delay_max scraping_config * 2)%Q] |}.

(** What an attempt does with the outcome of its [try] body. *)
Lemma search_attempt_outcome (q : str) (attempt : Z) (s s1 : State) :
  (forall r, search_attempt_body q s = (Ok r, s1) ->
             search_attempt q attempt s = (Ok r, s1)) /\
  (forall e, search_attempt_body q s = (Raised e, s1) ->
             search_attempt q attempt s
             = (Ok Continue,
                if attempt <? max_retries scraping_config - 1
                then after_backoff s1 else s1)).
Proof.
  split; intros r H; unfold search_attempt.
  - now apply try_catch_ok.
  - rewrite (try_catch_raised _ _ _ _ _ H).
    destruct (attempt <? max_retries scraping_config - 1); reflexivity.
Qed.

(** Where the backoff of an attempt is: on an attempt that is not the
    last, when the browser part yields nothing (empty, failed or
    skipped), the sleep drawn from
    [retry_delay_min*2 .. retry_delay_max*2] runs when the fallback
    search raises; when the fallback search returns the empty list the
    attempt ends in the state the fallback left, and the sleep is not
    reached. *)
Theorem backoff_only_after_exception
    (q : str) (attempt : Z) (s s1 s2 : State) :
  attempt < max_retries scraping_config - 1 ->
  browser_attempt q (after_search_delay s) = (Ok Continue, s1) ->
  (fallback_search_products q s1 = (Ok [], s2) ->
   search_attempt q attempt s = (Ok Continue, s2)) /\
  (forall e, fallback_search_products q s1 = (Raised e, s2) ->
             search_attempt q attempt s = (Ok Continue, after_backoff s2) /\
             trace (after_backoff s2)
             = trace s2 ++ [EvSleep SearchBackoff
                                    (retry_delay_min scraping_config * 2)%Q
                                    (retry_delay_max scraping_config * 2)%Q]).
Proof.
  intros Hlt Hb.
  assert (Hbody : forall r, fallback_attempt q s1 = (r, s2) ->
                            search_attempt_body q s = (r, s2)).
  { intros r Hr. unfold search_attempt_body.
    rewrite (bind_ok _ _ _ _ _ (search_delay_run s)).
    rewrite (bind_ok _ _ _ _ _ Hb). exact Hr. }
  split.
  - intros Hf.
    apply (proj1 (search_attempt_outcome q attempt s s2)).
    apply Hbody. unfold fallback_attempt.
    rewrite (bind_ok _ _ _ _ _ Hf). reflexivity.
  - intros e Hf. split; [|reflexivity].
    rewrite (proj2 (search_attempt_outcome q attempt s s2) e).
    + apply Z.ltb_lt in Hlt. now rewrite Hlt.
    + apply Hbody. unfold fallback_attempt.
      now rewrite (bind_raised _ _ _ _ _ Hf).
Qed.

End Orchestrator.

Lemma browser_result_short_circuits_witness :
  let cfg := default_scraping_config in
  let E := Samples.healthy_env (Samples.catalog_page 1) in
  let found := scrape_search_results cfg default_config E (py "SBC")
                 (after_search_delay cfg initial_state) in
  exists ps,
    found.1 = Ok ps /\ len ps = 1 /\
    search_loop cfg default_config E (py "SBC") [0; 1] initial_state = (Ok ps, found.2) /\
    exists evs,
      trace found.2 = trace initial_state ++ evs /\
      Forall (fun ev => is_http_get ev = false) evs.
Proof.
  intros cfg E found.
  destruct found as [[ps|e] s1] eqn:Hfound; [|vm_compute in Hfound; discriminate].
  assert (Hlen : len ps = 1).
  { vm_compute in Hfound. injection Hfound as <- _. reflexivity. }
  exists ps. split; [reflexivity|]. split; [exact Hlen|].
  apply (browser_result_short_circuits cfg default_config E (py "SBC")
           [] 0 [1] initial_state initial_state s1 ps);
    [reflexivity | reflexivity | exact Hfound |].
  intros ->. discriminate.
Defined.

(** C6, on the code: the backoff between attempts is missed.  In a
    world where every page loads and lists no product, both paths
    return the empty list on attempt 0 of 2, and the attempt ends in
    the state the fallback left; the whole search makes its two
    attempts and its trace holds no backoff sleep, although the
    [except] clause of [search_products] asks for one on every attempt
    but the last. *)
Lemma no_backoff_when_both_empty :
  let cfg := default_scraping_config in
  let E := Samples.healthy_env Samples.empty_page in
  let q := py "zzzznoexist" in
  let run := search_products cfg default_config E q initial_state in
  exists s1 s2,
    0 < max_retries cfg - 1 /\
    scrape_search_results cfg default_config E q (after_search_delay cfg initial_state)
    = (Ok [], s1) /\
    fallback_search_products cfg default_config E q s1 = (Ok [], s2) /\
    search_attempt cfg default_config E q 0 initial_state = (Ok Continue, s2) /\
    List.filter is_backoff (trace s2) = [] /\
    run.1 = Ok [] /\
    length (List.filter is_search_delay (trace run.2)) = 2%nat /\
    List.filter is_backoff (trace run.2) = [].
Proof.
  eexists _, _.
  split; [reflexivity|].
  split; [vm_compute; reflexivity|].
  split; [vm_compute; reflexivity|].
  repeat split; vm_compute; reflexivity.
Qed.

(** The same when both paths fail with errors: every navigation of
    the browser and every request of the fallback session raises, the
    two scrapers turn that into empty lists, and the two attempts
    follow each other with no backoff sleep. *)
Example no_backoff_when_both_fail :
  let run := search_products default_scraping_config default_config
               Samples.unreachable_site_env (py "SBC") initial_state in
  run.1 = Ok [] /\
  length (List.filter is_http_get (trace run.2)) = 2%nat /\
  length (List.filter is_search_delay (trace run.2)) = 2%nat /\
  List.filter is_backoff (trace run.2) = [].
Proof. vm_compute. repeat split. Qed.

Lemma backoff_only_after_exception_witness :
  let cfg := default_scraping_config in
  let q := py "zzzznoexist" in
  (let E := Samples.healthy_env Samples.empty_page in
   let s1 := (browser_attempt cfg default_config E q
                (after_search_delay cfg initial_state)).2 in
   let s2 := (fallback_search_products cfg default_config E q s1).2 in
   search_attempt cfg default_config E q 0 initial_state = (Ok Continue, s2))
  /\
  (let E := Samples.unquotable_env in
   let s1 := (browser_attempt cfg default_config E q
                (after_search_delay cfg initial_state)).2 in
   let s2 := (fallback_search_products cfg default_config E q s1).2 in
   search_attempt cfg default_config E q 0 initial_state
   = (Ok Continue, after_backoff cfg s2) /\
   trace (after_backoff cfg s2)
   = [EvSleep SearchDelay 1 2; EvSleep SearchBackoff (2 * 2) (4 * 2)]).
Proof.
  intros cfg q. split.
  - intros E s1 s2.
    assert (Hlt : 0 < max_retries cfg - 1) by reflexivity.
    assert (Hb : browser_attempt cfg default_config E q
                   (after_search_delay cfg initial_state) = (Ok Continue, s1))
      by (vm_compute; reflexivity).
    apply (proj1 (backoff_only_after_exception cfg default_config E q 0
                    initial_state s1 s2 Hlt Hb)).
    vm_compute. reflexivity.
  - intros E s1 s2.
    assert (Hlt : 0 < max_retries cfg - 1) by reflexivity.
    assert (Hb : browser_attempt cfg default_config E q
                   (after_search_delay cfg initial_state) = (Ok Continue, s1))
      by (vm_compute; reflexivity).
    split.
    + apply (proj2 (backoff_only_after_exception cfg default_config E q 0
                      initial_state s1 s2 Hlt Hb)
               (ExternalError (py "surrogates not allowed"))).
      vm_compute. reflexivity.
    + vm_compute. reflexivity.
Defined.

(** ** The tool *)

Section Tool.

Variable scraping_config : ScrapingConfig.
Variable config : ServerConfig.
Variable E : Env.

Local Abbreviation call_tool := (call_tool scraping_config config E).
Local Abbreviation call_tool_body := (call_tool_body scraping_config config E).
Local Abbreviation search_products := (search_products scraping_config config E).

Lemma strip_nil : strip [] = [].
Proof. reflexivity. Qed.

(** What [call_tool] makes of an exception of its body: whatever the
    exception, the construction of the [McpError] raises instead. *)
Lemma call_tool_raised (tool : str) (arguments : gmap str pyval)
    (s s' : State) (e : exn) :
  call_tool_body tool arguments s = (Raised e, s') ->
  call_tool tool arguments s
  = (Raised (AttributeError (py "'str' object has no attribute 'message'")), s').
Proof. intros H. unfold call_tool. now rewrite (try_catch_raised _ _ _ _ _ H). Qed.

(** A call returns only when its body does. *)
Lemma call_tool_returned (tool : str) (arguments : gmap str pyval)
    (s s' : State) (r : Response) :
  call_tool tool arguments s = (Ok r, s') ->
  call_tool_body tool arguments s = (Ok r, s').
Proof.
  intros H.
  destruct (call_tool_body tool arguments s) as [[r'|e] s1] eqn:Hbody.
  - unfold call_tool in H. now rewrite (try_catch_ok _ _ _ _ _ Hbody) in H.
  - rewrite (call_tool_raised _ _ _ _ _ Hbody) in H. discriminate.
Qed.

Lemma call_tool_ok (tool : str) (arguments : gmap str pyval)
    (s s' : State) (r : Response) :
  call_tool_body tool arguments s = (Ok r, s') ->
  call_tool tool arguments s = (Ok r, s').
Proof. intros H. unfold call_tool. now apply try_catch_ok. Qed.

(** C2, on the code: a call of the search tool whose [query] is
    missing, or is a string of fewer than 2 code points once trimmed,
    is stopped by the checks before anything is launched, fetched or
    slept on: the body of the call raises the [ValueError] that names
    the reason, in the state the call started in.  The caller does not
    get that error: the handler's [McpError(...)] fails in its
    construction, so the call raises the [AttributeError] of that
    construction, which says nothing of the reason; the state is still
    the one the call started in. *)
Theorem invalid_query_rejected (arguments : gmap str pyval) (s : State) :
  (arguments !! py "query" = None \/
   exists raw, arguments !! py "query" = Some (PStr raw) /\ len (strip raw) < 2) ->
  exists reason,
    (reason = py "Missing required argument: query" \/
     reason = py "Search query must be at least 2 characters long") /\
    call_tool_body SEARCH_PRODUCTS arguments s = (Raised (ValueError reason), s) /\
    call_tool SEARCH_PRODUCTS arguments s
    = (Raised (AttributeError (py "'str' object has no attribute 'message'")), s).
Proof.
  intros H.
  assert (Hbody : exists reason,
             (reason = py "Missing required argument: query" \/
              reason = py "Search query must be at least 2 characters long") /\
             call_tool_body SEARCH_PRODUCTS arguments s
             = (Raised (ValueError reason), s)).
  { unfold call_tool_body. rewrite bool_decide_eq_true_2 by reflexivity.
    destruct H as [-> | (raw & -> & Hlen)].
    - eexists. split; [left; reflexivity | reflexivity].
    - change (pyval_truthy (PStr raw)) with (truthy raw).
      destruct (truthy raw) eqn:Ht; cbn [negb].
      + change (pyval_strip (PStr raw)) with (@ret str (strip raw)).
        unfold bind at 1, ret.
        apply Z.ltb_lt in Hlen. rewrite Hlen.
        eexists. split; [right; reflexivity | reflexivity].
      + eexists. split; [left; reflexivity | reflexivity]. }
  destruct Hbody as (reason & Hreason & Hbody).
  exists reason. split; [exact Hreason|]. split; [exact Hbody|].
  exact (call_tool_raised _ _ _ _ _ Hbody).
Qed.

(** The body of a valid call: the search runs on the trimmed query
    and its result fills the envelope. *)
Lemma call_tool_body_valid (arguments : gmap str pyval) (raw : str)
    (s s' : State) (result : list Product) :
  arguments !! py "query" = Some (PStr raw) ->
  2 <= len (strip raw) ->
  search_products (strip raw) s = (Ok result, s') ->
  call_tool_body SEARCH_PRODUCTS arguments s
  = (Ok {| query := strip raw;
           total_results := len result;
           products := result;
           search_info :=
             {| source := py "ASRock Industrial website";
                info_max_products_per_search := max_products_per_search scraping_config;
                search_method := search_method_of (mgr s') |} |}, s').
Proof.
  intros Hq Hlen Hsearch.
  unfold call_tool_body. rewrite bool_decide_eq_true_2 by reflexivity.
  rewrite Hq.
  assert (Ht : truthy raw = true).
  { destruct raw; [|reflexivity]. rewrite strip_nil in Hlen. unfold len in Hlen.
    simpl in Hlen. lia. }
  change (pyval_truthy (PStr raw)) with (truthy raw). rewrite Ht. cbn [negb].
  change (pyval_strip (PStr raw)) with (@ret str (strip raw)).
  unfold bind at 1, ret.
  destruct (Z.ltb_spec (len (strip raw)) 2); [lia|].
  rewrite (bind_ok _ _ _ _ _ Hsearch). reflexivity.
Qed.

(** C3: in every envelope the tool produces, [total_results] is the
    length of [products]. *)
Theorem total_results_is_length
    (tool : str) (arguments : gmap str pyval) (s s' : State) (r : Response) :
  call_tool tool arguments s = (Ok r, s') ->
  total_results r = len (products r).
Proof.
  intros Hbody. apply call_tool_returned in Hbody.
  unfold call_tool_body in Hbody.
  case_bool_decide; [|discriminate].
  destruct (arguments !! py "query") as [v|]; [|discriminate].
  destruct (negb (pyval_truthy v)); [discriminate|].
  unfold bind at 1 in Hbody.
  destruct (pyval_strip v s) as [[q|e] s2]; [|discriminate].
  destruct (len q <? 2); [discriminate|].
  unfold bind at 1 in Hbody.
  destruct (search_products q s2) as [[result|e] s3]; [|discriminate].
  injection Hbody as <- _. reflexivity.
Qed.

(** C10: for a valid call the tool runs the search on the trimmed
    query, and the envelope echoes the trimmed query and carries the
    products of that search; when the input has no whitespace at
    either end the echo is the input itself. *)
Theorem query_echo_is_trimmed (arguments : gmap str pyval) (raw : str) (s : State) :
  arguments !! py "query" = Some (PStr raw) ->
  2 <= len (strip raw) ->
  exists result s' r,
    search_products (strip raw) s = (Ok result, s') /\
    call_tool SEARCH_PRODUCTS arguments s = (Ok r, s') /\
    query r = strip raw /\
    products r = result /\
    ((forall c, head raw = Some c -> isspace c = false) ->
     (forall c, last raw = Some c -> isspace c = false) ->
     query r = raw).
Proof.
  intros Hq Hlen.
  destruct (search_products_returns scraping_config config E (strip raw) s)
    as (result & s' & Hsearch).
  eexists result, s', _. split; [exact Hsearch|].
  split; [apply call_tool_ok, (call_tool_body_valid _ raw _ _ _ Hq Hlen Hsearch)|].
  simpl. repeat split. intros Hh Hl. now apply strip_clean.
Qed.

End Tool.

Lemma invalid_query_rejected_witness :
  let E := Samples.healthy_env (Samples.catalog_page 1) in
  (exists reason,
      (reason = py "Missing required argument: query" \/
       reason = py "Search query must be at least 2 characters long") /\
      call_tool_body default_scraping_config default_config E SEARCH_PRODUCTS
        {[ py "query" := PStr (py "  a ") ]} initial_state
      = (Raised (ValueError reason), initial_state) /\
      call_tool default_scraping_config default_config E SEARCH_PRODUCTS
        {[ py "query" := PStr (py "  a ") ]} initial_state
      = (Raised (AttributeError (py "'str' object has no attribute 'message'")),
         initial_state))
  /\
  (exists reason,
      (reason = py "Missing required argument: query" \/
       reason = py "Search query must be at least 2 characters long") /\
      call_tool_body default_scraping_config default_config E SEARCH_PRODUCTS
        ∅ initial_state
      = (Raised (ValueError reason), initial_state) /\
      call_tool default_scraping_config default_config E SEARCH_PRODUCTS
        ∅ initial_state
      = (Raised (AttributeError (py "'str' object has no attribute 'message'")),
         initial_state)).
Proof.
  intros E. split.
  - apply (invalid_query_rejected default_scraping_config default_config E
             {[ py "query" := PStr (py "  a ") ]} initial_state).
    right. exists (py "  a "). split; [vm_compute; reflexivity | reflexivity].
  - apply (invalid_query_rejected default_scraping_config default_config E
             ∅ initial_state).
    left. reflexivity.
Defined.

(** The failing input of C2: the too-short query [  a ].  The body
    raises the validation error; the caller gets the same
    [AttributeError] as for a missing query, which does not say what
    was wrong. *)
Example short_query_message :
  let E := Samples.healthy_env (Samples.catalog_page 1) in
  (call_tool_body default_scraping_config default_config E SEARCH_PRODUCTS
     {[ py "query" := PStr (py "  a ") ]} initial_state).1
  = Raised (ValueError (py "Search query must be at least 2 characters long"))
  /\
  (call_tool default_scraping_config default_config E SEARCH_PRODUCTS
     {[ py "query" := PStr (py "  a ") ]} initial_state).1
  = Raised (AttributeError (py "'str' object has no attribute 'message'"))
  /\
  (call_tool default_scraping_config default_config E SEARCH_PRODUCTS
     ∅ initial_state).1
  = Raised (AttributeError (py "'str' object has no attribute 'message'")).
Proof. intros E. repeat split; vm_compute; reflexivity. Qed.

Lemma total_results_is_length_witness :
  let E := Samples.healthy_env (Samples.catalog_page 2) in
  exists r s',
    call_tool default_scraping_config default_config E SEARCH_PRODUCTS
      {[ py "query" := PStr (py "SBC") ]} initial_state = (Ok r, s') /\
    total_results r = 2 /\
    total_results r = len (products r).
Proof.
  intros E.
  destruct (call_tool default_scraping_config default_config E SEARCH_PRODUCTS
              {[ py "query" := PStr (py "SBC") ]} initial_state)
    as [[r|e] s'] eqn:Hcall; [|vm_compute in Hcall; discriminate].
  exists r, s'. split; [reflexivity|]. split.
  - vm_compute in Hcall. injection Hcall as <- _. reflexivity.
  - exact (total_results_is_length default_scraping_config default_config E
             SEARCH_PRODUCTS {[ py "query" := PStr (py "SBC") ]} initial_state s' r Hcall).
Defined.

Lemma query_echo_is_trimmed_witness :
  let E := Samples.healthy_env (Samples.catalog_page 1) in
  (exists result s' r,
      search_products default_scraping_config default_config E (py "SBC-230") initial_state
      = (Ok result, s') /\
      call_tool default_scraping_config default_config E SEARCH_PRODUCTS
        {[ py "query" := PStr (py "  SBC-230 ") ]} initial_state = (Ok r, s') /\
      query r = py "SBC-230" /\ products r = result)
  /\
  (exists s' r,
      call_tool default_scraping_config default_config E SEARCH_PRODUCTS
        {[ py "query" := PStr (py "IMB") ]} initial_state = (Ok r, s') /\
      query r = py "IMB").
Proof.
  intros E. split.
  - assert (Hq : ({[ py "query" := PStr (py "  SBC-230 ") ]} : gmap str pyval)
                   !! py "query" = Some (PStr (py "  SBC-230 ")))
      by (vm_compute; reflexivity).
    assert (Hlen : 2 <= len (strip (py "  SBC-230 "))) by (vm_compute; discriminate).
    destruct (query_echo_is_trimmed default_scraping_config default_config E
                _ _ initial_state Hq Hlen)
      as (result & s' & r & Hsearch & Hcall & Hecho & Hproducts & _).
    exists result, s', r. repeat split; assumption.
  - assert (Hq : ({[ py "query" := PStr (py "IMB") ]} : gmap str pyval)
                   !! py "query" = Some (PStr (py "IMB")))
      by (vm_compute; reflexivity).
    assert (Hlen : 2 <= len (strip (py "IMB"))) by (vm_compute; discriminate).
    destruct (query_echo_is_trimmed default_scraping_config default_config E
                _ _ initial_state Hq Hlen)
      as (result & s' & r & _ & Hcall & _ & _ & Hclean).
    exists s', r. split; [exact Hcall|].
    apply Hclean; intros c [= <-]; reflexivity.
Defined.

(** * Further properties of the code *)

(** ** Kinds of events *)

(** The events of the driver manager's own life cycle. *)
Definition is_driver_event (ev : event) : bool :=
  match ev with
  | EvLaunch | EvConfigure | EvCdpCmd | EvScript | EvQuit | EvProbe => true
  | _ => false
  end.

(** The events of the browser path. *)
Definition is_browser_event (ev : event) : bool :=
  match ev with
  | EvLaunch | EvConfigure | EvCdpCmd | EvScript | EvQuit | EvProbe
  | EvDriverGet _ | EvWait | EvPageSource | EvSaveDebug _
  | EvSleep NavigationRetry _ _ | EvSleep ProductDelay _ _ => true
  | _ => false
  end.

(** The events of the fallback path. *)
Definition is_fallback_event (ev : event) : bool :=
  match ev with
  | EvHttpGet _ | EvSleep FallbackProductDelay _ _ => true
  | _ => false
  end.

Definition is_driver_get (ev : event) : bool :=
  match ev with
  | EvDriverGet _ => true
  | _ => false
  end.

Definition is_quit (ev : event) : bool :=
  match ev with
  | EvQuit => true
  | _ => false
  end.

(** The driver manager can drive a browser. *)
Definition ready (m : WebDriverManager) : Prop :=
  is_Some (driver m) /\ _initialization_failed m = false.

(** [m] appends events of which at most [n] satisfy [p]. *)
Definition adds_at_most (p : event -> bool) (n : nat) {A} (m : M A) : Prop :=
  forall s, exists evs,
    trace (m s).2 = trace s ++ evs /\ (length (List.filter p evs) <= n)%nat.

Lemma emits_weaken (ok ok' : event -> bool) {A} (m : M A) :
  (forall ev, ok ev = true -> ok' ev = true) -> emits ok m -> emits ok' m.
Proof.
  intros Himp Hm s. destruct (Hm s) as (evs & Ht & Hok).
  exists evs. split; [exact Ht|]. eapply Forall_impl; [exact Hok | exact Himp].
Qed.

Lemma filter_none (p : event -> bool) (evs : list event) :
  Forall (fun ev => p ev = false) evs -> List.filter p evs = [].
Proof.
  induction 1 as [|ev evs Hev _ IH]; simpl; [reflexivity|]. now rewrite Hev.
Qed.

Section AddsAtMost.

Variable p : event -> bool.

Lemma adds_none {A} (ok : event -> bool) (m : M A) :
  (forall ev, ok ev = true -> p ev = false) -> emits ok m -> adds_at_most p 0 m.
Proof.
  intros Himp Hm s. destruct (Hm s) as (evs & Ht & Hok).
  exists evs. split; [exact Ht|].
  rewrite filter_none; [reflexivity|].
  eapply Forall_impl; [exact Hok | exact Himp].
Qed.

Lemma adds_weaken {A} (n n' : nat) (m : M A) :
  (n <= n')%nat -> adds_at_most p n m -> adds_at_most p n' m.
Proof.
  intros Hle Hm s. destruct (Hm s) as (evs & Ht & Hn). exists evs. split; [exact Ht | lia].
Qed.

Lemma adds_ret {A} (a : A) : adds_at_most p 0 (ret a).
Proof. intros s. exists []. now rewrite app_nil_r. Qed.

Lemma adds_tick (ev : event) : adds_at_most p 1 (tick ev).
Proof.
  intros s. exists [ev]. split; [reflexivity|]. simpl. destruct (p ev); simpl; lia.
Qed.

Lemma adds_bind {A B} (n1 n2 : nat) (m : M A) (k : A -> M B) :
  adds_at_most p n1 m -> (forall a, adds_at_most p n2 (k a)) ->
  adds_at_most p (n1 + n2) (bind m k).
Proof.
  intros Hm Hk s. unfold bind. destruct (Hm s) as (e1 & H1 & F1).
  destruct (m s) as [[a|e] s1]; simpl in *.
  - destruct (Hk a s1) as (e2 & H2 & F2). exists (e1 ++ e2).
    rewrite H2, H1, app_assoc. split; [reflexivity|].
    rewrite List.filter_app, length_app. lia.
  - exists e1. split; [exact H1 | lia].
Qed.

Lemma adds_try_catch {A} (n1 n2 : nat) (m : M A) (h : exn -> M A) :
  adds_at_most p n1 m -> (forall e, adds_at_most p n2 (h e)) ->
  adds_at_most p (n1 + n2) (try_catch m h).
Proof.
  intros Hm Hh s. unfold try_catch. destruct (Hm s) as (e1 & H1 & F1).
  destruct (m s) as [[a|e] s1]; simpl in *.
  - exists e1. split; [exact H1 | lia].
  - destruct (Hh e s1) as (e2 & H2 & F2). exists (e1 ++ e2).
    rewrite H2, H1, app_assoc. split; [reflexivity|].
    rewrite List.filter_app, length_app. lia.
Qed.

End AddsAtMost.

(** ** The driver manager *)

Section DriverManager.

Variable scraping_config : ScrapingConfig.
Variable E : Env.

Lemma cleanup_driver_driver_events : emits is_driver_event cleanup_driver.
Proof. unfold cleanup_driver. emits_auto. Qed.
Hint Resolve cleanup_driver_driver_events : emits.

Lemma _setup_anti_detection_driver_events :
  emits is_driver_event (_setup_anti_detection E).
Proof. unfold _setup_anti_detection. emits_auto. Qed.
Hint Resolve _setup_anti_detection_driver_events : emits.

Lemma setup_driver_driver_events : emits is_driver_event (setup_driver E).
Proof. unfold setup_driver. emits_auto. Qed.
Hint Resolve setup_driver_driver_events : emits.

Lemma is_driver_alive_driver_events : emits is_driver_event (is_driver_alive E).
Proof. unfold is_driver_alive. emits_auto. Qed.
Hint Resolve is_driver_alive_driver_events : emits.

Lemma ensure_driver_driver_events : emits is_driver_event (ensure_driver E).
Proof. unfold ensure_driver. emits_auto. Qed.

(** [setup_driver] never raises; it returns [True] with a driver in
    place and [False] with the session poisoned. *)
Lemma setup_driver_outcome (s : State) :
  exists b s',
    setup_driver E s = (Ok b, s') /\
    (b = true -> ready (mgr s')) /\
    (b = false -> poisoned (mgr s')).
Proof.
  destruct s as [[d f] c tr].
  unfold setup_driver, bind at 1, get_mgr. simpl.
  destruct f; [eexists _, _; split; [reflexivity|]; split; [discriminate | reflexivity]|].
  unfold try_catch, bind, cleanup_driver, _setup_anti_detection, call, try_catch, bind,
    get_mgr, tick, lift, set_driver, set_initialization_failed, ret, raise, ready, poisoned.
  repeat (simpl; case_match); simplify_eq; simpl;
    eexists _, _; (split; [reflexivity|]); simpl;
    split; intros; try discriminate; try reflexivity; split; eauto.
Qed.

(** [ensure_driver] never raises; it returns [True] with a driver in
    place and [False] with the session poisoned. *)
Lemma ensure_driver_outcome (s : State) :
  exists b s',
    ensure_driver E s = (Ok b, s') /\
    (b = true -> ready (mgr s')) /\
    (b = false -> poisoned (mgr s')).
Proof.
  unfold ensure_driver, bind at 1, get_mgr.
  destruct (driver (mgr s)) as [d|] eqn:Hd; [|apply setup_driver_outcome].
  unfold bind, is_driver_alive, bind, get_mgr. rewrite Hd.
  destruct (_initialization_failed (mgr s)) eqn:Hf; simpl.
  - destruct (setup_driver_outcome s) as (b & s' & Hs & H). unfold ret. simpl.
    exists b, s'. auto.
  - unfold try_catch, bind, call, bind, tick, lift, ret, raise. simpl.
    destruct (driver_current_url E (clock s)); simpl.
    + eexists _, _. split; [reflexivity|]. split; [|discriminate].
      intros _. split; simpl; [rewrite Hd; eauto | exact Hf].
    + apply setup_driver_outcome.
Qed.

End DriverManager.

Section DriverManagerProperties.

Variable scraping_config : ScrapingConfig.
Variable E : Env.

Local Abbreviation safe_get := (safe_get scraping_config E).
Local Abbreviation safe_get_loop := (safe_get_loop scraping_config E).
Local Abbreviation safe_get_attempt := (safe_get_attempt scraping_config E).

Lemma ready_not_poisoned (m : WebDriverManager) : ready m -> ~ poisoned m.
Proof. intros [_ H] Hp. red in Hp. congruence. Qed.

(** X1: [setup_driver] never raises, whatever the browser does.  It
    returns [True] exactly when it leaves a driver in place with the
    session not poisoned, and [False] exactly when it leaves the
    session poisoned; all it does to the outside is driver life-cycle
    calls (launch, configure, anti-detection, quit). *)
Theorem setup_driver_status (s : State) :
  exists b s',
    setup_driver E s = (Ok b, s') /\
    (b = true <-> ready (mgr s')) /\
    (b = false <-> poisoned (mgr s')) /\
    exists evs, trace s' = trace s ++ evs /\
                Forall (fun ev => is_driver_event ev = true) evs.
Proof.
  destruct (setup_driver_outcome E s) as (b & s' & Hs & Ht & Hf).
  exists b, s'. split; [exact Hs|].
  destruct (setup_driver_driver_events E s) as (evs & Hev & Hok).
  rewrite Hs in Hev. simpl in Hev.
  split; [|split; [|now exists evs]].
  - split; [exact Ht|].
    intros Hr. destruct b; [reflexivity|].
    exfalso. exact (ready_not_poisoned _ Hr (Hf eq_refl)).
  - split; [exact Hf|].
    intros Hp. destruct b; [|reflexivity].
    exfalso. exact (ready_not_poisoned _ (Ht eq_refl) Hp).
Qed.

(** The state after the liveness probe. *)
Definition after_probe (s : State) : State := (tick EvProbe s).2.

(** X2: on a session that has a driver and is not poisoned,
    [ensure_driver] first probes the driver; when the probe answers it
    returns [True] having done nothing else, and when the probe raises
    it goes on exactly as [setup_driver] does (a relaunch). *)
Theorem ensure_driver_probe (s : State) :
  ready (mgr s) ->
  (driver_current_url E (clock s) = Returns tt ->
   ensure_driver E s = (Ok true, after_probe s)) /\
  (forall msg, driver_current_url E (clock s) = Throws msg ->
               ensure_driver E s = setup_driver E (after_probe s)).
Proof.
  intros [[d Hd] Hf].
  assert (Hstart :
             ensure_driver E s
             = bind (try_catch (call EvProbe (driver_current_url E) ;;; ret true)
                               (fun _ => ret false))
                    (fun alive => if negb alive then setup_driver E else ret true) s).
  { unfold ensure_driver, bind at 1, get_mgr. rewrite Hd.
    unfold is_driver_alive, bind at 2, get_mgr.
    unfold bind at 1. unfold bind at 3. rewrite Hd, Hf. reflexivity. }
  rewrite Hstart. clear Hstart.
  unfold bind, try_catch, call, bind, tick, lift, after_probe, tick. simpl.
  split.
  - intros ->. reflexivity.
  - intros msg ->. reflexivity.
Qed.

(** One navigation attempt never raises; when it says [True] the
    driver is in place and the last thing done is the navigation. *)
Lemma safe_get_attempt_outcome (target : str) (attempt : Z) (s : State) :
  exists r s',
    safe_get_attempt target attempt s = (Ok r, s') /\
    (r = Return true ->
     ready (mgr s') /\ exists tr, trace s' = tr ++ [EvDriverGet target]).
Proof.
  unfold safe_get_attempt.
  unfold try_catch, bind at 1.
  destruct (ensure_driver_outcome E s) as (ok & s1 & Hens & Hready & _).
  rewrite Hens. destruct ok; simpl.
  - unfold bind, call, bind, tick, lift. simpl.
    destruct (driver_get E (clock s1) target); simpl.
    + eexists _, _. split; [reflexivity|]. intros _. simpl.
      split; [exact (Hready eq_refl) | now exists (trace s1)].
    + destruct (attempt <? max_retries scraping_config - 1);
        eexists _, _; (split; [reflexivity | discriminate]).
  - eexists _, _. split; [reflexivity | discriminate].
Qed.

Lemma safe_get_loop_outcome (target : str) (attempts : list Z) :
  forall s, exists b s',
    safe_get_loop target attempts s = (Ok b, s') /\
    (b = true ->
     ready (mgr s') /\ exists tr, trace s' = tr ++ [EvDriverGet target]).
Proof.
  induction attempts as [|attempt rest IH]; intros s; simpl.
  - eexists _, _. split; [reflexivity | discriminate].
  - destruct (safe_get_attempt_outcome target attempt s) as (r & s1 & Hr & Hgood).
    rewrite (bind_ok _ _ _ _ _ Hr). destruct r as [b|]; [|apply IH].
    exists b, s1. split; [reflexivity|]. intros ->. now apply Hgood.
Qed.

Lemma safe_get_outcome (target : str) (s : State) :
  exists b s',
    safe_get target s = (Ok b, s') /\
    (b = true ->
     ready (mgr s') /\ exists tr, trace s' = tr ++ [EvDriverGet target]).
Proof.
  unfold safe_get, bind at 1, get_mgr.
  destruct (_initialization_failed (mgr s)).
  - eexists _, _. split; [reflexivity | discriminate].
  - apply safe_get_loop_outcome.
Qed.

(** X3: [safe_get] never raises, whatever the browser does; when it
    returns [True] a driver is in place, the session is not poisoned
    and the last external call made is [driver.get] of the requested
    URL. *)
Theorem safe_get_status (target : str) (s : State) :
  exists b s',
    safe_get target s = (Ok b, s') /\
    (b = true ->
     is_Some (driver (mgr s')) /\ _initialization_failed (mgr s') = false /\
     exists tr, trace s' = tr ++ [EvDriverGet target]).
Proof.
  destruct (safe_get_outcome target s) as (b & s' & Hs & Hgood).
  exists b, s'. split; [exact Hs|]. intros Hb.
  destruct (Hgood Hb) as [[Hd Hf] Htr]. auto.
Qed.

Lemma safe_get_attempt_navigations (target : str) (attempt : Z) :
  adds_at_most is_driver_get 1 (safe_get_attempt target attempt).
Proof.
  unfold safe_get_attempt.
  apply (adds_try_catch _ 1 0).
  - apply (adds_bind _ 0 1).
    + apply (adds_none _ is_driver_event); [now intros [] | apply ensure_driver_driver_events].
    + intros ok. destruct (negb ok); [apply (adds_weaken _ 0); [lia | apply adds_ret]|].
      apply (adds_bind _ 1 0); [|intros; apply adds_ret].
      apply (adds_bind _ 1 0); [apply adds_tick|].
      intros t. destruct (driver_get E t target);
        apply (adds_none _ (fun _ => false)); try discriminate; auto with emits.
  - intros e. destruct (_ <? _); [|apply adds_ret].
    apply (adds_none _ (fun ev => negb (is_driver_get ev))).
    + intros ev H. now apply negb_true_iff in H.
    + apply emits_bind; [apply emits_sleep; reflexivity | intros; apply emits_ret].
Qed.

Lemma safe_get_loop_navigations (target : str) (attempts : list Z) :
  adds_at_most is_driver_get (length attempts) (safe_get_loop target attempts).
Proof.
  induction attempts as [|attempt rest IH]; simpl.
  - apply adds_ret.
  - apply (adds_bind _ 1 (length rest)); [apply safe_get_attempt_navigations|].
    intros [b|]; [|exact IH].
    apply (adds_weaken _ 0); [lia | apply adds_ret].
Qed.

Lemma range_length (n : Z) : length (range n) = Z.to_nat n.
Proof. unfold range. now rewrite length_map, length_seq. Qed.

(** X4: one call of [safe_get] makes at most [max_retries]
    navigations ([driver.get] calls), and none when [max_retries] is
    zero or negative. *)
Theorem safe_get_navigation_bound (target : str) (s : State) :
  exists evs,
    trace (safe_get target s).2 = trace s ++ evs /\
    (length (List.filter is_driver_get evs) <= Z.to_nat (max_retries scraping_config))%nat.
Proof.
  revert s. change (adds_at_most is_driver_get
                      (Z.to_nat (max_retries scraping_config)) (safe_get target)).
  unfold safe_get.
  apply (adds_bind _ 0 (Z.to_nat (max_retries scraping_config))).
  - intros s. exists []. now rewrite app_nil_r.
  - intros m. destruct (_initialization_failed m).
    + apply (adds_weaken _ 0); [lia | apply adds_ret].
    + rewrite <- range_length. apply safe_get_loop_navigations.
Qed.

(** X5: with [max_retries] zero or negative [safe_get] gives up at
    once: it returns [False] and does nothing, not even a launch. *)
Theorem safe_get_without_retries (target : str) (s : State) :
  max_retries scraping_config <= 0 ->
  safe_get target s = (Ok false, s).
Proof.
  intros Hmax. unfold safe_get, bind, get_mgr.
  destruct (_initialization_failed (mgr s)); [reflexivity|].
  unfold range. replace (Z.to_nat (max_retries scraping_config)) with 0%nat by lia.
  reflexivity.
Qed.

(** X6: [cleanup_driver] never raises and leaves no driver; it quits
    the browser exactly when there was a driver, keeps the poisoned
    flag as it was, and a second [cleanup_driver] does nothing. *)
Theorem cleanup_driver_idempotent (s : State) :
  exists s',
    cleanup_driver s = (Ok tt, s') /\
    driver (mgr s') = None /\
    _initialization_failed (mgr s') = _initialization_failed (mgr s) /\
    trace s' = trace s ++ (if bool_decide (is_Some (driver (mgr s))) then [EvQuit] else []) /\
    cleanup_driver s' = (Ok tt, s').
Proof.
  destruct s as [[d f] c tr]. unfold cleanup_driver, bind, get_mgr. simpl.
  destruct d as [d|]; simpl.
  - eexists. split; [reflexivity|]. repeat split.
  - eexists. split; [reflexivity|]. repeat split. simpl. now rewrite app_nil_r.
Qed.

End DriverManagerProperties.

Module MoreSamples.

(** The defaults with [MAX_RETRIES=0] in the process environment. *)
Definition no_retry_config : ScrapingConfig := {|
  page_load_timeout := 15;
  element_wait_timeout := 10;
  implicit_wait := 3;
  max_retries := 0;
  retry_delay_min := 2;
  retry_delay_max := 4;
  max_products_per_search := 3;
  search_delay_min := 1;
  search_delay_max := 2;
  product_delay_min := 1;
  product_delay_max := 2
|}.

(** A state with a launched driver. *)
Definition launched_state : State :=
  (setup_driver (Samples.healthy_env Samples.empty_page) initial_state).2.

(** A world whose browser has crashed: the probe raises, a relaunch
    works. *)
Definition crashed_env : Env := {|
  chrome_launch := fun _ => Returns tt;
  chrome_configure := fun _ => Returns tt;
  execute_cdp_cmd := fun _ => Returns tt;
  driver_current_url := fun _ => Throws (py "invalid session id");
  driver_get := fun _ _ => Returns tt;
  wait_until := fun _ => Returns tt;
  driver_page_source := fun _ => Returns Samples.empty_page;
  session_get := fun _ _ => Returns Samples.empty_page;
  quote := fun q => Returns q;
  urljoin := fun base h => Returns (base ++ h)
|}.

(** A world whose web site is down for the fallback session. *)
Definition site_down_env : Env := {|
  chrome_launch := fun _ => Throws (py "chrome not found");
  chrome_configure := fun _ => Returns tt;
  execute_cdp_cmd := fun _ => Returns tt;
  driver_current_url := fun _ => Returns tt;
  driver_get := fun _ _ => Returns tt;
  wait_until := fun _ => Returns tt;
  driver_page_source := fun _ => Returns Samples.empty_page;
  session_get := fun _ _ => Throws (py "503 Server Error");
  quote := fun q => Returns q;
  urljoin := fun base h => Returns (base ++ h)
|}.

(** A search page with the no-result marker. *)
Definition no_result_page : Soup :=
  {| no_result := true; product_links := [Samples.sbc_link];
     tables := []; desc_elements := [] |}.

End MoreSamples.

Lemma ensure_driver_probe_witness :
  ensure_driver (Samples.healthy_env Samples.empty_page) MoreSamples.launched_state
  = (Ok true, after_probe MoreSamples.launched_state)
  /\
  ensure_driver MoreSamples.crashed_env MoreSamples.launched_state
  = setup_driver MoreSamples.crashed_env (after_probe MoreSamples.launched_state).
Proof.
  assert (Hready : ready (mgr MoreSamples.launched_state)).
  { split; [eexists; reflexivity | reflexivity]. }
  split.
  - apply (proj1 (ensure_driver_probe (Samples.healthy_env Samples.empty_page)
                    MoreSamples.launched_state Hready)).
    reflexivity.
  - apply (proj2 (ensure_driver_probe MoreSamples.crashed_env
                    MoreSamples.launched_state Hready) (py "invalid session id")).
    reflexivity.
Defined.

Lemma safe_get_without_retries_witness :
  safe_get MoreSamples.no_retry_config (Samples.healthy_env Samples.empty_page)
    (py "https://www.asrockind.com/") initial_state = (Ok false, initial_state).
Proof.
  apply (safe_get_without_retries MoreSamples.no_retry_config). simpl. lia.
Defined.

(** ** Which path makes which calls *)

Lemma driver_event_is_browser_event (ev : event) :
  is_driver_event ev = true -> is_browser_event ev = true.
Proof. destruct ev; simpl; congruence. Qed.

Section PathEvents.

Variable scraping_config : ScrapingConfig.
Variable config : ServerConfig.
Variable E : Env.

Lemma ensure_driver_browser_events : emits is_browser_event (ensure_driver E).
Proof.
  apply (emits_weaken is_driver_event);
    [apply driver_event_is_browser_event | apply ensure_driver_driver_events].
Qed.
Hint Resolve ensure_driver_browser_events : emits.

Lemma safe_get_attempt_browser_events target attempt :
  emits is_browser_event (safe_get_attempt scraping_config E target attempt).
Proof. unfold safe_get_attempt. emits_auto. Qed.
Hint Resolve safe_get_attempt_browser_events : emits.

Lemma safe_get_loop_browser_events target attempts :
  emits is_browser_event (safe_get_loop scraping_config E target attempts).
Proof. induction attempts; simpl; emits_auto. Qed.
Hint Resolve safe_get_loop_browser_events : emits.

Lemma safe_get_browser_events target :
  emits is_browser_event (safe_get scraping_config E target).
Proof. unfold safe_get. emits_auto. Qed.
Hint Resolve safe_get_browser_events : emits.

Lemma save_debug_browser_events f :
  emits is_browser_event (save_debug_if_enabled config f).
Proof. unfold save_debug_if_enabled, _save_debug_html. emits_auto. Qed.
Hint Resolve save_debug_browser_events : emits.

Lemma resolve_href_silent ok link : emits ok (resolve_href config E link).
Proof. unfold resolve_href. emits_auto. Qed.
Hint Resolve resolve_href_silent : emits.

Lemma search_url_silent ok q : emits ok (search_url config E q).
Proof. unfold search_url. emits_auto. Qed.
Hint Resolve search_url_silent : emits.

Lemma _scrape_single_product_browser_events link n :
  emits is_browser_event (_scrape_single_product scraping_config config E link n).
Proof. unfold _scrape_single_product. emits_auto. Qed.
Hint Resolve _scrape_single_product_browser_events : emits.

Lemma scrape_links_browser_events n links products :
  emits is_browser_event (scrape_links scraping_config config E n links products).
Proof.
  revert products. induction links as [|[i link] rest IH]; intros; simpl; emits_auto.
Qed.
Hint Resolve scrape_links_browser_events : emits.

Lemma scrape_search_results_browser_events q :
  emits is_browser_event (scrape_search_results scraping_config config E q).
Proof. unfold scrape_search_results. emits_auto. Qed.
Hint Resolve scrape_search_results_browser_events : emits.

Lemma browser_attempt_browser_events q :
  emits is_browser_event (browser_attempt scraping_config config E q).
Proof. unfold browser_attempt. emits_auto. Qed.

Lemma _scrape_single_product_fallback_events link n :
  emits is_fallback_event (_scrape_single_product_fallback config E link n).
Proof. unfold _scrape_single_product_fallback. emits_auto. Qed.
Hint Resolve _scrape_single_product_fallback_events : emits.

Lemma fallback_links_events n links products :
  emits is_fallback_event (fallback_links config E n links products).
Proof.
  revert products. induction links as [|[i link] rest IH]; intros; simpl; emits_auto.
Qed.
Hint Resolve fallback_links_events : emits.

Lemma fallback_search_products_events q :
  emits is_fallback_event (fallback_search_products scraping_config config E q).
Proof. unfold fallback_search_products. emits_auto. Qed.
Hint Resolve fallback_search_products_events : emits.

Lemma fallback_attempt_events q :
  emits is_fallback_event (fallback_attempt scraping_config config E q).
Proof. unfold fallback_attempt. emits_auto. Qed.

(** X7: the two scrapers keep to their own means: the browser-driven
    search makes only browser calls (and its own sleeps), the fallback
    search only HTTP requests through its session (and its own
    sleeps); in particular the fallback search never launches or
    drives the browser. *)
Theorem scrapers_keep_to_their_path (q : str) (s : State) :
  (exists evs,
      trace (scrape_search_results scraping_config config E q s).2 = trace s ++ evs /\
      Forall (fun ev => is_browser_event ev = true /\ is_fallback_event ev = false) evs)
  /\
  (exists evs,
      trace (fallback_search_products scraping_config config E q s).2 = trace s ++ evs /\
      Forall (fun ev => is_fallback_event ev = true /\ is_browser_event ev = false) evs)
  /\
  mgr (fallback_search_products scraping_config config E q s).2 = mgr s.
Proof.
  split; [|split].
  - destruct (scrape_search_results_browser_events q s) as (evs & Ht & Hok).
    exists evs. split; [exact Ht|].
    eapply Forall_impl; [exact Hok|]. intros ev H. split; [exact H|].
    destruct ev as [| | | | | | | | | | |[]]; simpl in *; congruence.
  - destruct (fallback_search_products_events q s) as (evs & Ht & Hok).
    exists evs. split; [exact Ht|].
    eapply Forall_impl; [exact Hok|]. intros ev H. split; [exact H|].
    destruct ev as [| | | | | | | | | | |[]]; simpl in *; congruence.
  - symmetry.
    exact (fallback_search_products_keeps scraping_config config E (eq (mgr s)) q s eq_refl).
Qed.

(** *** Attempts of a search *)

Lemma search_attempt_delays q attempt :
  adds_at_most is_search_delay 1 (search_attempt scraping_config config E q attempt).
Proof.
  unfold search_attempt.
  apply (adds_try_catch _ 1 0).
  - unfold search_attempt_body.
    apply (adds_bind _ 1 0).
    + apply (adds_bind _ 1 0); [apply adds_tick | intros; apply adds_ret].
    + intros _. apply (adds_bind _ 0 0).
      * apply (adds_none _ is_browser_event); [|apply browser_attempt_browser_events].
        intros ev H. destruct ev as [| | | | | | | | | | |[]]; simpl in *; congruence.
      * intros [ps|]; [apply adds_ret|].
        apply (adds_none _ is_fallback_event); [|apply fallback_attempt_events].
        intros ev H. destruct ev as [| | | | | | | | | | |[]]; simpl in *; congruence.
  - intros e. destruct (_ <? _); [|apply adds_ret].
    apply (adds_none _ is_backoff).
    + intros ev H. destruct ev as [| | | | | | | | | | |[]]; simpl in *; congruence.
    + apply emits_bind; [apply emits_tick; reflexivity | intros; apply emits_ret].
Qed.

Lemma search_loop_delays q attempts :
  adds_at_most is_search_delay (length attempts)
               (search_loop scraping_config config E q attempts).
Proof.
  induction attempts as [|attempt rest IH]; simpl.
  - apply adds_ret.
  - apply (adds_bind _ 1 (length rest)); [apply search_attempt_delays|].
    intros [ps|]; [|exact IH].
    apply (adds_weaken _ 0); [lia | apply adds_ret].
Qed.

(** X8: [search_products] never raises, whatever the browser and the
    web site do, and it makes at most [max_retries] attempts (each
    attempt opens with one pre-search delay). *)
Theorem search_products_total_and_bounded (q : str) (s : State) :
  exists ps s' evs,
    search_products scraping_config config E q s = (Ok ps, s') /\
    trace s' = trace s ++ evs /\
    (length (List.filter is_search_delay evs)
     <= Z.to_nat (max_retries scraping_config))%nat.
Proof.
  destruct (search_products_returns scraping_config config E q s) as (ps & s' & Hs).
  destruct (search_loop_delays q (range (max_retries scraping_config)) s)
    as (evs & Ht & Hn).
  fold (search_products scraping_config config E q) in Ht.
  rewrite Hs in Ht. simpl in Ht. rewrite range_length in Hn.
  now exists ps, s', evs.
Qed.

(** X9: with [max_retries] zero or negative a search makes no attempt
    at all: it returns the empty list and touches nothing. *)
Theorem search_without_attempts (q : str) (s : State) :
  max_retries scraping_config <= 0 ->
  search_products scraping_config config E q s = (Ok [], s).
Proof.
  intros Hmax. unfold search_products, range.
  replace (Z.to_nat (max_retries scraping_config)) with 0%nat by lia.
  reflexivity.
Qed.

End PathEvents.

Lemma search_without_attempts_witness :
  search_products MoreSamples.no_retry_config default_config
    (Samples.healthy_env (Samples.catalog_page 2)) (py "SBC") initial_state
  = (Ok [], initial_state).
Proof.
  apply (search_without_attempts MoreSamples.no_retry_config). simpl. lia.
Defined.

(** ** Where a search result comes from *)

Section SearchOrigin.

Variable scraping_config : ScrapingConfig.
Variable config : ServerConfig.
Variable E : Env.

Local Abbreviation search_attempt := (search_attempt scraping_config config E).
Local Abbreviation search_attempt_body := (search_attempt_body scraping_config config E).
Local Abbreviation browser_attempt := (browser_attempt scraping_config config E).
Local Abbreviation fallback_attempt := (fallback_attempt scraping_config config E).
Local Abbreviation scrape_search_results := (scrape_search_results scraping_config config E).
Local Abbreviation fallback_search_products :=
  (fallback_search_products scraping_config config E).
Local Abbreviation search_loop := (search_loop scraping_config config E).
Local Abbreviation search_products := (search_products scraping_config config E).
Local Abbreviation skip_attempts := (skip_attempts scraping_config config E).
Local Abbreviation after_search_delay := (after_search_delay scraping_config).

Lemma browser_attempt_return (q : str) (s s1 : State) (ps : list Product) :
  browser_attempt q s = (Ok (Return ps), s1) ->
  scrape_search_results q s = (Ok ps, s1) /\ ps <> [].
Proof.
  unfold browser_attempt, bind at 1, get_mgr.
  destruct (_initialization_failed (mgr s)); simpl; [discriminate|].
  unfold try_catch, bind.
  destruct (scrape_search_results q s) as [[ps'|e] s2]; [|discriminate].
  destruct ps' as [|p ps']; simpl; [discriminate|].
  intros H. inversion H. subst. split; [reflexivity | discriminate].
Qed.

Lemma fallback_attempt_return (q : str) (s s1 : State) (ps : list Product) :
  fallback_attempt q s = (Ok (Return ps), s1) ->
  fallback_search_products q s = (Ok ps, s1) /\ ps <> [].
Proof.
  unfold fallback_attempt, bind.
  destruct (fallback_search_products q s) as [[ps'|e] s2]; [|discriminate].
  destruct ps' as [|p ps']; simpl; [discriminate|].
  intros H. inversion H. subst. split; [reflexivity | discriminate].
Qed.

Lemma browser_attempt_poisoned (q : str) (s : State) :
  poisoned (mgr s) -> browser_attempt q s = (Ok Continue, s).
Proof.
  intros H. unfold browser_attempt, bind, get_mgr. red in H. now rewrite H.
Qed.

Lemma search_attempt_return (q : str) (attempt : Z) (s s1 : State) (ps : list Product) :
  search_attempt q attempt s = (Ok (Return ps), s1) ->
  ps <> [] /\
  exists s0, scrape_search_results q s0 = (Ok ps, s1) \/
             fallback_search_products q s0 = (Ok ps, s1).
Proof.
  unfold search_attempt, try_catch.
  destruct (search_attempt_body q s) as [[r|e] s2] eqn:Hbody.
  2:{ destruct (_ <? _); discriminate. }
  intros H. inversion H. subst. clear H.
  unfold search_attempt_body in Hbody.
  rewrite (bind_ok _ _ _ _ _ (search_delay_run scraping_config s)) in Hbody.
  unfold bind at 1 in Hbody.
  destruct (browser_attempt q (after_search_delay s)) as [[[psb|]|e] sb] eqn:Hb;
    [| |discriminate].
  - inversion Hbody. subst.
    apply browser_attempt_return in Hb. destruct Hb as [Hb Hne].
    split; [exact Hne|]. eexists. left. exact Hb.
  - apply fallback_attempt_return in Hbody. destruct Hbody as [Hf Hne].
    split; [exact Hne|]. exists sb. now right.
Qed.

(** X10: whatever list [search_products] returns is either empty or a
    non-empty list that the browser-driven search or the fallback
    search returned in the state in which the search ends: the
    orchestrator adds nothing, drops nothing and merges nothing. *)
Theorem search_result_origin (q : str) (s s' : State) (ps : list Product) :
  search_products q s = (Ok ps, s') ->
  ps = [] \/
  (ps <> [] /\
   exists s0, scrape_search_results q s0 = (Ok ps, s') \/
              fallback_search_products q s0 = (Ok ps, s')).
Proof.
  unfold search_products. generalize (range (max_retries scraping_config)).
  intros attempts. revert s.
  induction attempts as [|attempt rest IH]; intros s; simpl.
  - intros H. inversion H. now left.
  - unfold bind at 1.
    destruct (search_attempt q attempt s) as [[[ps1|]|e] s1] eqn:Ha;
      [| |discriminate].
    + intros H. inversion H. subst. right. now apply search_attempt_return in Ha.
    + apply IH.
Qed.

(** X11: at every attempt of a search, when the browser part yields
    nothing (it is skipped, fails or finds no product) and the
    fallback search returns one or more products, the orchestrator
    returns the fallback's list in the state the fallback left, with
    no backoff and no further attempt. *)
Theorem fallback_result_returned
    (q : str) (before : list Z) (attempt : Z) (rest : list Z)
    (s sk s1 s2 : State) (ps : list Product) :
  skip_attempts q before s = Some sk ->
  browser_attempt q (after_search_delay sk) = (Ok Continue, s1) ->
  fallback_search_products q s1 = (Ok ps, s2) ->
  ps <> [] ->
  search_loop q (before ++ attempt :: rest) s = (Ok ps, s2).
Proof.
  intros Hskip Hb Hf Hne.
  rewrite (search_loop_skip scraping_config config E q before (attempt :: rest) s sk Hskip).
  simpl.
  assert (Ha : search_attempt q attempt sk = (Ok (Return ps), s2)).
  { unfold search_attempt. apply try_catch_ok. unfold search_attempt_body.
    rewrite (bind_ok _ _ _ _ _ (search_delay_run scraping_config sk)).
    rewrite (bind_ok _ _ _ _ _ Hb).
    unfold fallback_attempt. rewrite (bind_ok _ _ _ _ _ Hf).
    destruct ps; [congruence | reflexivity]. }
  now rewrite (bind_ok _ _ _ _ _ Ha).
Qed.

(** *** A poisoned session *)

(** An attempt without its browser part: the delay, the fallback and
    the handler. *)
Definition fallback_only_attempt (q : str) (attempt : Z) : M (turn (list Product)) :=
  try_catch
    (sleep SearchDelay (search_delay_min scraping_config)
           (search_delay_max scraping_config) ;;;
     fallback_attempt q)
    (fun _ =>
       if attempt <? max_retries scraping_config - 1
       then sleep SearchBackoff (retry_delay_min scraping_config * 2)%Q
                  (retry_delay_max scraping_config * 2)%Q ;;;
            ret Continue
       else ret Continue).

(** With the session poisoned that is all an attempt does. *)
Lemma search_attempt_when_poisoned (q : str) (attempt : Z) (s : State) :
  poisoned (mgr s) ->
  search_attempt q attempt s = fallback_only_attempt q attempt s.
Proof.
  intros Hp.
  unfold fallback_only_attempt, search_attempt, search_attempt_body, try_catch.
  rewrite !(bind_ok _ _ _ _ _ (search_delay_run scraping_config s)).
  rewrite (bind_ok _ _ _ _ _ (browser_attempt_poisoned q (after_search_delay s) Hp)).
  reflexivity.
Qed.

Lemma fallback_only_attempt_events (q : str) (attempt : Z) :
  emits (fun ev => negb (is_browser_event ev)) (fallback_only_attempt q attempt).
Proof.
  unfold fallback_only_attempt. apply emits_try_catch.
  - apply emits_bind; [apply emits_sleep; reflexivity|]. intros _.
    apply (emits_weaken is_fallback_event);
      [|apply (fallback_attempt_events scraping_config config E)].
    intros ev H. destruct ev as [| | | | | | | | | | |[]]; simpl in *; congruence.
  - intros e. destruct (_ <? _); [|apply emits_ret].
    apply emits_bind; [apply emits_sleep; reflexivity | intros; apply emits_ret].
Qed.

Lemma fallback_only_attempt_keeps (I : WebDriverManager -> Prop) (q : str) (attempt : Z) :
  keeps I (fallback_only_attempt q attempt).
Proof.
  pose proof (fallback_search_products_keeps scraping_config config E I q) as Hfb.
  unfold fallback_only_attempt, fallback_attempt. keeps_auto.
Qed.

Lemma search_loop_when_poisoned (q : str) (attempts : list Z) :
  forall s,
    poisoned (mgr s) ->
    exists evs,
      trace (search_loop q attempts s).2 = trace s ++ evs /\
      Forall (fun ev => is_browser_event ev = false) evs /\
      mgr (search_loop q attempts s).2 = mgr s.
Proof.
  induction attempts as [|attempt rest IH]; intros s Hp; simpl.
  - exists []. rewrite app_nil_r. repeat split. constructor.
  - destruct (fallback_only_attempt_events q attempt s) as (e1 & H1 & F1).
    pose proof (fallback_only_attempt_keeps (eq (mgr s)) q attempt s eq_refl) as Hmgr.
    rewrite <- (search_attempt_when_poisoned q attempt s Hp) in H1, Hmgr.
    assert (F1' : Forall (fun ev => is_browser_event ev = false) e1).
    { eapply Forall_impl; [exact F1|]. intros ev H. now apply negb_true_iff in H. }
    destruct (search_attempt q attempt s) as [[[ps|]|e] s1] eqn:Ha; simpl in *.
    + rewrite !(bind_ok _ _ _ _ _ Ha). exists e1. repeat split; auto.
    + rewrite !(bind_ok _ _ _ _ _ Ha).
      assert (Hp1 : poisoned (mgr s1)) by (now rewrite <- Hmgr).
      destruct (IH s1 Hp1) as (e2 & H2 & F2 & M2).
      exists (e1 ++ e2). rewrite H2, H1, app_assoc, M2, <- Hmgr.
      repeat split. now apply Forall_app.
    + rewrite !(bind_raised _ _ _ _ _ Ha). exists e1. repeat split; auto.
Qed.

(** X12: once the session is poisoned a search leaves the browser
    alone: [search_products] makes no browser call at all (no launch,
    no navigation, no probe), only its own sleeps and the fallback's
    HTTP requests, and leaves the driver manager as it was. *)
Theorem poisoned_search_uses_fallback_only (q : str) (s : State) :
  _initialization_failed (mgr s) = true ->
  exists evs,
    trace (search_products q s).2 = trace s ++ evs /\
    Forall (fun ev => is_browser_event ev = false) evs /\
    mgr (search_products q s).2 = mgr s.
Proof.
  intros Hp. now apply search_loop_when_poisoned.
Qed.

End SearchOrigin.

Lemma search_result_origin_witness :
  let cfg := default_scraping_config in
  let E := Samples.healthy_env (Samples.catalog_page 1) in
  exists ps s',
    search_products cfg default_config E (py "SBC") initial_state = (Ok ps, s') /\
    len ps = 1 /\
    (ps = [] \/
     (ps <> [] /\
      exists s0, scrape_search_results cfg default_config E (py "SBC") s0 = (Ok ps, s') \/
                 fallback_search_products cfg default_config E (py "SBC") s0 = (Ok ps, s'))).
Proof.
  intros cfg E.
  destruct (search_products cfg default_config E (py "SBC") initial_state)
    as [[ps|e] s'] eqn:Hrun; [|vm_compute in Hrun; discriminate].
  exists ps, s'. split; [reflexivity|]. split.
  - vm_compute in Hrun. injection Hrun as <- _. reflexivity.
  - exact (search_result_origin cfg default_config E (py "SBC") initial_state s' ps Hrun).
Defined.

Lemma fallback_result_returned_witness :
  let cfg := default_scraping_config in
  let E := Samples.no_browser_env (Samples.catalog_page 1) in
  let s1 := (browser_attempt cfg default_config E (py "SBC")
               (after_search_delay cfg initial_state)).2 in
  let found := fallback_search_products cfg default_config E (py "SBC") s1 in
  exists ps,
    found.1 = Ok ps /\ len ps = 1 /\
    search_loop cfg default_config E (py "SBC") [0; 1] initial_state = (Ok ps, found.2).
Proof.
  intros cfg E s1 found.
  destruct found as [[ps|e] s2] eqn:Hfound; [|vm_compute in Hfound; discriminate].
  assert (Hlen : len ps = 1).
  { vm_compute in Hfound. injection Hfound as <- _. reflexivity. }
  exists ps. split; [reflexivity|]. split; [exact Hlen|].
  apply (fallback_result_returned cfg default_config E (py "SBC")
           [] 0 [1] initial_state initial_state s1 s2 ps);
    [reflexivity | vm_compute; reflexivity | exact Hfound |].
  intros ->. discriminate.
Defined.

Lemma poisoned_search_uses_fallback_only_witness :
  let cfg := default_scraping_config in
  let E := Samples.no_browser_env (Samples.catalog_page 1) in
  let s := (setup_driver E initial_state).2 in
  exists evs,
    trace (search_products cfg default_config E (py "SBC") s).2 = trace s ++ evs /\
    Forall (fun ev => is_browser_event ev = false) evs /\
    mgr (search_products cfg default_config E (py "SBC") s).2 = mgr s.
Proof.
  intros cfg E s.
  apply (poisoned_search_uses_fallback_only cfg default_config E (py "SBC") s).
  reflexivity.
Defined.

(** ** The tool, in full *)

Section ToolProperties.

Variable scraping_config : ScrapingConfig.
Variable config : ServerConfig.
Variable E : Env.

Local Abbreviation call_tool := (call_tool scraping_config config E).
Local Abbreviation call_tool_body := (call_tool_body scraping_config config E).
Local Abbreviation search_products := (search_products scraping_config config E).

(** What the checks of [call_tool] accept: the search tool, with a
    string [query] of at least 2 code points once trimmed. *)
Definition valid_call (tool : str) (arguments : gmap str pyval) : Prop :=
  tool = SEARCH_PRODUCTS /\
  exists raw, arguments !! py "query" = Some (PStr raw) /\ 2 <= len (strip raw).

(** A call that returns went through the search with the trimmed
    query. *)
Lemma call_tool_ok_inv (tool : str) (arguments : gmap str pyval)
    (s s' : State) (r : Response) :
  call_tool tool arguments s = (Ok r, s') ->
  tool = SEARCH_PRODUCTS /\
  exists raw result,
    arguments !! py "query" = Some (PStr raw) /\ 2 <= len (strip raw) /\
    search_products (strip raw) s = (Ok result, s') /\
    r = {| query := strip raw;
           total_results := len result;
           products := result;
           search_info :=
             {| source := py "ASRock Industrial website";
                info_max_products_per_search := max_products_per_search scraping_config;
                search_method := search_method_of (mgr s') |} |}.
Proof.
  unfold call_tool, try_catch.
  destruct (call_tool_body tool arguments s) as [[r'|e] s1] eqn:Hbody; [|discriminate].
  intros H. inversion H. subst. clear H.
  unfold call_tool_body in Hbody.
  case_bool_decide as Htool; [|discriminate].
  split; [exact Htool|].
  destruct (arguments !! py "query") as [v|]; [|discriminate].
  destruct v as [|b|z|raw|l];
    try (destruct (negb (pyval_truthy _)); discriminate).
  change (pyval_truthy (PStr raw)) with (truthy raw) in Hbody.
  destruct (truthy raw); [|discriminate]. cbn [negb] in Hbody.
  change (pyval_strip (PStr raw)) with (@ret str (strip raw)) in Hbody.
  unfold bind at 1, ret in Hbody.
  destruct (Z.ltb_spec (len (strip raw)) 2); [discriminate|].
  unfold bind at 1 in Hbody.
  destruct (search_products (strip raw) s) as [[result|e] s2] eqn:Hsearch;
    [|discriminate].
  inversion Hbody. subst.
  exists raw, result. auto.
Qed.

(** A call that raises did so in its checks. *)
Lemma call_tool_body_raised_inv (tool : str) (arguments : gmap str pyval)
    (s s' : State) (e : exn) :
  call_tool_body tool arguments s = (Raised e, s') ->
  s' = s /\ ~ valid_call tool arguments.
Proof.
  unfold call_tool_body, valid_call.
  case_bool_decide as Htool.
  2:{ intros H. inversion H. split; [reflexivity|]. intros [Ht _]. contradiction. }
  destruct (arguments !! py "query") as [v|] eqn:Hq.
  2:{ intros H. inversion H. split; [reflexivity|]. intros [_ (raw & Hr & _)]. discriminate. }
  destruct v as [|b|z|raw|l].
  - intros H. inversion H. split; [reflexivity|]. intros [_ (raw & Hr & _)]. discriminate.
  - destruct (negb (pyval_truthy (PBool b))); intros H; inversion H;
      (split; [reflexivity|]); intros [_ (raw & Hr & _)]; discriminate.
  - destruct (negb (pyval_truthy (PInt z))); intros H; inversion H;
      (split; [reflexivity|]); intros [_ (raw & Hr & _)]; discriminate.
  - change (pyval_truthy (PStr raw)) with (truthy raw).
    destruct (truthy raw) eqn:Ht; cbn [negb].
    + change (pyval_strip (PStr raw)) with (@ret str (strip raw)).
      unfold bind at 1, ret.
      destruct (Z.ltb_spec (len (strip raw)) 2).
      * intros H'. inversion H'. split; [reflexivity|].
        intros [_ (raw' & Hr & Hlen)]. injection Hr as <-. lia.
      * unfold bind at 1.
        destruct (search_products_returns scraping_config config E (strip raw) s)
          as (result & s2 & Hsearch).
        rewrite Hsearch. discriminate.
    + intros H. inversion H. split; [reflexivity|].
      intros [_ (raw' & Hr & Hlen)]. injection Hr as <-.
      apply truthy_false in Ht. subst raw. rewrite strip_nil in Hlen.
      unfold len in Hlen. simpl in Hlen. lia.
  - destruct (negb (pyval_truthy (PList l))); intros H; inversion H;
      (split; [reflexivity|]); intros [_ (raw & Hr & _)]; discriminate.
Qed.

(** X13: [call_tool] returns an envelope exactly for the valid calls
    (the search tool, with a string [query] of at least 2 code points
    once trimmed).  Every other call is stopped in the checks, which
    raise in the state the call started in, and the call raises having
    done nothing: no launch, no request, no sleep.  What the caller
    gets is the same for every rejected call: the [AttributeError] of
    the failed [McpError(...)], not the error of the checks. *)
Theorem call_tool_accepts_exactly_valid_calls
    (tool : str) (arguments : gmap str pyval) (s : State) :
  (valid_call tool arguments ->
   exists r s', call_tool tool arguments s = (Ok r, s')) /\
  (~ valid_call tool arguments ->
   (exists e, call_tool_body tool arguments s = (Raised e, s)) /\
   call_tool tool arguments s
   = (Raised (AttributeError (py "'str' object has no attribute 'message'")), s)) /\
  (forall e s', call_tool tool arguments s = (Raised e, s') ->
                s' = s /\ ~ valid_call tool arguments).
Proof.
  assert (Hraised : forall e s', call_tool tool arguments s = (Raised e, s') ->
                                 s' = s /\ ~ valid_call tool arguments).
  { intros e s'. unfold call_tool, try_catch.
    destruct (call_tool_body tool arguments s) as [[r|e0] s1] eqn:Hbody; [discriminate|].
    intros H. inversion H. subst.
    exact (call_tool_body_raised_inv _ _ _ _ _ Hbody). }
  split; [|split; [|exact Hraised]].
  - intros [-> (raw & Hq & Hlen)].
    destruct (search_products_returns scraping_config config E (strip raw) s)
      as (result & s' & Hsearch).
    eexists _, s'. apply call_tool_ok.
    exact (call_tool_body_valid scraping_config config E _ raw _ _ _ Hq Hlen Hsearch).
  - intros Hinvalid.
    destruct (call_tool_body tool arguments s) as [[r|e] s1] eqn:Hbody.
    + exfalso. apply Hinvalid.
      destruct (call_tool_ok_inv tool arguments s s1 r
                  (call_tool_ok scraping_config config E _ _ _ _ _ Hbody))
        as (Ht & raw & result & Hq & Hlen & _).
      split; [exact Ht | now exists raw].
    + destruct (call_tool_body_raised_inv _ _ _ _ _ Hbody) as [-> _].
      split; [now exists e|].
      exact (call_tool_raised scraping_config config E _ _ _ _ _ Hbody).
Qed.

(** X14: a call that names another tool is refused whatever its
    arguments, and nothing is done: the body raises
    [ValueError("Unknown tool: <name>")], and the call raises the
    [AttributeError] of the failed [McpError(...)], so the caller is
    not told the name. *)
Theorem unknown_tool_rejected (tool : str) (arguments : gmap str pyval) (s : State) :
  tool <> SEARCH_PRODUCTS ->
  call_tool_body tool arguments s
  = (Raised (ValueError (py "Unknown tool: " ++ tool)), s) /\
  call_tool tool arguments s
  = (Raised (AttributeError (py "'str' object has no attribute 'message'")), s).
Proof.
  intros Htool.
  assert (Hbody : call_tool_body tool arguments s
                  = (Raised (ValueError (py "Unknown tool: " ++ tool)), s)).
  { unfold call_tool_body. now rewrite bool_decide_eq_false_2 by exact Htool. }
  split; [exact Hbody|].
  exact (call_tool_raised scraping_config config E _ _ _ _ _ Hbody).
Qed.

(** X15: a [query] that is not a string but is truthy (a number, a
    list, [True]) gets past the missing-argument check and fails in
    [strip]: the body raises the [AttributeError] of [strip], not a
    validation error, and nothing is done; the call then raises the
    [AttributeError] of the failed [McpError(...)]. *)
Theorem non_string_query_rejected (arguments : gmap str pyval) (v : pyval) (s : State) :
  arguments !! py "query" = Some v ->
  pyval_truthy v = true ->
  (forall raw, v <> PStr raw) ->
  call_tool_body SEARCH_PRODUCTS arguments s
  = (Raised (AttributeError (py "'" ++ pyval_type_name v
                               ++ py "' object has no attribute 'strip'")), s) /\
  call_tool SEARCH_PRODUCTS arguments s
  = (Raised (AttributeError (py "'str' object has no attribute 'message'")), s).
Proof.
  intros Hq Ht Hns.
  assert (Hbody : call_tool_body SEARCH_PRODUCTS arguments s
                  = (Raised (AttributeError
                               (py "'" ++ pyval_type_name v
                                  ++ py "' object has no attribute 'strip'")), s)).
  { unfold call_tool_body.
    rewrite bool_decide_eq_true_2 by reflexivity. rewrite Hq, Ht. cbn [negb].
    destruct v as [|b|z|raw|l]; try reflexivity.
    exfalso. now apply (Hns raw). }
  split; [exact Hbody|].
  exact (call_tool_raised scraping_config config E _ _ _ _ _ Hbody).
Qed.

(** X16: what an envelope says about the search: [search_method] is
    [Fallback only (requests)] when the session is poisoned at the end
    of the search, and always so for a call made on a session that is
    already poisoned; otherwise it is
    [Selenium + Fallback (requests)].  When [max_products_per_search]
    is not negative, [total_results] does not exceed the
    [max_products_per_search] the envelope reports. *)
Theorem envelope_search_info
    (tool : str) (arguments : gmap str pyval) (s s' : State) (r : Response) :
  call_tool tool arguments s = (Ok r, s') ->
  search_method (search_info r)
  = (if _initialization_failed (mgr s')
     then py "Fallback only (requests)"
     else py "Selenium + Fallback (requests)") /\
  (_initialization_failed (mgr s) = true ->
   search_method (search_info r) = py "Fallback only (requests)") /\
  info_max_products_per_search (search_info r) = max_products_per_search scraping_config /\
  (0 <= max_products_per_search scraping_config ->
   total_results r <= info_max_products_per_search (search_info r)).
Proof.
  intros Hcall.
  destruct (call_tool_ok_inv _ _ _ _ _ Hcall)
    as (_ & raw & result & _ & _ & Hsearch & ->). simpl.
  split; [|split; [|split]].
  - unfold search_method_of. now destruct (_initialization_failed (mgr s')).
  - intros Hp.
    pose proof (search_products_poisoned scraping_config config E (strip raw) s Hp) as Hp'.
    rewrite Hsearch in Hp'. simpl in Hp'. red in Hp'.
    unfold search_method_of. now rewrite Hp'.
  - reflexivity.
  - intros Hmax.
    apply (search_loop_cap scraping_config config E (strip raw) _ _ Hmax
             (fun links => slice_to_length links _ Hmax) _ _ _ Hsearch).
Qed.

End ToolProperties.

Lemma unknown_tool_rejected_witness :
  call_tool_body default_scraping_config default_config
    (Samples.healthy_env (Samples.catalog_page 1)) (py "asrock_price_search")
    {[ py "query" := PStr (py "SBC") ]} initial_state
  = (Raised (ValueError (py "Unknown tool: asrock_price_search")), initial_state)
  /\
  call_tool default_scraping_config default_config
    (Samples.healthy_env (Samples.catalog_page 1)) (py "asrock_price_search")
    {[ py "query" := PStr (py "SBC") ]} initial_state
  = (Raised (AttributeError (py "'str' object has no attribute 'message'")),
     initial_state).
Proof.
  apply (unknown_tool_rejected default_scraping_config default_config
           (Samples.healthy_env (Samples.catalog_page 1)) (py "asrock_price_search")).
  vm_compute. discriminate.
Defined.

Lemma non_string_query_rejected_witness :
  call_tool_body default_scraping_config default_config
    (Samples.healthy_env (Samples.catalog_page 1)) SEARCH_PRODUCTS
    {[ py "query" := PInt 230 ]} initial_state
  = (Raised (AttributeError (py "'int' object has no attribute 'strip'")), initial_state)
  /\
  call_tool default_scraping_config default_config
    (Samples.healthy_env (Samples.catalog_page 1)) SEARCH_PRODUCTS
    {[ py "query" := PInt 230 ]} initial_state
  = (Raised (AttributeError (py "'str' object has no attribute 'message'")),
     initial_state).
Proof.
  apply (non_string_query_rejected default_scraping_config default_config
           (Samples.healthy_env (Samples.catalog_page 1))
           {[ py "query" := PInt 230 ]} (PInt 230) initial_state);
    [vm_compute; reflexivity | reflexivity | discriminate].
Defined.

Lemma envelope_search_info_witness :
  let cfg := default_scraping_config in
  let E := Samples.no_browser_env (Samples.catalog_page 5) in
  exists r s',
    call_tool cfg default_config E SEARCH_PRODUCTS
      {[ py "query" := PStr (py "SBC") ]} initial_state = (Ok r, s') /\
    search_method (search_info r) = py "Fallback only (requests)" /\
    total_results r = 3 /\
    total_results r <= info_max_products_per_search (search_info r).
Proof.
  intros cfg E.
  destruct (call_tool cfg default_config E SEARCH_PRODUCTS
              {[ py "query" := PStr (py "SBC") ]} initial_state)
    as [[r|e] s'] eqn:Hcall; [|vm_compute in Hcall; discriminate].
  destruct (envelope_search_info cfg default_config E _ _ _ _ _ Hcall)
    as (Hmethod & _ & _ & Hcap).
  exists r, s'. split; [reflexivity|].
  assert (Hfailed : _initialization_failed (mgr s') = true).
  { vm_compute in Hcall. injection Hcall as _ <-. reflexivity. }
  rewrite Hfailed in Hmethod.
  split; [exact Hmethod|]. split.
  - vm_compute in Hcall. injection Hcall as <- _. reflexivity.
  - apply Hcap. simpl. lia.
Defined.

(** ** Extraction as a dictionary *)


(** X17: no field is lost: in either extraction, the key of every row
    that contributes an entry (a row of a selected table that passes
    the row tests) is a key of the result.  Its value may come from a
    later row with the same key. *)
Theorem extraction_keeps_every_field
    (soup : Soup) (t : Table) (cells : list Tag) (k v : str) :
  cells ∈ rows t ->
  (t ∈ BrowserExtract.spec_tables soup ->
   BrowserExtract.row_entry (BrowserExtract.category t) cells = Some (k, v) ->
   is_Some (BrowserExtract._extract_specifications soup !! k))
  /\
  (t ∈ FallbackExtract.spec_tables soup ->
   FallbackExtract.row_entry (FallbackExtract.category t) cells = Some (k, v) ->
   is_Some (FallbackExtract._extract_specifications_simple soup !! k)).
Proof.
  intros Hc. split; intros Ht He.
  - exact (table_loop_present BrowserExtract.row_entry BrowserExtract.category
             k v t cells _ ∅ Ht Hc He).
  - pose proof (table_loop_present FallbackExtract.row_entry FallbackExtract.category
                  k v t cells _ ∅ Ht Hc He) as Hk.
    unfold FallbackExtract._extract_specifications_simple.
    change (FallbackExtract.table_specs soup)
      with (table_loop FallbackExtract.row_entry FallbackExtract.category
              (FallbackExtract.spec_tables soup) ∅).
    case_bool_decide as Hempty; [|exact Hk].
    rewrite Hempty, lookup_empty in Hk. destruct Hk as [x Hx]. discriminate.
Qed.

(** X18: when several rows give the same key, the last one wins: in
    either extraction, the value stored for a key is the one of the
    last row, in document order over the selected tables, that
    contributes that key. *)
Theorem later_row_overrides
    (soup : Soup) (t : Table) (cells : list Tag)
    (ts1 ts2 : list Table) (rs1 rs2 : list (list Tag)) (k v : str) :
  rows t = rs1 ++ cells :: rs2 ->
  (BrowserExtract.spec_tables soup = ts1 ++ t :: ts2 ->
   BrowserExtract.row_entry (BrowserExtract.category t) cells = Some (k, v) ->
   (forall c v', c ∈ rs2 ->
                 BrowserExtract.row_entry (BrowserExtract.category t) c <> Some (k, v')) ->
   (forall t' c v', t' ∈ ts2 -> c ∈ rows t' ->
                    BrowserExtract.row_entry (BrowserExtract.category t') c <> Some (k, v')) ->
   BrowserExtract._extract_specifications soup !! k = Some v)
  /\
  (FallbackExtract.spec_tables soup = ts1 ++ t :: ts2 ->
   FallbackExtract.row_entry (FallbackExtract.category t) cells = Some (k, v) ->
   (forall c v', c ∈ rs2 ->
                 FallbackExtract.row_entry (FallbackExtract.category t) c <> Some (k, v')) ->
   (forall t' c v', t' ∈ ts2 -> c ∈ rows t' ->
                    FallbackExtract.row_entry (FallbackExtract.category t') c <> Some (k, v')) ->
   FallbackExtract._extract_specifications_simple soup !! k = Some v).
Proof.
  intros Hrows. split; intros Hts He Hrest Hlater.
  - unfold BrowserExtract._extract_specifications. rewrite Hts.
    exact (table_loop_last BrowserExtract.row_entry BrowserExtract.category
             k v t cells ts1 ts2 rs1 rs2 ∅ Hrows He Hrest Hlater).
  - pose proof (table_loop_last FallbackExtract.row_entry FallbackExtract.category
                  k v t cells ts1 ts2 rs1 rs2 ∅ Hrows He Hrest Hlater) as Hk.
    unfold FallbackExtract._extract_specifications_simple, FallbackExtract.table_specs.
    rewrite Hts.
    change (fold_left
              (fun specs t0 =>
                 add_rows (FallbackExtract.row_entry (FallbackExtract.category t0))
                          specs (rows t0)) (ts1 ++ t :: ts2) ∅)
      with (table_loop FallbackExtract.row_entry FallbackExtract.category
              (ts1 ++ t :: ts2) ∅).
    case_bool_decide as Hempty; [|exact Hk].
    rewrite Hempty, lookup_empty in Hk. discriminate.
Qed.

Module DuplicateSample.

(** A spec table that gives [CPU] twice. *)
Definition table : Table := {|
  class_table_spec := true;
  class_contains_spec := true;
  prev_h3_title_sub := None;
  prev_h3 := None;
  prev_h2 := None;
  prev_h4 := None;
  rows := [[Samples.tag "CPU"; Samples.tag "Atom"];
           [Samples.tag "CPU"; Samples.tag "Celeron"];
           [Samples.tag "RAM"; Samples.tag "8 GB"]]
|}.

Definition page : Soup := Samples.page [] [table] [].

End DuplicateSample.

Lemma extraction_keeps_every_field_witness :
  is_Some (BrowserExtract._extract_specifications DuplicateSample.page !! py "CPU") /\
  is_Some (FallbackExtract._extract_specifications_simple DuplicateSample.page !! py "CPU").
Proof.
  assert (Hc : [Samples.tag "CPU"; Samples.tag "Atom"] ∈ rows DuplicateSample.table)
    by apply list_elem_of_here.
  destruct (extraction_keeps_every_field DuplicateSample.page DuplicateSample.table
              _ (py "CPU") (py "Atom") Hc) as [Hb Hf].
  split.
  - apply Hb; [apply list_elem_of_here | reflexivity].
  - apply Hf; [apply list_elem_of_here | reflexivity].
Defined.

Lemma later_row_overrides_witness :
  BrowserExtract._extract_specifications DuplicateSample.page !! py "CPU"
  = Some (py "Celeron")
  /\
  FallbackExtract._extract_specifications_simple DuplicateSample.page !! py "CPU"
  = Some (py "Celeron").
Proof.
  destruct (later_row_overrides DuplicateSample.page DuplicateSample.table
              [Samples.tag "CPU"; Samples.tag "Celeron"] [] []
              [[Samples.tag "CPU"; Samples.tag "Atom"]]
              [[Samples.tag "RAM"; Samples.tag "8 GB"]]
              (py "CPU") (py "Celeron") eq_refl) as [Hb Hf].
  split.
  - apply Hb; [reflexivity | reflexivity | |].
    + intros c v' Hc. apply list_elem_of_singleton in Hc. subst c.
      vm_compute. discriminate.
    + intros t' c v' Ht. now apply elem_of_nil in Ht.
  - apply Hf; [reflexivity | reflexivity | |].
    + intros c v' Hc. apply list_elem_of_singleton in Hc. subst c.
      vm_compute. discriminate.
    + intros t' c v' Ht. now apply elem_of_nil in Ht.
Defined.

(** ** The two scrapers *)

Lemma post_weaken {A} (P Q : A -> Prop) (m : M A) :
  (forall a, P a -> Q a) -> post P m -> post Q m.
Proof. intros Himp Hm s a s' H. exact (Himp a (Hm s a s' H)). Qed.

Lemma post_lift {A} (o : outcome A) : post (fun a => o = Returns a) (lift o).
Proof. destruct o; simpl; [now apply post_ret | apply post_raise]. Qed.

(** What an external call returns is an answer of the outside world. *)
Lemma post_call {A} (ev : event) (answer : nat -> outcome A) :
  post (fun a => exists t, answer t = Returns a) (call ev answer).
Proof.
  intros s a s' H. exists (clock s).
  unfold call, bind, tick in H.
  destruct (answer (clock s)) as [a'|msg]; simpl in H.
  - unfold ret in H. now injection H as <- _.
  - discriminate.
Qed.

Lemma map_snd_combine {A B} (l1 : list A) (l2 : list B) :
  length l1 = length l2 -> map snd (combine l1 l2) = l2.
Proof.
  revert l2. induction l1 as [|a l1 IH]; intros [|b l2] H; simpl in *;
    try discriminate; [reflexivity|].
  f_equal. apply IH. now injection H.
Qed.

Lemma map_snd_enumerate {A} (l : list A) : map snd (enumerate l) = l.
Proof.
  unfold enumerate. apply map_snd_combine.
  rewrite range_length. unfold len. apply Nat2Z.id.
Qed.

Section AddsMore.

Variable p : event -> bool.

Lemma adds_lift {A} (o : outcome A) : adds_at_most p 0 (lift o).
Proof. destruct o; intros s; exists []; now rewrite app_nil_r. Qed.

Lemma adds_call {A} (ev : event) (answer : nat -> outcome A) :
  adds_at_most p 1 (call ev answer).
Proof.
  unfold call. apply (adds_bind _ 1 0); [apply adds_tick | intros t; apply adds_lift].
Qed.

Lemma adds_sleep (site : sleep_site) (lo hi : Q) :
  p (EvSleep site lo hi) = false -> adds_at_most p 0 (sleep site lo hi).
Proof.
  intros H s. exists [EvSleep site lo hi]. split; [reflexivity|].
  simpl. now rewrite H.
Qed.

Lemma adds_silent {A} (m : M A) : emits (fun _ => false) m -> adds_at_most p 0 m.
Proof. apply adds_none. discriminate. Qed.

Lemma adds_bind_l {A B} (n : nat) (m : M A) (k : A -> M B) :
  adds_at_most p n m -> (forall a, adds_at_most p 0 (k a)) ->
  adds_at_most p n (bind m k).
Proof.
  intros Hm Hk. apply (adds_weaken _ (n + 0)); [lia | now apply adds_bind].
Qed.

Lemma adds_bind_r {A B} (n : nat) (m : M A) (k : A -> M B) :
  adds_at_most p 0 m -> (forall a, adds_at_most p n (k a)) ->
  adds_at_most p n (bind m k).
Proof. intros Hm Hk. now apply (adds_bind _ 0 n). Qed.

Lemma adds_try_catch_l {A} (n : nat) (m : M A) (h : exn -> M A) :
  adds_at_most p n m -> (forall e, adds_at_most p 0 (h e)) ->
  adds_at_most p n (try_catch m h).
Proof.
  intros Hm Hh. apply (adds_weaken _ (n + 0)); [lia | now apply adds_try_catch].
Qed.

End AddsMore.

Section ScraperProperties.

Variable scraping_config : ScrapingConfig.
Variable config : ServerConfig.
Variable E : Env.

Local Abbreviation safe_get := (safe_get scraping_config E).
Local Abbreviation _scrape_single_product := (_scrape_single_product scraping_config config E).
Local Abbreviation scrape_links := (scrape_links scraping_config config E).
Local Abbreviation scrape_search_results := (scrape_search_results scraping_config config E).
Local Abbreviation _scrape_single_product_fallback :=
  (_scrape_single_product_fallback config E).
Local Abbreviation fallback_links := (fallback_links config E).
Local Abbreviation fallback_search_products :=
  (fallback_search_products scraping_config config E).
Local Abbreviation browser_attempt := (browser_attempt scraping_config config E).
Local Abbreviation fallback_attempt := (fallback_attempt scraping_config config E).
Local Abbreviation search_attempt := (search_attempt scraping_config config E).
Local Abbreviation search_loop := (search_loop scraping_config config E).
Local Abbreviation search_products := (search_products scraping_config config E).

(** *** How the fallback search ends *)

Lemma fallback_links_returns (n : Z) (links : list (Z * Link)) :
  forall products, returns (fallback_links n links products).
Proof.
  induction links as [|[i link] rest IH]; intros products; simpl.
  - apply returns_ret.
  - apply returns_bind; [|intros; apply IH].
    apply returns_try_catch. intros e. apply returns_ret.
Qed.

(** X19: the fallback search raises only when the search URL cannot be
    built ([quote] raises), and then it has done nothing.  Otherwise
    it returns a list, and the first thing it does is the HTTP request
    of the search page; when that request fails, or the page carries
    the no-result marker, the list is empty and nothing else is
    done. *)
Theorem fallback_search_outcome (q : str) (s : State) :
  match quote E q with
  | Throws msg => fallback_search_products q s = (Raised (ExternalError msg), s)
  | Returns quoted =>
      let target := base_url config ++ py "/en-gb/product/search?search=" ++ quoted in
      exists ps s' rest,
        fallback_search_products q s = (Ok ps, s') /\
        trace s' = trace s ++ EvHttpGet target :: rest /\
        match session_get E (clock s) target with
        | Throws _ => ps = [] /\ rest = []
        | Returns page => no_result page = true -> ps = [] /\ rest = []
        end
  end.
Proof.
  destruct (quote E q) as [quoted|msg] eqn:Hq.
  - intros target.
    assert (Hurl : search_url config E q s = (Ok target, s)).
    { unfold search_url, bind. now rewrite Hq. }
    unfold fallback_search_products. rewrite (bind_ok _ _ _ _ _ Hurl).
    set (s1 := (tick (EvHttpGet target) s).2).
    destruct (session_get E (clock s) target) as [page|msg] eqn:Hget.
    + assert (Hcall : call (EvHttpGet target) (fun t => session_get E t target) s
                      = (Ok page, s1)).
      { unfold call, bind, tick. simpl. now rewrite Hget. }
      destruct (no_result page) eqn:Hno.
      * exists [], s1, []. split; [|split; [reflexivity | auto]].
        apply try_catch_ok. rewrite (bind_ok _ _ _ _ _ Hcall). now rewrite Hno.
      * destruct (fallback_links_returns
                    (len (slice_to (product_links page)
                                   (max_products_per_search scraping_config)))
                    (enumerate (slice_to (product_links page)
                                         (max_products_per_search scraping_config)))
                    [] s1) as (ps & s' & Hl).
        destruct (fallback_links_events config E
                    (len (slice_to (product_links page)
                                   (max_products_per_search scraping_config)))
                    (enumerate (slice_to (product_links page)
                                         (max_products_per_search scraping_config)))
                    [] s1) as (evs & Ht & _).
        rewrite Hl in Ht. simpl in Ht.
        exists ps, s', evs. split; [|split; [|discriminate]].
        -- apply try_catch_ok. rewrite (bind_ok _ _ _ _ _ Hcall). now rewrite Hno.
        -- rewrite Ht. simpl. now rewrite <- app_assoc.
    + assert (Hcall : call (EvHttpGet target) (fun t => session_get E t target) s
                      = (Raised (ExternalError msg), s1)).
      { unfold call, bind, tick. simpl. now rewrite Hget. }
      exists [], s1, []. split; [|split; [reflexivity | auto]].
      erewrite try_catch_raised; [reflexivity|].
      now rewrite (bind_raised _ _ _ _ _ Hcall).
  - unfold fallback_search_products, search_url, bind. now rewrite Hq.
Qed.

(** *** Where the products come from *)

(** [target] is the URL of the search page for [q]. *)
Definition is_search_url (q target : str) : Prop :=
  exists quoted,
    quote E q = Returns quoted /\
    target = base_url config ++ py "/en-gb/product/search?search=" ++ quoted.

(** The web site served [page] at [target] to the fallback session. *)
Definition served (target : str) (page : Soup) : Prop :=
  exists t, session_get E t target = Returns page.

(** The browser showed [page]. *)
Definition shown (page : Soup) : Prop :=
  exists t, driver_page_source E t = Returns page.

(** The URL of [p] is the [href] of [link] resolved against the base
    URL, and its name is read off [link]. *)
Definition built_from (link : Link) (p : Product) : Prop :=
  exists h,
    href link = Some h /\
    urljoin E (base_url config) h = Returns (url p) /\
    name p = product_name link (url p).

Definition browser_product (link : Link) (p : Product) : Prop :=
  built_from link p /\
  exists soup, shown soup /\
               specifications p = BrowserExtract._extract_specifications soup.

Definition fallback_product (link : Link) (p : Product) : Prop :=
  built_from link p /\
  exists soup, served (url p) soup /\
               specifications p = FallbackExtract._extract_specifications_simple soup.

Lemma resolve_href_post (link : Link) :
  post (fun u => exists h, href link = Some h /\
                           urljoin E (base_url config) h = Returns u)
       (resolve_href config E link).
Proof.
  unfold resolve_href. destruct (href link) as [h|]; [|apply post_raise].
  apply (post_weaken (fun u => urljoin E (base_url config) h = Returns u));
    [|apply post_lift].
  intros u Hu. now exists h.
Qed.

Lemma _scrape_single_product_built (link : Link) (n : Z) :
  post (fun r => match r with
                 | Some p => browser_product link p
                 | None => True
                 end)
       (_scrape_single_product link n).
Proof.
  unfold _scrape_single_product.
  apply post_try_catch; [|intros e; now apply post_ret].
  apply (post_bind _ _ _ _ (resolve_href_post link)).
  intros u (h & Hh & Hu).
  apply post_bind_any. intros ok.
  destruct (negb ok); [now apply post_ret|].
  apply post_bind_any. intros _.
  apply (post_bind _ _ _ _ (post_call EvPageSource (driver_page_source E))).
  intros soup Hsoup.
  apply post_bind_any. intros _.
  apply post_ret. split.
  - exists h. auto.
  - exists soup. split; [exact Hsoup | reflexivity].
Qed.

Lemma _scrape_single_product_fallback_built (link : Link) (n : Z) :
  post (fun r => match r with
                 | Some p => fallback_product link p
                 | None => True
                 end)
       (_scrape_single_product_fallback link n).
Proof.
  unfold _scrape_single_product_fallback.
  apply post_try_catch; [|intros e; now apply post_ret].
  apply (post_bind _ _ _ _ (resolve_href_post link)).
  intros u (h & Hh & Hu).
  apply (post_bind _ _ _ _ (post_call (EvHttpGet u) (fun t => session_get E t u))).
  intros soup Hsoup.
  apply post_ret. split.
  - exists h. auto.
  - exists soup. split; [exact Hsoup | reflexivity].
Qed.

(** A product loop appends, in order, one product for some of its
    links. *)
Lemma scrape_links_built (n : Z) (links : list (Z * Link)) :
  forall products,
    post (fun ps => exists kept added,
              ps = products ++ added /\
              kept `sublist_of` map snd links /\
              Forall2 browser_product kept added)
         (scrape_links n links products).
Proof.
  induction links as [|[i link] rest IH]; intros products; simpl.
  - apply post_ret. exists [], []. rewrite app_nil_r.
    split; [reflexivity|]. split; constructor.
  - apply (post_bind (fun ps' => ps' = products \/
                                 exists p, browser_product link p /\ ps' = products ++ [p])).
    + apply post_try_catch; [|intros e; apply post_ret; now left].
      apply (post_bind _ _ _ _ (_scrape_single_product_built link (i + 1))).
      intros [p|] Hp; apply post_bind_any; intros _; apply post_ret; simpl;
        [right; now exists p | now left].
    + intros ps' [-> | (p & Hp & ->)] s a s' H; apply IH in H;
        destruct H as (kept & added & -> & Hsub & Hall).
      * exists kept, added. split; [reflexivity|].
        split; [now apply sublist_cons | exact Hall].
      * exists (link :: kept), (p :: added). split; [now rewrite <- app_assoc|].
        split; [now apply sublist_skip | now constructor].
Qed.

Lemma fallback_links_built (n : Z) (links : list (Z * Link)) :
  forall products,
    post (fun ps => exists kept added,
              ps = products ++ added /\
              kept `sublist_of` map snd links /\
              Forall2 fallback_product kept added)
         (fallback_links n links products).
Proof.
  induction links as [|[i link] rest IH]; intros products; simpl.
  - apply post_ret. exists [], []. rewrite app_nil_r.
    split; [reflexivity|]. split; constructor.
  - apply (post_bind (fun ps' => ps' = products \/
                                 exists p, fallback_product link p /\ ps' = products ++ [p])).
    + apply post_try_catch; [|intros e; apply post_ret; now left].
      apply (post_bind _ _ _ _ (_scrape_single_product_fallback_built link (i + 1))).
      intros [p|] Hp; apply post_bind_any; intros _; apply post_ret; simpl;
        [right; now exists p | now left].
    + intros ps' [-> | (p & Hp & ->)] s a s' H; apply IH in H;
        destruct H as (kept & added & -> & Hsub & Hall).
      * exists kept, added. split; [reflexivity|].
        split; [now apply sublist_cons | exact Hall].
      * exists (link :: kept), (p :: added). split; [now rewrite <- app_assoc|].
        split; [now apply sublist_skip | now constructor].
Qed.

Lemma scrape_search_results_built (q : str) :
  post (fun ps => ps = [] \/
                  exists page kept,
                    shown page /\ no_result page = false /\
                    kept `sublist_of` slice_to (product_links page)
                                        (max_products_per_search scraping_config) /\
                    Forall2 browser_product kept ps)
       (scrape_search_results q).
Proof.
  unfold scrape_search_results.
  apply post_bind_any. intros target.
  apply post_bind_any. intros ok.
  destruct (negb ok); [apply post_ret; now left|].
  apply post_bind_any. intros found.
  destruct (negb found); [apply post_ret; now left|].
  apply (post_bind _ _ _ _ (post_call EvPageSource (driver_page_source E))).
  intros page Hpage.
  apply post_bind_any. intros _.
  destruct (no_result page) eqn:Hno; [apply post_ret; now left|].
  intros s ps s' H. apply scrape_links_built in H.
  destruct H as (kept & added & -> & Hsub & Hall).
  rewrite map_snd_enumerate in Hsub.
  right. exists page, kept. auto.
Qed.

Lemma fallback_search_products_built (q : str) :
  post (fun ps => ps = [] \/
                  exists target page kept,
                    is_search_url q target /\ served target page /\
                    no_result page = false /\
                    kept `sublist_of` slice_to (product_links page)
                                        (max_products_per_search scraping_config) /\
                    Forall2 fallback_product kept ps)
       (fallback_search_products q).
Proof.
  unfold fallback_search_products.
  apply (post_bind (fun target => is_search_url q target)).
  - unfold search_url.
    apply (post_bind _ _ _ _ (post_lift (quote E q))).
    intros quoted Hq. apply post_ret. now exists quoted.
  - intros target Htarget.
    apply post_try_catch; [|intros e; apply post_ret; now left].
    apply (post_bind _ _ _ _
             (post_call (EvHttpGet target) (fun t => session_get E t target))).
    intros page Hpage.
    destruct (no_result page) eqn:Hno; [apply post_ret; now left|].
    intros s ps s' H. apply fallback_links_built in H.
    destruct H as (kept & added & -> & Hsub & Hall).
    rewrite map_snd_enumerate in Hsub.
    right. exists target, page, kept. auto.
Qed.

(** X20: the products of a search come from the links of the search
    page: on either path there is a search page (shown by the browser,
    or served at the search URL) without the no-result marker, and the
    products returned match, one for one and in page order, some of
    its first [max_products_per_search] links.  The URL of each
    product is the [href] of its link resolved against the base URL,
    its name is read off the link, and its specifications are
    extracted from a page the browser showed, or that the site served
    at the product's URL. *)
Theorem products_come_from_links (q : str) (s s' : State) (ps : list Product) :
  ps <> [] ->
  (scrape_search_results q s = (Ok ps, s') ->
   exists page kept,
     shown page /\ no_result page = false /\
     kept `sublist_of` slice_to (product_links page)
                         (max_products_per_search scraping_config) /\
     Forall2 browser_product kept ps)
  /\
  (fallback_search_products q s = (Ok ps, s') ->
   exists target page kept,
     is_search_url q target /\ served target page /\ no_result page = false /\
     kept `sublist_of` slice_to (product_links page)
                         (max_products_per_search scraping_config) /\
     Forall2 fallback_product kept ps).
Proof.
  intros Hne. split; intros H.
  - destruct (scrape_search_results_built q _ _ _ H) as [-> | Hfrom];
      [now destruct Hne | exact Hfrom].
  - destruct (fallback_search_products_built q _ _ _ H) as [-> | Hfrom];
      [now destruct Hne | exact Hfrom].
Qed.

(** *** How many pages a search asks for *)

Lemma safe_get_navigations (target : str) :
  adds_at_most is_driver_get (Z.to_nat (max_retries scraping_config)) (safe_get target).
Proof.
  unfold safe_get. apply adds_bind_r.
  - apply adds_silent. apply emits_get_mgr.
  - intros m. destruct (_initialization_failed m).
    + apply (adds_weaken _ 0); [lia | apply adds_ret].
    + rewrite <- range_length. apply safe_get_loop_navigations.
Qed.

Lemma save_debug_navigations (f : debug_file) :
  adds_at_most is_driver_get 0 (save_debug_if_enabled config f).
Proof.
  unfold save_debug_if_enabled, _save_debug_html.
  destruct (save_debug_html config); [|apply adds_ret].
  apply (adds_none _ (fun ev => negb (is_driver_get ev))).
  - intros ev H. now apply negb_true_iff in H.
  - apply emits_bind; [apply emits_tick; reflexivity | intros; apply emits_ret].
Qed.

Lemma call_navigations {A} (ev : event) (answer : nat -> outcome A) :
  is_driver_get ev = false -> adds_at_most is_driver_get 0 (call ev answer).
Proof.
  intros Hev. apply (adds_none _ (fun ev => negb (is_driver_get ev))).
  - intros ev' H. now apply negb_true_iff in H.
  - apply emits_call. now rewrite Hev.
Qed.

Lemma _scrape_single_product_navigations (link : Link) (n : Z) :
  adds_at_most is_driver_get (Z.to_nat (max_retries scraping_config))
               (_scrape_single_product link n).
Proof.
  unfold _scrape_single_product.
  apply adds_try_catch_l; [|intros; apply adds_ret].
  apply adds_bind_r; [apply adds_silent, resolve_href_silent|].
  intros u. apply adds_bind_l; [apply safe_get_navigations|].
  intros ok. destruct (negb ok); [apply adds_ret|].
  apply adds_bind_r.
  - apply (adds_try_catch _ 0 0); [now apply call_navigations | intros; apply adds_ret].
  - intros _. apply adds_bind_r; [now apply call_navigations|].
    intros soup. apply adds_bind_r; [apply save_debug_navigations|].
    intros _. apply adds_ret.
Qed.

Lemma scrape_links_navigations (n : Z) (links : list (Z * Link)) :
  forall products,
    adds_at_most is_driver_get (length links * Z.to_nat (max_retries scraping_config))
                 (scrape_links n links products).
Proof.
  induction links as [|[i link] rest IH]; intros products; simpl.
  - apply adds_ret.
  - apply adds_bind; [|intros; apply IH].
    apply adds_try_catch_l; [|intros; apply adds_ret].
    apply adds_bind_l; [apply _scrape_single_product_navigations|].
    intros p. apply adds_bind_r; [|intros; apply adds_ret].
    destruct (_ <? _); [now apply adds_sleep | apply adds_ret].
Qed.

Lemma scrape_search_results_navigations (q : str) :
  0 <= max_products_per_search scraping_config ->
  adds_at_most is_driver_get
    ((1 + Z.to_nat (max_products_per_search scraping_config))
     * Z.to_nat (max_retries scraping_config))
    (scrape_search_results q).
Proof.
  intros Hmax. unfold scrape_search_results.
  apply adds_bind_r; [apply adds_silent, search_url_silent|].
  intros target. simpl.
  apply adds_bind; [apply safe_get_navigations|].
  intros ok. destruct (negb ok); [apply (adds_weaken _ 0); [lia | apply adds_ret]|].
  apply adds_bind_r.
  - apply (adds_try_catch _ 0 0); [|intros; apply adds_ret].
    apply adds_bind_r; [now apply call_navigations | intros; apply adds_ret].
  - intros found. destruct (negb found); [apply (adds_weaken _ 0); [lia | apply adds_ret]|].
    apply adds_bind_r; [now apply call_navigations|].
    intros page. apply adds_bind_r; [apply save_debug_navigations|].
    intros _. destruct (no_result page); [apply (adds_weaken _ 0); [lia | apply adds_ret]|].
    eapply adds_weaken; [|apply scrape_links_navigations].
    rewrite enumerate_length.
    pose proof (slice_to_length (product_links page) _ Hmax) as Hlen.
    unfold len in Hlen. apply Nat.mul_le_mono_r. lia.
Qed.

Lemma _scrape_single_product_fallback_requests (link : Link) (n : Z) :
  adds_at_most is_http_get 1 (_scrape_single_product_fallback link n).
Proof.
  unfold _scrape_single_product_fallback.
  apply adds_try_catch_l; [|intros; apply adds_ret].
  apply adds_bind_r; [apply adds_silent, resolve_href_silent|].
  intros u. apply adds_bind_l; [apply adds_call | intros; apply adds_ret].
Qed.

Lemma fallback_links_requests (n : Z) (links : list (Z * Link)) :
  forall products,
    adds_at_most is_http_get (length links) (fallback_links n links products).
Proof.
  induction links as [|[i link] rest IH]; intros products; simpl.
  - apply adds_ret.
  - apply (adds_bind _ 1 (length rest)); [|intros; apply IH].
    apply adds_try_catch_l; [|intros; apply adds_ret].
    apply adds_bind_l; [apply _scrape_single_product_fallback_requests|].
    intros p. apply adds_bind_r; [|intros; apply adds_ret].
    destruct (_ <? _); [now apply adds_sleep | apply adds_ret].
Qed.

Lemma fallback_search_products_requests (q : str) :
  0 <= max_products_per_search scraping_config ->
  adds_at_most is_http_get (1 + Z.to_nat (max_products_per_search scraping_config))
               (fallback_search_products q).
Proof.
  intros Hmax. unfold fallback_search_products.
  apply adds_bind_r; [apply adds_silent, search_url_silent|].
  intros target. apply adds_try_catch_l; [|intros; apply adds_ret].
  apply adds_bind; [apply adds_call|].
  intros page. destruct (no_result page); [apply (adds_weaken _ 0); [lia | apply adds_ret]|].
  eapply adds_weaken; [|apply fallback_links_requests].
  rewrite enumerate_length.
  pose proof (slice_to_length (product_links page) _ Hmax) as Hlen.
  unfold len in Hlen. lia.
Qed.

(** The orchestrator's loop, for a kind of event [p] that no sleep is
    an instance of, given what the two parts of an attempt add. *)
Section LoopBudget.

Variable p : event -> bool.
Variables nb nf : nat.
Hypothesis p_sleep : forall site lo hi, p (EvSleep site lo hi) = false.
Hypothesis browser_budget : forall q, adds_at_most p nb (browser_attempt q).
Hypothesis fallback_budget : forall q, adds_at_most p nf (fallback_attempt q).

Lemma search_attempt_budget (q : str) (attempt : Z) :
  adds_at_most p (nb + nf) (search_attempt q attempt).
Proof.
  unfold search_attempt. apply adds_try_catch_l.
  - unfold search_attempt_body.
    apply adds_bind_r; [now apply adds_sleep|].
    intros _. apply adds_bind; [apply browser_budget|].
    intros [ps|]; [apply (adds_weaken _ 0); [lia | apply adds_ret] | apply fallback_budget].
  - intros e. destruct (_ <? _); [|apply adds_ret].
    apply adds_bind_r; [now apply adds_sleep | intros; apply adds_ret].
Qed.

Lemma search_loop_budget (q : str) (attempts : list Z) :
  adds_at_most p (length attempts * (nb + nf)) (search_loop q attempts).
Proof.
  induction attempts as [|attempt rest IH]; simpl.
  - apply adds_ret.
  - apply adds_bind; [apply search_attempt_budget|].
    intros [ps|]; [apply (adds_weaken _ 0); [lia | apply adds_ret] | exact IH].
Qed.

End LoopBudget.

Lemma browser_event_not_http (ev : event) :
  is_browser_event ev = true -> is_http_get ev = false.
Proof. destruct ev as [| | | | | | | | | | |[]]; simpl; congruence. Qed.

Lemma fallback_event_not_navigation (ev : event) :
  is_fallback_event ev = true -> is_driver_get ev = false.
Proof. destruct ev as [| | | | | | | | | | |[]]; simpl; congruence. Qed.

Lemma search_products_requests (q : str) :
  0 <= max_products_per_search scraping_config ->
  adds_at_most is_http_get
    (Z.to_nat (max_retries scraping_config)
     * (1 + Z.to_nat (max_products_per_search scraping_config)))
    (search_products q).
Proof.
  intros Hmax. unfold search_products.
  rewrite <- (range_length (max_retries scraping_config)).
  apply (search_loop_budget is_http_get 0
           (1 + Z.to_nat (max_products_per_search scraping_config))).
  - reflexivity.
  - intros q'. apply (adds_none _ is_browser_event);
      [apply browser_event_not_http | apply browser_attempt_browser_events].
  - intros q'. unfold fallback_attempt.
    apply adds_bind_l; [now apply fallback_search_products_requests|].
    intros ps. destruct (truthy ps); apply adds_ret.
Qed.

Lemma search_products_navigations (q : str) :
  0 <= max_products_per_search scraping_config ->
  adds_at_most is_driver_get
    (Z.to_nat (max_retries scraping_config)
     * ((1 + Z.to_nat (max_products_per_search scraping_config))
        * Z.to_nat (max_retries scraping_config)))
    (search_products q).
Proof.
  intros Hmax. unfold search_products.
  eapply adds_weaken;
    [|apply (search_loop_budget is_driver_get
               ((1 + Z.to_nat (max_products_per_search scraping_config))
                * Z.to_nat (max_retries scraping_config)) 0)].
  - rewrite range_length, Nat.add_0_r. reflexivity.
  - reflexivity.
  - intros q'. unfold browser_attempt.
    apply adds_bind_r; [apply adds_silent, emits_get_mgr|].
    intros m. destruct (negb _); [|apply (adds_weaken _ 0); [lia | apply adds_ret]].
    apply adds_try_catch_l; [|intros; apply adds_ret].
    apply adds_bind_l; [now apply scrape_search_results_navigations|].
    intros ps. destruct (truthy ps); apply adds_ret.
  - intros q'. apply (adds_none _ is_fallback_event);
      [apply fallback_event_not_navigation | apply fallback_attempt_events].
Qed.

(** X21: a search asks for a bounded number of pages.  With
    [max_products_per_search >= 0]: the fallback search makes at most
    [1 + max_products_per_search] HTTP requests; the browser-driven
    search makes at most [(1 + max_products_per_search) * max_retries]
    navigations; and a whole [search_products] makes at most
    [max_retries] times as many of each. *)
Theorem request_budget (q : str) (s : State) :
  0 <= max_products_per_search scraping_config ->
  let products := Z.to_nat (max_products_per_search scraping_config) in
  let retries := Z.to_nat (max_retries scraping_config) in
  (exists evs,
      trace (fallback_search_products q s).2 = trace s ++ evs /\
      (length (List.filter is_http_get evs) <= 1 + products)%nat)
  /\
  (exists evs,
      trace (scrape_search_results q s).2 = trace s ++ evs /\
      (length (List.filter is_driver_get evs) <= (1 + products) * retries)%nat)
  /\
  (exists evs,
      trace (search_products q s).2 = trace s ++ evs /\
      (length (List.filter is_http_get evs) <= retries * (1 + products))%nat /\
      (length (List.filter is_driver_get evs)
       <= retries * ((1 + products) * retries))%nat).
Proof.
  intros Hmax products retries. split; [|split].
  - exact (fallback_search_products_requests q Hmax s).
  - exact (scrape_search_results_navigations q Hmax s).
  - destruct (search_products_requests q Hmax s) as (evs & Ht & Hreq).
    destruct (search_products_navigations q Hmax s) as (evs' & Ht' & Hnav).
    rewrite Ht in Ht'. apply app_inv_head in Ht'. subst evs'.
    now exists evs.
Qed.

End ScraperProperties.

Lemma products_come_from_links_witness :
  let E := Samples.healthy_env (Samples.catalog_page 5) in
  exists ps s',
    fallback_search_products default_scraping_config default_config E
      (py "SBC") initial_state = (Ok ps, s') /\
    len ps = 3 /\
    exists target page kept,
      is_search_url default_config E (py "SBC") target /\
      served E target page /\ no_result page = false /\
      kept `sublist_of` slice_to (product_links page) 3 /\
      Forall2 (fallback_product default_config E) kept ps.
Proof.
  intros E.
  destruct (fallback_search_products default_scraping_config default_config E
              (py "SBC") initial_state) as [[ps|e] s'] eqn:Hrun;
    [|vm_compute in Hrun; discriminate].
  assert (Hlen : len ps = 3).
  { pose proof Hrun as Hc. vm_compute in Hc. injection Hc as <- _. reflexivity. }
  assert (Hne : ps <> []) by (intros ->; discriminate).
  exists ps, s'. split; [reflexivity|]. split; [exact Hlen|].
  exact (proj2 (products_come_from_links default_scraping_config default_config E
                  (py "SBC") initial_state s' ps Hne) Hrun).
Defined.

Lemma request_budget_witness :
  let E := Samples.healthy_env (Samples.catalog_page 5) in
  (exists evs,
      trace (fallback_search_products default_scraping_config default_config E
               (py "SBC") initial_state).2 = trace initial_state ++ evs /\
      (length (List.filter is_http_get evs) <= 4)%nat)
  /\
  (exists evs,
      trace (scrape_search_results default_scraping_config default_config E
               (py "SBC") initial_state).2 = trace initial_state ++ evs /\
      (length (List.filter is_driver_get evs) <= 8)%nat)
  /\
  (exists evs,
      trace (search_products default_scraping_config default_config E
               (py "SBC") initial_state).2 = trace initial_state ++ evs /\
      (length (List.filter is_http_get evs) <= 8)%nat /\
      (length (List.filter is_driver_get evs) <= 16)%nat).
Proof.
  intros E.
  apply (request_budget default_scraping_config default_config E (py "SBC") initial_state).
  simpl. lia.
Defined.

(** ** No blank entry *)

Lemma full_key_nonempty (cat key : str) : key <> [] -> full_key cat key <> [].
Proof. intros Hk. unfold full_key. destruct cat; simpl; [exact Hk | discriminate]. Qed.

Lemma truncate_description_nonempty (t : str) :
  t <> [] -> FallbackExtract.truncate_description t <> [].
Proof.
  intros Ht. unfold FallbackExtract.truncate_description.
  destruct (500 <? len t); [|exact Ht].
  intros H. apply app_eq_nil in H. destruct H as [_ H]. discriminate.
Qed.

(** X22: neither extraction returns a blank entry: in the dict of
    either extractor every key and every value is a non-empty
    string. *)
Theorem no_blank_entries (soup : Soup) (k v : str) :
  (BrowserExtract._extract_specifications soup !! k = Some v -> k <> [] /\ v <> [])
  /\
  (FallbackExtract._extract_specifications_simple soup !! k = Some v ->
   k <> [] /\ v <> []).
Proof.
  assert (Hrows : FallbackExtract.table_specs soup !! k = Some v -> k <> [] /\ v <> []).
  { intros H. apply table_loop_lookup in H.
    destruct H as [H | (t & cells & _ & _ & He)]; [now rewrite lookup_empty in H|].
    apply fallback_row_entry_inv in He.
    destruct He as (c0 & c1 & rest & _ & Hk & _ & Hv & _ & ->).
    split; [now apply full_key_nonempty | exact Hv]. }
  split; intros H.
  - apply table_loop_lookup in H.
    destruct H as [H | (t & cells & _ & _ & He)]; [now rewrite lookup_empty in H|].
    apply browser_row_entry_inv in He.
    destruct He as (c0 & c1 & rest & _ & Hk & _ & Hv & ->).
    split; [now apply full_key_nonempty | exact Hv].
  - unfold FallbackExtract._extract_specifications_simple in H.
    case_bool_decide as Hempty; [|now apply Hrows].
    destruct (FallbackExtract.first_description (desc_elements soup)) as [t|] eqn:Hd;
      [|now apply Hrows].
    apply lookup_insert_Some in H. destruct H as [[<- <-] | [_ H]]; [|now apply Hrows].
    split; [discriminate|].
    apply truncate_description_nonempty.
    apply first_description_inv in Hd. destruct Hd as (d & _ & _ & Hlen).
    intros ->. unfold len in Hlen. simpl in Hlen. lia.
Qed.

(** ** Debug files *)

Definition is_save_debug (ev : event) : bool :=
  match ev with
  | EvSaveDebug _ => true
  | _ => false
  end.

(** The events that write no debug file. *)
Definition writes_nothing (ev : event) : bool := negb (is_save_debug ev).

Lemma driver_event_writes_nothing (ev : event) :
  is_driver_event ev = true -> writes_nothing ev = true.
Proof. destruct ev; cbv; congruence. Qed.

Lemma fallback_event_writes_nothing (ev : event) :
  is_fallback_event ev = true -> writes_nothing ev = true.
Proof. destruct ev as [| | | | | | | | | | |[]]; cbv; congruence. Qed.

Section DebugFiles.

Variable scraping_config : ScrapingConfig.
Variable config : ServerConfig.
Variable E : Env.

Hypothesis debug_off : save_debug_html config = false.

Lemma ensure_driver_writes_nothing : emits writes_nothing (ensure_driver E).
Proof.
  apply (emits_weaken is_driver_event);
    [apply driver_event_writes_nothing | apply ensure_driver_driver_events].
Qed.
Hint Resolve ensure_driver_writes_nothing : emits.

Lemma safe_get_attempt_writes_nothing target attempt :
  emits writes_nothing (safe_get_attempt scraping_config E target attempt).
Proof. unfold safe_get_attempt. emits_auto. Qed.
Hint Resolve safe_get_attempt_writes_nothing : emits.

Lemma safe_get_loop_writes_nothing target attempts :
  emits writes_nothing (safe_get_loop scraping_config E target attempts).
Proof. induction attempts; simpl; emits_auto. Qed.
Hint Resolve safe_get_loop_writes_nothing : emits.

Lemma safe_get_writes_nothing target :
  emits writes_nothing (safe_get scraping_config E target).
Proof. unfold safe_get. emits_auto. Qed.
Hint Resolve safe_get_writes_nothing : emits.

Lemma save_debug_writes_nothing f :
  emits writes_nothing (save_debug_if_enabled config f).
Proof. unfold save_debug_if_enabled. rewrite debug_off. apply emits_ret. Qed.
Hint Resolve save_debug_writes_nothing : emits.

Lemma resolve_href_writes_nothing link :
  emits writes_nothing (resolve_href config E link).
Proof. apply resolve_href_silent. Qed.
Hint Resolve resolve_href_writes_nothing : emits.

Lemma search_url_writes_nothing q : emits writes_nothing (search_url config E q).
Proof. apply search_url_silent. Qed.
Hint Resolve search_url_writes_nothing : emits.

Lemma _scrape_single_product_writes_nothing link n :
  emits writes_nothing (_scrape_single_product scraping_config config E link n).
Proof. unfold _scrape_single_product. emits_auto. Qed.
Hint Resolve _scrape_single_product_writes_nothing : emits.

Lemma scrape_links_writes_nothing n links products :
  emits writes_nothing (scrape_links scraping_config config E n links products).
Proof.
  revert products. induction links as [|[i link] rest IH]; intros; simpl; emits_auto.
Qed.
Hint Resolve scrape_links_writes_nothing : emits.

Lemma scrape_search_results_writes_nothing q :
  emits writes_nothing (scrape_search_results scraping_config config E q).
Proof. unfold scrape_search_results. emits_auto. Qed.
Hint Resolve scrape_search_results_writes_nothing : emits.

Lemma fallback_search_products_writes_nothing q :
  emits writes_nothing (fallback_search_products scraping_config config E q).
Proof.
  apply (emits_weaken is_fallback_event);
    [apply fallback_event_writes_nothing | apply fallback_search_products_events].
Qed.
Hint Resolve fallback_search_products_writes_nothing : emits.

Lemma search_attempt_writes_nothing q attempt :
  emits writes_nothing (search_attempt scraping_config config E q attempt).
Proof.
  unfold search_attempt, search_attempt_body, browser_attempt, fallback_attempt.
  emits_auto.
Qed.
Hint Resolve search_attempt_writes_nothing : emits.

Lemma search_loop_writes_nothing q attempts :
  emits writes_nothing (search_loop scraping_config config E q attempts).
Proof. induction attempts; simpl; emits_auto. Qed.
Hint Resolve search_loop_writes_nothing : emits.

Lemma call_tool_writes_nothing tool arguments :
  emits writes_nothing (call_tool scraping_config config E tool arguments).
Proof.
  unfold call_tool, call_tool_body, pyval_strip, McpError_init, search_products.
  emits_auto.
Qed.

(** X23: debug pages are written only on request: with
    [save_debug_html] off, a tool call writes no debug file, whatever
    the call and whatever the browser and the site do. *)
Theorem debug_files_only_when_enabled
    (tool : str) (arguments : gmap str pyval) (s : State) :
  exists evs,
    trace (call_tool scraping_config config E tool arguments s).2 = trace s ++ evs /\
    Forall (fun ev => is_save_debug ev = false) evs.
Proof.
  destruct (call_tool_writes_nothing tool arguments s) as (evs & Ht & Hok).
  exists evs. split; [exact Ht|].
  eapply Forall_impl; [exact Hok|].
  intros ev H. now apply negb_true_iff in H.
Qed.

End DebugFiles.

Lemma debug_files_only_when_enabled_witness :
  exists evs,
    trace (call_tool default_scraping_config default_config
             (Samples.healthy_env (Samples.catalog_page 2)) SEARCH_PRODUCTS
             {[ py "query" := PStr (py "SBC") ]} initial_state).2
    = trace initial_state ++ evs /\
    Forall (fun ev => is_save_debug ev = false) evs.
Proof.
  apply (debug_files_only_when_enabled default_scraping_config default_config
           (Samples.healthy_env (Samples.catalog_page 2))).
  reflexivity.
Defined.

(** ** Product names *)

(** A word: not empty, and free of whitespace. *)
Definition is_word (w : str) : Prop :=
  w <> [] /\ Forall (fun c => isspace c = false) w.

Lemma rev_word (cur : str) :
  cur <> [] -> Forall (fun c => isspace c = false) cur -> is_word (rev cur).
Proof.
  intros Hne Hall. split; [|now apply List.Forall_rev].
  intros Hr. apply Hne. apply (f_equal (@rev N)) in Hr.
  now rewrite rev_involutive in Hr.
Qed.

Lemma split_ws_aux_words (s : str) :
  forall cur, Forall (fun c => isspace c = false) cur ->
              Forall is_word (split_ws_aux cur s).
Proof.
  induction s as [|c s IH]; intros cur Hcur; simpl.
  - destruct cur as [|c' cur'] eqn:Hc; simpl; [constructor|].
    constructor; [|constructor]. now apply (rev_word (c' :: cur')).
  - destruct (isspace c) eqn:Hsp.
    + destruct cur as [|c' cur'] eqn:Hc; simpl; [now apply IH|].
      constructor; [now apply (rev_word (c' :: cur')) | now apply IH].
    + apply IH. now constructor.
Qed.

Lemma last_segment_aux_spec (s : str) :
  forall cur, Forall (fun c => c <> 47%N) cur ->
    exists before,
      rev cur ++ s = before ++ last_segment_aux cur s /\
      Forall (fun c => c <> 47%N) (last_segment_aux cur s) /\
      (before = [] \/ last before = Some 47%N).
Proof.
  induction s as [|c s IH]; intros cur Hcur; simpl.
  - exists []. rewrite app_nil_r. split; [reflexivity|].
    split; [now apply List.Forall_rev | now left].
  - destruct (N.eqb_spec c 47) as [-> | Hc].
    + destruct (IH [] (List.Forall_nil _)) as (before & Hs & Hall & Hlast).
      simpl in Hs. exists (rev cur ++ 47%N :: before).
      split; [rewrite <- app_assoc; simpl; now rewrite <- Hs|].
      split; [exact Hall|]. right.
      rewrite last_app, last_cons.
      destruct Hlast as [-> | ->]; reflexivity.
    + destruct (IH (c :: cur)) as (before & Hs & Hall & Hlast); [now constructor|].
      simpl in Hs. rewrite <- app_assoc in Hs. simpl in Hs.
      now exists before.
Qed.

(** X24: the name of a product.  When the link has a title element
    the name is whitespace-normalised: it is a sequence of words
    (non-empty, free of whitespace) joined by single spaces.
    Otherwise the name is what follows the last [/] of the product's
    URL: the URL ends with it, it holds no [/], and what comes before
    it is empty or ends with [/]. *)
Theorem product_name_shape (link : Link) (product_url : str) :
  match product_title link with
  | Some _ =>
      exists words,
        product_name link product_url = join (py " ") words /\
        Forall is_word words
  | None =>
      exists before,
        product_url = before ++ product_name link product_url /\
        Forall (fun c => c <> 47%N) (product_name link product_url) /\
        (before = [] \/ last before = Some 47%N)
  end.
Proof.
  unfold product_name. destruct (product_title link) as [e|].
  - exists (split_ws (get_text_sep_strip e)). split; [reflexivity|].
    apply split_ws_aux_words. constructor.
  - exact (last_segment_aux_spec product_url [] (List.Forall_nil _)).
Qed.

Example product_name_of_sample_link :
  product_name Samples.sbc_link (py "https://www.asrockind.com/en-gb/SBC-230")
  = py "SBC-230 Single Board Computer"
  /\
  product_name {| href := Some (py "/en-gb/SBC-230"); product_title := None |}
               (py "https://www.asrockind.com/en-gb/SBC-230")
  = py "SBC-230".
Proof. split; reflexivity. Qed.
